(** * Directo -> Elasticsearch pipeline: a shallow embedding

    The development follows the Python sources module by module:
    - [directo_connector.py]      (the record fetcher),
    - [elasticsearch_indexer.py]  (the index loader),
    - [main_openai.py]            (the pipeline orchestrator),
    - [ai_query_handler_openai.py] (translator, executor, composer),
    - [verify_data_quick.py]      (the statistics script).

    Python objects that are shared by reference (pandas frames) live in an
    explicit heap; calls to the outside world (HTTP, the search store, the
    language model, the logger) are recorded in a trace; exceptions are an
    explicit result. *)

From Stdlib Require Import SpecFloat Ascii String.
From stdpp Require Import gmap strings list fin_maps pretty.

Set Warnings "-register-all".

Local Open Scope Z_scope.

(** ** Python runtime values *)

(** Instances of [Exception]: the class name and [str(e)]. *)
Record exn := Exn { exn_class : string; exn_msg : string }.

Inductive Res (A : Type) : Type :=
| Ok (a : A)
| Raise (e : exn).
Arguments Ok {A} a.
Arguments Raise {A} e.

(** A [float] is an IEEE binary64 value; a [datetime] / [pd.Timestamp] is a
    count of nanoseconds since the epoch. *)
Abbreviation pyfloat := spec_float.
Definition datetime := Z.

Definition float_isnan (f : pyfloat) : bool :=
  match f with S754_nan => true | _ => false end.

Definition float_truthy (f : pyfloat) : bool :=
  match f with S754_zero _ => false | _ => true end.

Definition float_gt_zero (f : pyfloat) : bool :=
  match f with
  | S754_infinity false | S754_finite false _ _ => true
  | _ => false
  end.

(** Values parsed from JSON text, and bodies sent to / received from the
    store.  A [dict] is kept as an association list (insertion order,
    first binding wins on lookup). *)
Inductive Json :=
| JNull
| JBool (b : bool)
| JInt (n : Z)
| JFloat (f : pyfloat)
| JStr (s : string)
| JArr (l : list Json)
| JObj (kvs : list (string * Json)).

(** Cells of a pandas frame as [to_dict('records')] hands them out. *)
Inductive value :=
| VNone
| VNaT
| VBool (b : bool)
| VInt (n : Z)
| VFloat (f : pyfloat)
| VStr (s : string)
| VTimestamp (t : datetime).

Global Instance pyfloat_eq_dec : EqDecision pyfloat.
Proof. solve_decision. Defined.
Global Instance value_eq_dec : EqDecision value.
Proof. solve_decision. Defined.
Global Instance exn_eq_dec : EqDecision exn.
Proof. solve_decision. Defined.

(** Library functions of Python, pandas and the [json] module whose results
    the pipeline only passes along. *)
Class PyLib := {
  float_repr : pyfloat -> string;            (* str(float) *)
  isoformat : datetime -> string;            (* value.isoformat() *)
  strftime_dmy : datetime -> string;         (* strftime("%d.%m.%Y") *)
  json_loads : string -> option Json;        (* json.loads; None = JSONDecodeError *)
  json_decode_msg : string -> string;        (* str() of that JSONDecodeError *)
  json_dumps_indent2 : Json -> string;       (* json.dumps(x, indent=2) *)
  json_str : Json -> string;                 (* str(x), the repr of a parsed value *)
  timestamp_str : datetime -> string;         (* str(pd.Timestamp) *)
  pd_to_datetime : list value -> list value; (* pd.to_datetime(col, errors='coerce') *)
  pd_to_numeric : list value -> list value;  (* pd.to_numeric(col, errors='coerce') *)
}.

(** ** Dictionaries with insertion order *)

Section dict.
Context {V : Type}.

Fixpoint dict_get (d : list (string * V)) (k : string) : option V :=
  match d with
  | [] => None
  | (k', v) :: d' => if decide (k' = k) then Some v else dict_get d' k
  end.

Definition dict_in (k : string) (d : list (string * V)) : bool :=
  bool_decide (is_Some (dict_get d k)).

(** [d.get(k, dflt)] *)
Definition dict_get_default (d : list (string * V)) (k : string) (dflt : V) : V :=
  default dflt (dict_get d k).
End dict.

(** ** Strings

    A [str] is a Rocq [string] holding the UTF-8 bytes of the text; the
    string algorithms run on its list of characters. *)

Definition s2l (s : string) : list ascii := String.list_ascii_of_string s.
Definition l2s (l : list ascii) : string := String.string_of_list_ascii l.

Definition chr (n : nat) : string := String (Ascii.ascii_of_nat n) EmptyString.
Definition nl : string := chr 10.
Definition dq : string := chr 34.

Fixpoint starts_with (p s : list ascii) : bool :=
  match p, s with
  | [], _ => true
  | a :: p', b :: s' => bool_decide (a = b) && starts_with p' s'
  | _ :: _, [] => false
  end.

(** [sub in s] *)
Fixpoint occurs (sub s : list ascii) : bool :=
  starts_with sub s ||
  match s with
  | [] => false
  | _ :: s' => occurs sub s'
  end.

Definition str_in (sub s : string) : bool := occurs (s2l sub) (s2l s).

(** [s.split(sep)] for a non-empty separator: [skip] counts the characters of
    a separator just recognised that are still to be passed over, [cur] is
    the piece being read, reversed. *)
Fixpoint split_go (sep s : list ascii) (skip : nat) (cur : list ascii)
  : list (list ascii) :=
  match s with
  | [] => [reverse cur]
  | c :: s' =>
      match skip with
      | S k => split_go sep s' k cur
      | O =>
          if starts_with sep s
          then reverse cur :: split_go sep s' (length sep - 1) []
          else split_go sep s' O (c :: cur)
      end
  end.

Definition py_split (s sep : string) : list string :=
  l2s <$> split_go (s2l sep) (s2l s) O [].

(** Characters [str.strip()] removes, as UTF-8 byte sequences. *)
Definition py_whitespace : list (list ascii) :=
  (fmap (M := list) Ascii.ascii_of_nat <$>
     [[9]; [10]; [11]; [12]; [13]; [28]; [29]; [30]; [31]; [32];
      [194; 133]; [194; 160]; [225; 154; 128];
      [226; 128; 128]; [226; 128; 129]; [226; 128; 130]; [226; 128; 131];
      [226; 128; 132]; [226; 128; 133]; [226; 128; 134]; [226; 128; 135];
      [226; 128; 136]; [226; 128; 137]; [226; 128; 138];
      [226; 128; 168]; [226; 128; 169]; [226; 128; 175];
      [226; 129; 159]; [227; 128; 128]])%nat.

(** The length of a token of [toks] that [s] starts with, if any. *)
Fixpoint first_prefix (toks : list (list ascii)) (s : list ascii) : option nat :=
  match toks with
  | [] => None
  | t :: toks' =>
      if starts_with t s then Some (length t) else first_prefix toks' s
  end.

Fixpoint lstrip_go (toks : list (list ascii)) (s : list ascii) (skip : nat)
  : list ascii :=
  match s with
  | [] => []
  | c :: s' =>
      match skip with
      | S k => lstrip_go toks s' k
      | O =>
          match first_prefix toks s with
          | Some n => lstrip_go toks s' (n - 1)
          | None => s
          end
      end
  end.

Definition lstrip (s : list ascii) : list ascii := lstrip_go py_whitespace s O.

Definition rstrip (s : list ascii) : list ascii :=
  reverse (lstrip_go (reverse <$> py_whitespace) (reverse s) O).

Definition py_strip (s : string) : string := l2s (rstrip (lstrip (s2l s))).

(** [sep.join(parts)] *)
Fixpoint py_join (sep : string) (parts : list string) : string :=
  match parts with
  | [] => EmptyString
  | [p] => p
  | p :: ps => p +:+ sep +:+ py_join sep ps
  end.

(** The characters of a text, each with its UTF-8 bytes: bytes that
    continue a sequence (10xxxxxx) belong to the character before them. *)
Definition is_continuation (s : string) : bool :=
  match s with
  | String c _ =>
      let n := nat_of_ascii c in (128 <=? n)%nat && (n <? 192)%nat
  | EmptyString => false
  end.

Fixpoint str_chars (s : string) : list string :=
  match s with
  | EmptyString => []
  | String c s' =>
      match str_chars s' with
      | ch :: chs =>
          if is_continuation ch then String c ch :: chs
          else String c EmptyString :: ch :: chs
      | [] => [String c EmptyString]
      end
  end.

(** [str(x)] of a Python integer or length. *)
Definition str_int (n : Z) : string := pretty n.
Definition str_len {A} (l : list A) : string := pretty (length l).

(** ** pandas frames

    A frame is its column labels and its rows; a cell a row does not define
    reads as NaN, which is how [pd.DataFrame(list_of_dicts)] fills the
    holes. *)

Definition NaN : value := VFloat S754_nan.

Record DataFrame := mkDataFrame {
  columns : list string;
  rows : list (gmap string value)
}.

Global Instance DataFrame_eq_dec : EqDecision DataFrame.
Proof. solve_decision. Defined.

Definition cell (row : gmap string value) (c : string) : value :=
  default NaN (row !! c).

(** [df.empty]: some axis has length zero. *)
Definition df_empty (df : DataFrame) : bool :=
  match columns df, rows df with
  | [], _ | _, [] => true
  | _, _ => false
  end.

(** [len(df)] *)
Definition df_len (df : DataFrame) : nat := length (rows df).

(** [df[c] = v] for a scalar [v]. *)
Definition df_setitem (df : DataFrame) (c : string) (v : value) : DataFrame :=
  {| columns := if decide (c ∈ columns df) then columns df else columns df ++ [c];
     rows := <[c := v]> <$> rows df |}.

(** [df[c]] *)
Definition df_getitem (df : DataFrame) (c : string) : list value :=
  (λ r, cell r c) <$> rows df.

(** [df[c] = series], aligned by position. *)
Definition df_setitem_series (df : DataFrame) (c : string) (vs : list value)
  : DataFrame :=
  {| columns := if decide (c ∈ columns df) then columns df else columns df ++ [c];
     rows := imap (λ i r, <[c := default NaN (vs !! i)]> r) (rows df) |}.

(** [df.to_dict('records')] *)
Definition to_dict_records (df : DataFrame) : list (gmap string value) :=
  (λ r, foldl (λ d c, <[c := cell r c]> d) ∅ (columns df)) <$> rows df.

(** [pd.DataFrame(data)] for a list of string dictionaries. *)
Fixpoint union_keys (seen : list string) (data : list (list (string * string)))
  : list string :=
  match data with
  | [] => seen
  | d :: data' =>
      union_keys (foldl (λ acc kv, if decide (kv.1 ∈ acc) then acc else acc ++ [kv.1])
                        seen d) data'
  end.

Definition pd_DataFrame (data : list (list (string * string))) : DataFrame :=
  {| columns := union_keys [] data;
     rows := (λ d, foldl (λ r kv, <[kv.1 := VStr kv.2]> r) ∅ d) <$> data |}.

(** [pd.isna(x)] on a scalar. *)
Definition pd_isna (v : value) : bool :=
  match v with
  | VNone | VNaT => true
  | VFloat f => float_isnan f
  | _ => false
  end.

(** [isinstance(x, (pd.Timestamp, datetime))]; [NaT] is a [datetime]. *)
Definition is_datetime (v : value) : bool :=
  match v with
  | VTimestamp _ | VNaT => true
  | _ => false
  end.

(** [bool(x)] *)
Definition truthy (v : value) : bool :=
  match v with
  | VNone => false
  | VNaT => true
  | VBool b => b
  | VInt n => bool_decide (n ≠ 0)
  | VFloat f => float_truthy f
  | VStr s => bool_decide (s ≠ "")
  | VTimestamp _ => true
  end.

(** [str(x)] of a cell. *)
Definition py_str `{!PyLib} (v : value) : string :=
  match v with
  | VNone => "None"
  | VNaT => "NaT"
  | VBool b => if b then "True" else "False"
  | VInt n => str_int n
  | VFloat f => float_repr f
  | VStr s => s
  | VTimestamp t => timestamp_str t
  end.

(** ** The outside world *)

(** A bulk action of [elasticsearch.helpers]; [act_id] is the ["_id"] key,
    absent when [None]. *)
Record Action := mkAction {
  act_index : string;
  act_source : gmap string value;
  act_id : option string
}.

(** The keyword arguments of [es.search]. *)
Record SearchRequest := mkSearch {
  req_index : string;
  req_query : Json;
  req_aggs : option Json;
  req_size : Z
}.

(** One call of [client.chat.completions.create]; the temperature is kept in
    hundredths. *)
Record ChatRequest := mkChat {
  chat_model : string;
  chat_system : string;
  chat_user : string;
  chat_temperature : Z;
  chat_max_tokens : Z
}.

(** [response.choices], each with its [message.content]. *)
Definition ChatResponse := list (option string).

Record HttpResponse := mkHttp {
  status_code : Z;
  content : string
}.

(** An [ElementTree] element. *)
Inductive Element :=
| mkElement (tag : string) (text : option string)
            (attrib : list (string * string)) (children : list Element).

Definition el_tag (e : Element) : string := let 'mkElement t _ _ _ := e in t.
Definition el_text (e : Element) : option string := let 'mkElement _ t _ _ := e in t.
Definition el_attrib (e : Element) : list (string * string) :=
  let 'mkElement _ _ a _ := e in a.
Definition el_children (e : Element) : list Element :=
  let 'mkElement _ _ _ c := e in c.

Inductive level := INFO | WARNING | ERROR.

(** The field kinds of one store collection. *)
Definition Mapping := list (string * string).

Inductive Event :=
| Log (lvl : level) (msg : string)
| PrintExc (e : exn)
| HttpPost (params : list (string * string))
| IndicesExists (index : string)
| IndicesCreate (index : string) (mapping : Mapping)
| IndicesDelete (index : string)
| Bulk (actions : list Action)
| Search (req : SearchRequest)
| ChatCreate (req : ChatRequest).

(** What the collaborators answer, given everything that happened before. *)
Record Services := {
  clock : list Event -> datetime;
  requests_post : list Event -> list (string * string) -> Res HttpResponse;
  et_fromstring : string -> Res Element;
  indices_exists : list Event -> string -> Res bool;
  indices_create : list Event -> string -> Mapping -> Res unit;
  indices_delete : list Event -> string -> Res unit;
  helpers_bulk : list Event -> list Action -> Res (Z * list Json);
  es_search : list Event -> SearchRequest -> Res Json;
  chat_create : list Event -> ChatRequest -> Res ChatResponse
}.

Definition loc := positive.

Record World := mkWorld {
  heap : gmap loc DataFrame;
  trace : list Event
}.

(** ** Computations: state and exceptions *)

Definition M (A : Type) : Type := World -> Res A * World.

Global Instance M_ret : MRet M := λ A a w, (Ok a, w).
Global Instance M_bind : MBind M := λ A B f m w,
  match m w with
  | (Ok a, w') => f a w'
  | (Raise e, w') => (Raise e, w')
  end.

Definition raise {A} (e : exn) : M A := λ w, (Raise e, w).

(** [try: body  except Exception as e: handler e] *)
Definition try_except {A} (body : M A) (handler : exn -> M A) : M A := λ w,
  match body w with
  | (Ok a, w') => (Ok a, w')
  | (Raise e, w') => handler e w'
  end.

(** [try: body  except cls as e: handler e] *)
Definition try_except_cls {A} (cls : string) (body : M A) (handler : exn -> M A)
  : M A := λ w,
  match body w with
  | (Ok a, w') => (Ok a, w')
  | (Raise e, w') =>
      if decide (exn_class e = cls) then handler e w' else (Raise e, w')
  end.

Definition lift {A} (r : Res A) : M A := λ w, (r, w).

Definition emit (ev : Event) : M unit := λ w,
  (Ok (), {| heap := heap w; trace := trace w ++ [ev] |}).

(** A call to a collaborator: the call is recorded, then answered. *)
Definition call {A} (ev : Event) (answer : list Event -> Res A) : M A := λ w,
  (answer (trace w), {| heap := heap w; trace := trace w ++ [ev] |}).

Definition logger_info (msg : string) : M unit := emit (Log INFO msg).
Definition logger_warning (msg : string) : M unit := emit (Log WARNING msg).
Definition logger_error (msg : string) : M unit := emit (Log ERROR msg).

(** [datetime.now()] *)
Definition datetime_now (svc : Services) : M datetime := λ w,
  (Ok (clock svc (trace w)), w).

(** [for x in xs: body x] *)
Fixpoint for_each {A} (xs : list A) (body : A -> M unit) : M unit :=
  match xs with
  | [] => mret ()
  | x :: xs' => body x ;; for_each xs' body
  end.

(** Frames on the heap. *)
Definition deref (l : loc) : M DataFrame := λ w,
  match heap w !! l with
  | Some df => (Ok df, w)
  | None => (Raise (Exn "ReferenceError" "no such object"), w)
  end.

Definition alloc (df : DataFrame) : M loc := λ w,
  let l := fresh (dom (heap w)) in
  (Ok l, {| heap := <[l := df]> (heap w); trace := trace w |}).

Definition store (l : loc) (df : DataFrame) : M unit := λ w,
  (Ok (), {| heap := <[l := df]> (heap w); trace := trace w |}).

(** [df.copy()] *)
Definition df_copy (l : loc) : M loc := df ← deref l; alloc df.

(** ** elasticsearch_indexer.py *)

Module ElasticsearchIndexer.
Section indexer.
Context `{!PyLib} (svc : Services).

Definition invoice_mapping : Mapping :=
  [("number", "keyword"); ("date", "date"); ("duedate", "date");
   ("transactiondate", "date"); ("vatzone", "keyword");
   ("paymentterm", "keyword"); ("country", "keyword");
   ("currency", "keyword"); ("currencyrate", "float");
   ("customercode", "keyword"); ("customername", "text");
   ("comment", "text"); ("address1", "text"); ("address2", "text");
   ("address3", "text"); ("salesman", "keyword"); ("confirmed", "keyword");
   ("netamount", "float"); ("vat", "float"); ("balance", "float");
   ("totalamount", "float"); ("ts", "date"); ("indexed_at", "date")].

Definition purchase_mapping : Mapping :=
  [("number", "keyword"); ("date", "date"); ("duedate", "date");
   ("sum", "float"); ("supplierinvoiceno", "keyword");
   ("paymentterm", "keyword"); ("supplier", "keyword");
   ("suppliername", "text"); ("transactiontime", "date"); ("vat", "float");
   ("asset", "keyword"); ("confirmed", "keyword"); ("ts", "date");
   ("indexed_at", "date")].

Definition item_mapping : Mapping :=
  [("code", "keyword"); ("name", "text"); ("class", "keyword");
   ("class_name", "text"); ("unit", "keyword"); ("salesprice", "float");
   ("vatprice", "float"); ("vatprice1", "float"); ("vatprice2", "float");
   ("vatprice3", "float"); ("vatprice4", "float"); ("cost", "float");
   ("closed", "keyword"); ("ts", "date"); ("tscreated", "date");
   ("indexed_at", "date")].

Definition project_mapping : Mapping :=
  [("code", "keyword"); ("name", "text"); ("manager", "keyword");
   ("start", "date"); ("end", "date"); ("master", "keyword");
   ("type", "keyword"); ("country", "keyword"); ("closed", "keyword");
   ("points", "integer"); ("createdts", "date"); ("ts", "date");
   ("indexed_at", "date")].

Definition customer_mapping : Mapping :=
  [("code", "keyword"); ("name", "text"); ("class", "keyword");
   ("regno", "keyword"); ("type", "keyword"); ("salesman", "keyword");
   ("country", "keyword"); ("email", "keyword"); ("address1", "text");
   ("address2", "text"); ("ts", "date"); ("ts_created", "date");
   ("indexed_at", "date")].

Definition object_mapping : Mapping :=
  [("code", "keyword"); ("name", "text"); ("type", "keyword");
   ("level", "keyword"); ("ts", "date"); ("indexed_at", "date")].

Definition indices : list (string * Mapping) :=
  [("invoices", invoice_mapping); ("purchases", purchase_mapping);
   ("items", item_mapping); ("projects", project_mapping);
   ("customers", customer_mapping); ("objects", object_mapping)].

Definition es_indices_exists (index : string) : M bool :=
  call (IndicesExists index) (λ h, indices_exists svc h index).
Definition es_indices_create (index : string) (m : Mapping) : M unit :=
  call (IndicesCreate index m) (λ h, indices_create svc h index m).
Definition es_indices_delete (index : string) : M unit :=
  call (IndicesDelete index) (λ h, indices_delete svc h index).

(** The body of the loop of [create_index_mappings] for one collection. *)
Definition create_one (index_name : string) (mapping : Mapping) : M unit :=
  try_except
    (ex ← es_indices_exists index_name;
     if ex : bool
     then logger_info ("Index '" +:+ index_name +:+ "' already exists")
     else es_indices_create index_name mapping ;;
          logger_info ("Created index '" +:+ index_name +:+ "'"))
    (λ e,
     logger_error ("Error creating index '" +:+ index_name +:+ "': "
                   +:+ exn_msg e) ;;
     try_except
       (es_indices_delete index_name ;;
        es_indices_create index_name mapping ;;
        logger_info ("Recreated index '" +:+ index_name +:+ "'"))
       (λ e2,
        logger_error ("Failed to recreate index '" +:+ index_name +:+ "': "
                      +:+ exn_msg e2))).

Definition create_index_mappings : M unit :=
  for_each indices (λ im, create_one im.1 im.2).

(** The clean-up of one cell in the loop over [record.items()]. *)
Definition clean_value (v : value) : value :=
  if pd_isna v then VNone
  else if is_datetime v then
    match v with
    | VTimestamp t => if negb (pd_isna v) then VStr (isoformat t) else VNone
    | _ => VNone
    end
  else v.

Definition clean_record (record : gmap string value) : gmap string value :=
  map_fold (λ key v cleaned_record, <[key := clean_value v]> cleaned_record)
           ∅ record.

(** The action built for one record. *)
Definition make_action (index_name : string) (id_field : option string)
           (record : gmap string value) : Action :=
  let cleaned_record := clean_record record in
  let use_id :=
    match id_field with
    | Some f =>
        bool_decide (f ≠ "")
        && bool_decide (is_Some (cleaned_record !! f))
        && truthy (default VNone (cleaned_record !! f))
    | None => false
    end in
  {| act_index := index_name;
     act_source := cleaned_record;
     act_id :=
       if use_id
       then f ← id_field; v ← cleaned_record !! f; Some (py_str v)
       else None |}.

Definition es_bulk (actions : list Action) : M (Z * list Json) :=
  call (Bulk actions) (λ h, helpers_bulk svc h actions).

(** The bulk call of [index_dataframe] with its error handling. *)
Definition bulk_write (index_name : string) (actions : list Action) : M Z :=
  try_except
    (r ← es_bulk actions;
     let '(success, failed) := r in
     logger_info ("✓ Indexed " +:+ str_int success
                  +:+ " documents to '" +:+ index_name +:+ "'") ;;
     (if bool_decide (failed ≠ []) then
        logger_warning ("⚠️  " +:+ str_len failed
                        +:+ " documents failed to index") ;;
        for_each (imap (λ i fail, (i, fail)) (take 5 failed))
          (λ '(i, fail),
           logger_error ("  Failed doc " +:+ pretty (i + 1)%nat +:+ ": "
                         +:+ json_str fail))
      else mret ()) ;;
     mret success)
    (λ e,
     logger_error ("❌ Bulk indexing failed for '" +:+ index_name
                   +:+ "': " +:+ exn_msg e) ;;
     emit (PrintExc e) ;;
     mret 0).

Definition index_dataframe (index_name : string) (df : option loc)
           (id_field : option string) : M Z :=
  skip ← match df with
         | None => mret true
         | Some l => d ← deref l; mret (df_empty d)
         end;
  if skip : bool then
    logger_warning ("DataFrame for " +:+ index_name
                    +:+ " is empty, skipping indexing") ;;
    mret 0
  else
    match df with
    | None => mret 0
    | Some l =>
        d ← deref l;
        logger_info ("Preparing to index " +:+ pretty (df_len d)
                     +:+ " documents to '" +:+ index_name +:+ "'...") ;;
        l' ← df_copy l;
        now ← datetime_now svc;
        d' ← deref l';
        store l' (df_setitem d' "indexed_at" (VStr (isoformat now))) ;;
        d'' ← deref l';
        let records := to_dict_records d'' in
        let actions := make_action index_name id_field <$> records in
        bulk_write index_name actions
    end.

(** [if name in data: self.index_dataframe(name, data[name], id_field=...)] *)
Definition index_if_present (data : list (string * option loc))
           (name id_field : string) : M unit :=
  match dict_get data name with
  | Some df => index_dataframe name df (Some id_field) ;; mret ()
  | None => mret ()
  end.

Definition index_all_data (data : list (string * option loc)) : M unit :=
  logger_info "Starting to index all financial data..." ;;
  create_index_mappings ;;
  index_if_present data "invoices" "number" ;;
  index_if_present data "purchases" "number" ;;
  index_if_present data "items" "code" ;;
  index_if_present data "projects" "code" ;;
  index_if_present data "customers" "code" ;;
  index_if_present data "objects" "code" ;;
  index_if_present data "accounts" "code" ;;
  index_if_present data "suppliers" "code" ;;
  logger_info "All data indexed successfully".
End indexer.
End ElasticsearchIndexer.

(** ** directo_connector.py *)

Module DirectoConnector.
Section connector.
Context `{!PyLib} (svc : Services) (token : string).

(** [str(x)] of an optional string. *)
Definition str_opt (o : option string) : string := default "None" o.

(** [params.update(filters)] *)
Definition dict_update (params filters : list (string * string))
  : list (string * string) :=
  foldl (λ acc kv,
         if dict_in kv.1 acc
         then (λ kv', if decide (kv'.1 = kv.1) then kv else kv') <$> acc
         else acc ++ [kv])
        params filters.

Definition _make_request (data_type : string) (filters : list (string * string))
  : M Element :=
  let params := [("token", token); ("get", "1"); ("what", data_type)] in
  let params := if bool_decide (filters ≠ []) then dict_update params filters
                else params in
  try_except
    (response ← call (HttpPost params) (λ h, requests_post svc h params);
     (if bool_decide (status_code response ≠ 200)
      then raise (Exn "Exception"
                      ("HTTP Error: " +:+ str_int (status_code response)))
      else mret ()) ;;
     root ← lift (et_fromstring svc (content response));
     (if decide (el_tag root = "err")
      then raise (Exn "Exception" ("API Error: " +:+ str_opt (el_text root)))
      else if bool_decide (el_tag root = "result")
              && bool_decide (dict_get (el_attrib root) "type" = Some "5")
      then raise (Exn "Exception"
                      ("Unauthorized: "
                       +:+ str_opt (dict_get (el_attrib root) "desc")))
      else mret ()) ;;
     logger_info ("Successfully fetched " +:+ data_type +:+ " data") ;;
     mret root)
    (λ e,
     logger_error ("Error fetching " +:+ data_type +:+ ": " +:+ exn_msg e) ;;
     raise e).

Definition _xml_to_dataframe (xml_root : Element) : M loc :=
  alloc (pd_DataFrame (el_attrib <$> el_children xml_root)).

(** [filters = {}; if from_date: filters['ts'] = from_date] *)
Definition ts_filters (from_date : option string) : list (string * string) :=
  match from_date with
  | Some d => if decide (d = "") then [] else [("ts", d)]
  | None => []
  end.

(** [if c in df.columns: df[c] = convert(df[c])] on the frame at [l]. *)
Definition coerce_column (l : loc) (c : string)
           (convert : list value -> list value) : M unit :=
  df ← deref l;
  if decide (c ∈ columns df)
  then store l (df_setitem_series df c (convert (df_getitem df c)))
  else mret ().

Definition get_invoices (from_date : option string) : M loc :=
  xml_data ← _make_request "invoice" (ts_filters from_date);
  df ← _xml_to_dataframe xml_data;
  d ← deref df;
  (if df_empty d then mret ()
   else coerce_column df "transactiondate" pd_to_datetime ;;
        for_each ["number"] (λ field, coerce_column df field pd_to_numeric)) ;;
  d ← deref df;
  logger_info ("Retrieved " +:+ pretty (df_len d) +:+ " invoices") ;;
  mret df.

(** The getters that fetch and convert without further clean-up. *)
Definition get_plain (what plural : string) (from_date : option string) : M loc :=
  xml_data ← _make_request what (ts_filters from_date);
  df ← _xml_to_dataframe xml_data;
  d ← deref df;
  logger_info ("Retrieved " +:+ pretty (df_len d) +:+ " " +:+ plural) ;;
  mret df.

Definition get_customers := get_plain "customer" "customers".

Definition get_purchases (from_date : option string) : M loc :=
  xml_data ← _make_request "purchase" (ts_filters from_date);
  df ← _xml_to_dataframe xml_data;
  d ← deref df;
  (if negb (df_empty d) && bool_decide ("date1" ∈ columns d)
   then store df (df_setitem_series d "date1"
                    (pd_to_datetime (df_getitem d "date1")))
   else mret ()) ;;
  d ← deref df;
  logger_info ("Retrieved " +:+ pretty (df_len d) +:+ " purchases") ;;
  mret df.

Definition get_items := get_plain "item" "items".
Definition get_projects := get_plain "project" "projects".
Definition get_objects := get_plain "object" "objects".
Definition get_accounts := get_plain "account" "accounts".
Definition get_suppliers := get_plain "supplier" "suppliers".

Definition get_all_financial_data (from_date : option string)
  : M (list (string * option loc)) :=
  logger_info "Fetching all financial data from Directo..." ;;
  invoices ← get_invoices from_date;
  customers ← get_customers from_date;
  purchases ← get_purchases from_date;
  items ← get_items from_date;
  projects ← get_projects from_date;
  objects ← get_objects from_date;
  accounts ← get_accounts from_date;
  suppliers ← get_suppliers from_date;
  let data := [("invoices", Some invoices); ("customers", Some customers);
               ("purchases", Some purchases); ("items", Some items);
               ("projects", Some projects); ("objects", Some objects);
               ("accounts", Some accounts); ("suppliers", Some suppliers)] in
  logger_info "All financial data fetched successfully" ;;
  mret data.
End connector.
End DirectoConnector.

(** ** main_openai.py: the pipeline *)

Module FinancialAIAssistant.
Section assistant.
Context `{!PyLib} (svc : Services) (token : string).

(** [timedelta(days=3650)] in nanoseconds. *)
Definition ten_years : Z := 3650 * 86400 * 1000000000.

Definition run_etl_pipeline (from_date : option string) : M bool :=
  logger_info "Starting ETL pipeline..." ;;
  try_except
    (logger_info "Step 1: Extracting data from Directo..." ;;
     from_date ←
       (if bool_decide (from_date = None ∨ from_date = Some "") then
          now ← datetime_now svc;
          let d := strftime_dmy (now - ten_years) in
          logger_info ("Using default date range: from " +:+ d +:+ " to today") ;;
          mret (Some d)
        else
          logger_info ("Using specified date range: from "
                       +:+ DirectoConnector.str_opt from_date +:+ " to today") ;;
          mret from_date);
     data ← DirectoConnector.get_all_financial_data svc token from_date;
     for_each data
       (λ '(name, df),
        match df with
        | Some l =>
            d ← deref l;
            logger_info ("Extracted " +:+ pretty (df_len d) +:+ " " +:+ name)
        | None =>
            raise (Exn "TypeError" "object of type 'NoneType' has no len()")
        end) ;;
     logger_info "Step 2: Loading data to Elasticsearch..." ;;
     ElasticsearchIndexer.index_all_data svc data ;;
     logger_info "ETL pipeline completed successfully!" ;;
     mret true)
    (λ e,
     logger_error ("ETL pipeline failed: " +:+ exn_msg e) ;;
     mret false).
End assistant.
End FinancialAIAssistant.

(** ** Operations on parsed JSON values *)

(** [bool(x)] *)
Definition json_truthy (j : Json) : bool :=
  match j with
  | JNull => false
  | JBool b => b
  | JInt n => bool_decide (n ≠ 0)
  | JFloat f => float_truthy f
  | JStr s => bool_decide (s ≠ "")
  | JArr l => bool_decide (l ≠ [])
  | JObj kvs => bool_decide (kvs ≠ [])
  end.

Definition type_name (j : Json) : string :=
  match j with
  | JNull => "NoneType"
  | JBool _ => "bool"
  | JInt _ => "int"
  | JFloat _ => "float"
  | JStr _ => "str"
  | JArr _ => "list"
  | JObj _ => "dict"
  end.

Definition is_str (k : string) (j : Json) : bool :=
  match j with
  | JStr s => bool_decide (s = k)
  | _ => false
  end.

(** [k in x] for a string [k]. *)
Definition json_contains (k : string) (x : Json) : Res bool :=
  match x with
  | JObj kvs => Ok (dict_in k kvs)
  | JArr l => Ok (existsb (is_str k) l)
  | JStr s => Ok (str_in k s)
  | _ => Raise (Exn "TypeError" ("argument of type '" +:+ type_name x
                                 +:+ "' is not iterable"))
  end.

(** [x[k]] for a string [k]. *)
Definition json_getitem (x : Json) (k : string) : Res Json :=
  match x with
  | JObj kvs =>
      match dict_get kvs k with
      | Some v => Ok v
      | None => Raise (Exn "KeyError" ("'" +:+ k +:+ "'"))
      end
  | JArr _ => Raise (Exn "TypeError" "list indices must be integers or slices, not str")
  | JStr _ => Raise (Exn "TypeError" "string indices must be integers, not 'str'")
  | _ => Raise (Exn "TypeError" ("'" +:+ type_name x
                                 +:+ "' object is not subscriptable"))
  end.

(** [x > 0] *)
Definition json_gt_zero (x : Json) : Res bool :=
  match x with
  | JInt n => Ok (bool_decide (0 < n))
  | JFloat f => Ok (float_gt_zero f)
  | JBool b => Ok b
  | _ => Raise (Exn "TypeError" ("'>' not supported between instances of '"
                                 +:+ type_name x +:+ "' and 'int'"))
  end.

(** [x[:n]], as the sequence the [for] loop then walks. *)
Definition json_slice_to (n : nat) (x : Json) : Res (list Json) :=
  match x with
  | JArr l => Ok (take n l)
  | JStr s => Ok (JStr <$> take n (str_chars s))
  | JObj _ => Raise (Exn "TypeError" "unhashable type: 'slice'")
  | _ => Raise (Exn "TypeError" ("'" +:+ type_name x
                                 +:+ "' object is not subscriptable"))
  end.

(** [','.join(x)]: the items of a list have to be strings, [i] is the
    position of the item looked at. *)
Fixpoint str_items (i : nat) (l : list Json) : Res (list string) :=
  match l with
  | [] => Ok []
  | JStr s :: l' =>
      match str_items (S i) l' with
      | Ok parts => Ok (s :: parts)
      | Raise e => Raise e
      end
  | x :: _ =>
      Raise (Exn "TypeError"
               ("sequence item " +:+ pretty i +:+ ": expected str instance, "
                +:+ type_name x +:+ " found"))
  end.

Definition json_join (sep : string) (x : Json) : Res string :=
  match x with
  | JArr l =>
      match str_items 0 l with
      | Ok parts => Ok (py_join sep parts)
      | Raise e => Raise e
      end
  | JStr s => Ok (py_join sep (str_chars s))
  | JObj kvs => Ok (py_join sep (fst <$> kvs))
  | _ => Raise (Exn "TypeError" "can only join an iterable")
  end.

(** [x.get(k, dflt)]: only a [dict] has the method. *)
Definition json_get (x : Json) (k : string) (dflt : Json) : Res Json :=
  match x with
  | JObj kvs => Ok (dict_get_default kvs k dflt)
  | _ => Raise (Exn "AttributeError" ("'" +:+ type_name x
                                      +:+ "' object has no attribute 'get'"))
  end.

(** [l[i]] *)
Definition list_getitem {A} (l : list A) (i : nat) : Res A :=
  match l !! i with
  | Some x => Ok x
  | None => Raise (Exn "IndexError" "list index out of range")
  end.

(** [str(x)] inside an f-string. *)
Definition py_str_json `{!PyLib} (j : Json) : string :=
  match j with
  | JInt n => str_int n
  | JStr s => s
  | _ => json_str j
  end.

(** ** ai_query_handler_openai.py *)

Module AIQueryHandler.
Section handler.
Context `{!PyLib} (svc : Services).

(** A text given line by line. *)
Definition lines (ls : list string) : string := py_join nl ls.

Definition query_prompt (user_question : string) : string :=
  lines [
    "You are a financial data analyst. Convert this natural language question into an Elasticsearch query.";
    "";
    "Available indices and their fields:";
    "- invoices: number, date, duedate, transactiondate, vatzone, paymentterm, country, currency, currencyrate, customercode, customername, comment, address1, address2, address3, salesman, confirmed, netamount, vat, balance, totalamount, ts";
    "- purchases: number, date, duedate, sum, supplierinvoiceno, paymentterm, supplier, suppliername, transactiontime, vat, asset, confirmed, ts";
    "- items: code, name, class, class_name, unit, salesprice, vatprice, vatprice1, vatprice2, vatprice3, vatprice4, cost, closed, ts, tscreated";
    "- projects: code, name, manager, start, end, master, type, country, closed, points, createdts, ts";
    "- customers: code, name, class, regno, type, salesman, country, email, address1, address2, ts, ts_created";
    "- objects: code, name, type, level, ts";
    "";
    "User question: " +:+ user_question;
    "";
    "Generate an Elasticsearch query DSL in JSON format. Include:";
    "1. The index/indices to search";
    "2. Filters for specific criteria (country, salesman, project, etc.)";
    "3. Aggregations if the question asks for sums, averages, or groupings";
    "4. Date ranges if mentioned (use transactiondate for invoices, date for purchases)";
    "";
    "Return ONLY valid JSON with this structure:";
    "{";
    "    " +:+ dq +:+ "indices" +:+ dq +:+ ": [" +:+ dq +:+ "index_name" +:+ dq +:+ "],";
    "    " +:+ dq +:+ "query" +:+ dq +:+ ": { ... },";
    "    " +:+ dq +:+ "aggs" +:+ dq +:+ ": { ... } (optional)";
    "}" ].

Definition query_request (user_question : string) : ChatRequest :=
  {| chat_model := "gpt-4o";
     chat_system := "You are a data analyst expert in Elasticsearch queries. Always respond with valid JSON only.";
     chat_user := query_prompt user_question;
     chat_temperature := 10;
     chat_max_tokens := 2000 |}.

Definition chat (req : ChatRequest) : M ChatResponse :=
  call (ChatCreate req) (λ h, chat_create svc h req).

(** [response.choices[0].message.content] *)
Definition first_content (response : ChatResponse) : M (option string) :=
  lift (list_getitem response 0).

(** The removal of markdown code blocks from the response text. *)
Definition strip_code_fences (response_text : string) : M string :=
  if str_in "```json" response_text then
    part ← lift (list_getitem (py_split response_text "```json") 1);
    part ← lift (list_getitem (py_split part "```") 0);
    mret (py_strip part)
  else if str_in "```" response_text then
    part ← lift (list_getitem (py_split response_text "```") 1);
    part ← lift (list_getitem (py_split part "```") 0);
    mret (py_strip part)
  else mret response_text.

Definition _build_elasticsearch_query (user_question : string) : M Json :=
  response ← chat (query_request user_question);
  content ← first_content response;
  match content with
  | None =>
      raise (Exn "TypeError" "argument of type 'NoneType' is not iterable")
  | Some response_text =>
      response_text ← strip_code_fences response_text;
      match json_loads response_text with
      | Some query_spec =>
          logger_info ("Generated Elasticsearch query: "
                       +:+ json_dumps_indent2 query_spec) ;;
          mret query_spec
      | None =>
          let e := Exn "JSONDecodeError" (json_decode_msg response_text) in
          logger_error ("Failed to parse ChatGPT response as JSON: "
                        +:+ exn_msg e) ;;
          logger_error ("Response: " +:+ response_text) ;;
          raise e
      end
  end.

(** The keyword arguments [index=','.join(indices), **body]. *)
Definition search_request (index : string) (query aggs : Json) : SearchRequest :=
  if json_truthy aggs
  then {| req_index := index; req_query := query;
          req_aggs := Some aggs; req_size := 0 |}
  else {| req_index := index; req_query := query;
          req_aggs := None; req_size := 100 |}.

Definition _execute_elasticsearch_query (query_spec : Json) : M Json :=
  indices ← lift (json_get query_spec "indices" (JArr [JStr "invoices"]));
  query ← lift (json_get query_spec "query" (JObj [("match_all", JObj [])]));
  aggs ← lift (json_get query_spec "aggs" (JObj []));
  index ← lift (json_join "," indices);
  let req := search_request index query aggs in
  result ← call (Search req) (λ h, es_search svc h req);
  hits ← lift (json_getitem result "hits");
  total ← lift (json_getitem hits "total");
  n ← lift (json_getitem total "value");
  logger_info ("Elasticsearch query returned " +:+ py_str_json n +:+ " hits") ;;
  mret result.

(** The lines appended for the aggregations. *)
Definition format_aggregations (es_results : Json) : M (list string) :=
  has ← lift (json_contains "aggregations" es_results);
  if has : bool then
    aggs ← lift (json_getitem es_results "aggregations");
    mret ["Aggregation Results:"; json_dumps_indent2 aggs]
  else mret [].

(** The lines appended for the document hits. *)
Fixpoint format_hits (hits : list Json) : M (list string) :=
  match hits with
  | [] => mret []
  | hit :: hits' =>
      source ← lift (json_getitem hit "_source");
      rest ← format_hits hits';
      mret (json_dumps_indent2 source :: rest)
  end.

Definition format_documents (es_results : Json) : M (list string) :=
  has ← lift (json_contains "hits" es_results);
  positive ←
    (if has : bool then
       hits ← lift (json_getitem es_results "hits");
       total ← lift (json_getitem hits "total");
       n ← lift (json_getitem total "value");
       lift (json_gt_zero n)
     else mret false);
  if positive : bool then
    hits ← lift (json_getitem es_results "hits");
    total ← lift (json_getitem hits "total");
    n ← lift (json_getitem total "value");
    let header := nl +:+ "Document Hits (" +:+ py_str_json n +:+ " total):" in
    hits ← lift (json_getitem es_results "hits");
    hh ← lift (json_getitem hits "hits");
    first ← lift (json_slice_to 20 hh);
    docs ← format_hits first;
    mret (header :: docs)
  else mret [].

Definition format_lines (es_results : Json) : M (list string) :=
  a ← format_aggregations es_results;
  d ← format_documents es_results;
  mret (a ++ d).

Definition _format_results_for_ai (es_results : Json) : M string :=
  formatted ← format_lines es_results;
  mret (py_join nl formatted).

Definition analysis_prompt (user_question formatted_results : string) : string :=
  lines [
    "You are a financial analyst AI assistant. Based on the following financial data retrieved from the company's accounting system, answer the user's question.";
    "";
    "User Question: " +:+ user_question;
    "";
    "Financial Data Retrieved:";
    formatted_results;
    "";
    "Provide a comprehensive answer that:";
    "1. Directly answers the question";
    "2. Includes specific numbers and metrics";
    "3. Provides insights and analysis";
    "4. If asked for forecasts, use historical data patterns to make reasonable predictions";
    "5. Mentions any assumptions or limitations";
    "";
    "Answer in a professional but conversational tone." ].

Definition analysis_request (user_question formatted_results : string)
  : ChatRequest :=
  {| chat_model := "gpt-4o";
     chat_system := "You are a professional financial analyst with expertise in data analysis and forecasting.";
     chat_user := analysis_prompt user_question formatted_results;
     chat_temperature := 70;
     chat_max_tokens := 4000 |}.

(** The text returned when answering fails. *)
Definition apology (e : exn) : string :=
  "I encountered an error processing your question: " +:+ exn_msg e
  +:+ ". Please try rephrasing your question or check if the data is available in the system.".

(** The four steps inside the [try] of [answer_question]. *)
Definition answer_steps (user_question : string) : M (option string) :=
  query_spec ← _build_elasticsearch_query user_question;
  es_results ← _execute_elasticsearch_query query_spec;
  formatted_results ← _format_results_for_ai es_results;
  response ← chat (analysis_request user_question formatted_results);
  answer ← first_content response;
  logger_info "Answer generated successfully" ;;
  mret answer.

Definition answer_question (user_question : string) : M (option string) :=
  logger_info ("Processing question: " +:+ user_question) ;;
  try_except
    (answer_steps user_question)
    (λ e,
     logger_error ("Error processing question: " +:+ exn_msg e) ;;
     mret (Some (apology e))).

Definition forecast_query : Json :=
  JObj [("indices", JArr [JStr "invoices"; JStr "purchases"]);
        ("query", JObj [("range",
           JObj [("transactiondate", JObj [("gte", JStr "now-2y")])])]);
        ("aggs", JObj [("monthly_revenue",
           JObj [("date_histogram",
                  JObj [("field", JStr "transactiondate");
                        ("calendar_interval", JStr "month")]);
                 ("aggs", JObj [("total_amount",
                    JObj [("sum", JObj [("field", JStr "amount")])])])])])].
End handler.
End AIQueryHandler.

(** ** verify_data_quick.py: the statistics request *)

Module VerifyData.
(** The body of the search that computes the invoice statistics. *)
Definition stats_body : Json :=
  JObj [("size", JInt 0);
        ("aggs", JObj [
           ("min_date", JObj [("min", JObj [("field", JStr "transactiondate")])]);
           ("max_date", JObj [("max", JObj [("field", JStr "transactiondate")])]);
           ("total_amount", JObj [("sum", JObj [("field", JStr "total")])])])].

(** [x[k1][k2]...] *)
Fixpoint json_path (x : Json) (ks : list string) : Res Json :=
  match ks with
  | [] => Ok x
  | k :: ks' =>
      match json_getitem x k with
      | Ok y => json_path y ks'
      | Raise e => Raise e
      end
  end.

(** The field the total-revenue aggregation sums. *)
Definition total_revenue_field : Res Json :=
  json_path stats_body ["aggs"; "total_amount"; "sum"; "field"].
End VerifyData.

(** ** A library instance and collaborators to run examples

    Enough of the library functions to execute the pipeline on concrete
    inputs: JSON without fractional numbers and without [\u] escapes,
    timestamps in the proleptic Gregorian calendar. *)

Module Example.
Local Open Scope char_scope.

Definition is_ws (c : ascii) : bool :=
  match c with
  | " " | "009" | "010" | "013" => true
  | _ => false
  end.

Fixpoint skip_ws (s : list ascii) : list ascii :=
  match s with
  | c :: s' => if is_ws c then skip_ws s' else s
  | [] => []
  end.

Definition unescape (c : ascii) : option ascii :=
  match c with
  | "034" => Some "034"
  | "\" => Some "\"
  | "/" => Some "/"
  | "b" => Some "008"
  | "f" => Some "012"
  | "n" => Some "010"
  | "r" => Some "013"
  | "t" => Some "009"
  | _ => None
  end.

(** The rest of a string literal, after its opening quote. *)
Fixpoint parse_str (s acc : list ascii) : option (string * list ascii) :=
  match s with
  | [] => None
  | "034" :: r => Some (l2s (reverse acc), r)
  | "\" :: c :: r =>
      match unescape c with
      | Some c' => parse_str r (c' :: acc)
      | None => None
      end
  | c :: r =>
      if (nat_of_ascii c <? 32)%nat then None else parse_str r (c :: acc)
  end.

Definition digit (c : ascii) : option Z :=
  let n := nat_of_ascii c in
  if (48 <=? n)%nat && (n <=? 57)%nat then Some (Z.of_nat n - 48)%Z else None.

Fixpoint parse_digits (s : list ascii) (acc : Z) : Z * list ascii :=
  match s with
  | c :: r =>
      match digit c with
      | Some d => parse_digits r (10 * acc + d)%Z
      | None => (acc, s)
      end
  | [] => (acc, [])
  end.

(** An integer literal; a fraction or an exponent is outside the fragment. *)
Definition parse_nat (s : list ascii) : option (Z * list ascii) :=
  match s with
  | "0" :: r => Some (0%Z, r)
  | c :: r =>
      match digit c with
      | Some d => Some (parse_digits r d)
      | None => None
      end
  | [] => None
  end.

Definition no_fraction (r : list ascii) : bool :=
  match r with
  | "." :: _ | "e" :: _ | "E" :: _ => false
  | _ => true
  end.

Definition parse_int (s : list ascii) : option (Json * list ascii) :=
  match s with
  | "-" :: r =>
      '(n, r') ← parse_nat r;
      if no_fraction r' then Some (JInt (- n), r') else None
  | _ =>
      '(n, r') ← parse_nat s;
      if no_fraction r' then Some (JInt n, r') else None
  end.

(** [d[k] = v] on an insertion-ordered dictionary. *)
Definition dict_set {V} (d : list (string * V)) (k : string) (v : V)
  : list (string * V) :=
  if dict_in k d
  then (λ kv, if decide (kv.1 = k) then (k, v) else kv) <$> d
  else d ++ [(k, v)].

Fixpoint parse_value (fuel : nat) (s : list ascii) : option (Json * list ascii) :=
  match fuel with
  | O => None
  | S fuel' =>
      match skip_ws s with
      | "n" :: "u" :: "l" :: "l" :: r => Some (JNull, r)
      | "t" :: "r" :: "u" :: "e" :: r => Some (JBool true, r)
      | "f" :: "a" :: "l" :: "s" :: "e" :: r => Some (JBool false, r)
      | "034" :: r => '(str, r') ← parse_str r []; Some (JStr str, r')
      | "[" :: r =>
          match skip_ws r with
          | "]" :: r' => Some (JArr [], r')
          | _ => '(l, r') ← parse_elems fuel' r; Some (JArr l, r')
          end
      | "{" :: r =>
          match skip_ws r with
          | "}" :: r' => Some (JObj [], r')
          | _ => '(kvs, r') ← parse_members fuel' r []; Some (JObj kvs, r')
          end
      | s' => parse_int s'
      end
  end
with parse_elems (fuel : nat) (s : list ascii) : option (list Json * list ascii) :=
  match fuel with
  | O => None
  | S fuel' =>
      '(x, r) ← parse_value fuel' s;
      match skip_ws r with
      | "]" :: r' => Some ([x], r')
      | "," :: r' => '(l, r'') ← parse_elems fuel' r'; Some (x :: l, r'')
      | _ => None
      end
  end
with parse_members (fuel : nat) (s : list ascii) (acc : list (string * Json))
  : option (list (string * Json) * list ascii) :=
  match fuel with
  | O => None
  | S fuel' =>
      match skip_ws s with
      | "034" :: r =>
          '(k, r) ← parse_str r [];
          match skip_ws r with
          | ":" :: r =>
              '(v, r) ← parse_value fuel' r;
              let acc := dict_set acc k v in
              match skip_ws r with
              | "}" :: r' => Some (acc, r')
              | "," :: r' => parse_members fuel' r' acc
              | _ => None
              end
          | _ => None
          end
      | _ => None
      end
  end.

Definition loads (s : string) : option Json :=
  '(j, r) ← parse_value (2 * String.length s + 2) (s2l s);
  if decide (skip_ws r = []) then Some j else None.

Local Close Scope char_scope.

(** A printer in the layout of [json.dumps(x, indent=2)]. *)
Fixpoint escape (s : list ascii) : list ascii :=
  match s with
  | [] => []
  | c :: r =>
      (if decide (c = "034"%char) then ["\"; "034"]%char
       else if decide (c = "\"%char) then ["\"; "\"]%char
       else if decide (c = "010"%char) then ["\"; "n"]%char
       else [c]) ++ escape r
  end.

Definition quote (s : string) : string := dq +:+ l2s (escape (s2l s)) +:+ dq.

Fixpoint pad (n : nat) : string :=
  match n with
  | O => ""
  | S n' => " " +:+ pad n'
  end.

Definition float_text (f : pyfloat) : string :=
  match f with
  | S754_nan => "nan"
  | S754_infinity s => if s then "-inf" else "inf"
  | S754_zero s => if s then "-0.0" else "0.0"
  | S754_finite s m e =>
      (if s then "-" else "") +:+
      (if (0 <=? e)%Z then pretty (Z.pos m * 2 ^ e)%Z +:+ ".0"
       else pretty (Z.pos m) +:+ "*2**" +:+ pretty e)
  end.

Fixpoint dumps (ind : nat) (j : Json) : string :=
  match j with
  | JNull => "null"
  | JBool b => if b then "true" else "false"
  | JInt n => pretty n
  | JFloat f => float_text f
  | JStr s => quote s
  | JArr [] => "[]"
  | JObj [] => "{}"
  | JArr l =>
      "[" +:+ nl +:+
      (fix items (l : list Json) : string :=
         match l with
         | [] => ""
         | [x] => pad (ind + 2) +:+ dumps (ind + 2) x +:+ nl
         | x :: l' => pad (ind + 2) +:+ dumps (ind + 2) x +:+ "," +:+ nl
                      +:+ items l'
         end) l +:+ pad ind +:+ "]"
  | JObj kvs =>
      "{" +:+ nl +:+
      (fix items (l : list (string * Json)) : string :=
         match l with
         | [] => ""
         | [(k, x)] => pad (ind + 2) +:+ quote k +:+ ": " +:+ dumps (ind + 2) x
                       +:+ nl
         | (k, x) :: l' => pad (ind + 2) +:+ quote k +:+ ": "
                           +:+ dumps (ind + 2) x +:+ "," +:+ nl +:+ items l'
         end) kvs +:+ pad ind +:+ "}"
  end.

(** Calendar fields of a count of nanoseconds since the epoch. *)
Definition civil (t : datetime) : Z * Z * Z :=
  let z := t `div` 86400000000000 + 719468 in
  let era := z `div` 146097 in
  let doe := z - era * 146097 in
  let yoe := (doe - doe `div` 1460 + doe `div` 36524 - doe `div` 146096) `div` 365 in
  let doy := doe - (365 * yoe + yoe `div` 4 - yoe `div` 100) in
  let mp := (5 * doy + 2) `div` 153 in
  let d := doy - (153 * mp + 2) `div` 5 + 1 in
  let m := if mp <? 10 then mp + 3 else mp - 9 in
  let y := yoe + era * 400 + (if m <=? 2 then 1 else 0) in
  (y, m, d).

(** [n] in decimal, padded with zeros to [width] digits. *)
Definition zpad (width : nat) (n : Z) : string :=
  let s := pretty n in
  String.concat "" (replicate (width - String.length s) "0") +:+ s.

Definition iso (sep : string) (t : datetime) : string :=
  let '(y, m, d) := civil t in
  let ns := t `mod` 86400000000000 in
  let secs := ns `div` 1000000000 in
  let frac := ns `mod` 1000000000 in
  zpad 4 y +:+ "-" +:+ zpad 2 m +:+ "-" +:+ zpad 2 d +:+ sep
  +:+ zpad 2 (secs `div` 3600) +:+ ":" +:+ zpad 2 ((secs `mod` 3600) `div` 60)
  +:+ ":" +:+ zpad 2 (secs `mod` 60)
  +:+ (if decide (frac = 0) then ""
       else if decide (frac `mod` 1000 = 0) then "." +:+ zpad 6 (frac `div` 1000)
       else "." +:+ zpad 9 frac).

Definition dmy (t : datetime) : string :=
  let '(y, m, d) := civil t in
  zpad 2 d +:+ "." +:+ zpad 2 m +:+ "." +:+ zpad 4 y.

(** Whole-number texts become integers, anything else NaN. *)
Definition to_numeric (v : value) : value :=
  match v with
  | VStr s =>
      match Example.parse_int (s2l s) with
      | Some (JInt n, []) => VInt n
      | _ => NaN
      end
  | VInt _ | VFloat _ => v
  | _ => NaN
  end.

(** Timestamps stay, anything else becomes NaT. *)
Definition to_datetime (v : value) : value :=
  match v with
  | VTimestamp _ => v
  | _ => VNaT
  end.

Definition lib : PyLib := {|
  float_repr := float_text;
  isoformat := iso "T";
  strftime_dmy := dmy;
  json_loads := loads;
  json_decode_msg := λ _, "Expecting value";
  json_dumps_indent2 := dumps 0;
  json_str := dumps 0;
  timestamp_str := iso " ";
  pd_to_datetime := fmap to_datetime;
  pd_to_numeric := fmap to_numeric
|}.

(** Collaborators given by what the accounting API, the XML parser, the
    bulk writer, the store and the language model answer; the clock
    stands still and every collection already exists. *)
Definition now0 : datetime := 1700000000000000000.

Definition services (post : string -> Res HttpResponse)
           (parse : string -> Res Element)
           (bulk : list Action -> Res (Z * list Json))
           (search : SearchRequest -> Res Json)
           (oracle : ChatRequest -> Res ChatResponse) : Services :=
  {| clock := λ _, now0;
     requests_post := λ _ params, post (default "" (dict_get params "what"));
     et_fromstring := parse;
     indices_exists := λ _ _, Ok true;
     indices_create := λ _ _ _, Ok ();
     indices_delete := λ _ _, Ok ();
     helpers_bulk := λ _ actions, bulk actions;
     es_search := λ _ req, search req;
     chat_create := λ _ req, oracle req |}.

(** A bulk writer that accepts every action. *)
Definition bulk_ok (actions : list Action) : Res (Z * list Json) :=
  Ok (Z.of_nat (length actions), []).

Definition no_post (what : string) : Res HttpResponse :=
  Raise (Exn "ConnectionError" "unreachable").
Definition no_parse (doc : string) : Res Element :=
  Raise (Exn "ParseError" "syntax error").
Definition no_search (req : SearchRequest) : Res Json :=
  Raise (Exn "ConnectionError" "unreachable").
Definition no_oracle (req : ChatRequest) : Res ChatResponse :=
  Raise (Exn "APIConnectionError" "Connection error.").

(** An oracle that always answers with one text. *)
Definition says (text : string) (req : ChatRequest) : Res ChatResponse :=
  Ok [Some text].

Definition world0 : World := {| heap := ∅; trace := [] |}.

(** Two invoices: the second has number zero, no transaction date and no
    comment. *)
Definition invoices2 : DataFrame :=
  {| columns := ["number"; "customername"; "transactiondate"; "comment"];
     rows := [ {[ "number" := VInt 1001; "customername" := VStr "Acme";
                  "transactiondate" := VTimestamp 1700000000000000000;
                  "comment" := VStr "paid" ]};
               {[ "number" := VInt 0; "customername" := VStr "Beta";
                  "transactiondate" := VNaT ]} ] |}.

Definition world_invoices : World :=
  {| heap := {[ 1%positive := invoices2 ]}; trace := [] |}.

(** Collaborators of a load: only the bulk writer is reached. *)
Definition loader_services : Services :=
  services no_post no_parse bulk_ok no_search no_oracle.

(** The actions of the bulk calls in a trace, each as index, identity and
    source fields in key order. *)
Definition show_action (a : Action)
  : string * option string * list (string * value) :=
  (act_index a, act_id a, map_to_list (act_source a)).

(** The answers of the accounting API: three customers and no record of any
    other entity type. *)
Definition empty_doc : string := "<transport/>".

Definition customers_doc : string :=
  "<transport><customer code='C1' name='Acme'/><customer code='C2' name='Beta'/><customer code='C3' name='Core'/></transport>".

Definition parse_docs (doc : string) : Res Element :=
  if decide (doc = empty_doc) then Ok (mkElement "transport" None [] [])
  else if decide (doc = customers_doc) then
    Ok (mkElement "transport" None []
          [mkElement "customer" None [("code", "C1"); ("name", "Acme")] [];
           mkElement "customer" None [("code", "C2"); ("name", "Beta")] [];
           mkElement "customer" None [("code", "C3"); ("name", "Core")] []])
  else no_parse doc.

Definition post_customers (what : string) : Res HttpResponse :=
  Ok {| status_code := 200;
        content := if decide (what = "customer") then customers_doc
                   else empty_doc |}.

(** The same, but the invoice request is answered with HTTP 500. *)
Definition post_invoice_down (what : string) : Res HttpResponse :=
  if decide (what = "invoice") then Ok {| status_code := 500; content := "" |}
  else post_customers what.

Definition etl_services : Services :=
  services post_customers parse_docs bulk_ok no_search no_oracle.

Definition etl_services_invoice_down : Services :=
  services post_invoice_down parse_docs bulk_ok no_search no_oracle.

(** The same as [post_customers], but the customer request is answered with
    HTTP 500. *)
Definition post_customer_down (what : string) : Res HttpResponse :=
  if decide (what = "customer") then Ok {| status_code := 500; content := "" |}
  else post_customers what.

Definition etl_services_customer_down : Services :=
  services post_customer_down parse_docs bulk_ok no_search no_oracle.

(** The same as [etl_services], but every bulk call raises. *)
Definition bulk_down (actions : list Action) : Res (Z * list Json) :=
  Raise (Exn "ConnectionTimeout" "timed out").

Definition etl_services_bulk_down : Services :=
  services post_customers parse_docs bulk_down no_search no_oracle.

(** A data set with an empty invoice frame, three customers and no purchase
    frame at all. *)
Definition customers3 : DataFrame :=
  {| columns := ["code"; "name"];
     rows := [ {[ "code" := VStr "C1"; "name" := VStr "Acme" ]};
               {[ "code" := VStr "C2"; "name" := VStr "Beta" ]};
               {[ "code" := VStr "C3"; "name" := VStr "Core" ]} ] |}.

Definition world_customers : World :=
  {| heap := {[ 1%positive := {| columns := []; rows := [] |};
                2%positive := customers3 ]};
     trace := [] |}.

Definition data_customers : list (string * option loc) :=
  [("invoices", Some 1%positive); ("customers", Some 2%positive);
   ("purchases", None)].

(** A store holding two invoices: a request with aggregations is answered
    with the aggregations and no documents, any other request with the
    documents. *)
Definition invoice_doc (number : Z) (total : Z) : Json :=
  JObj [("_index", JStr "invoices");
        ("_source", JObj [("number", JInt number); ("totalamount", JInt total)])].

Definition result_documents : Json :=
  JObj [("hits", JObj [("total", JObj [("value", JInt 2)]);
                       ("hits", JArr [invoice_doc 1001 100;
                                      invoice_doc 1002 200])])].

Definition result_aggregations : Json :=
  JObj [("hits", JObj [("total", JObj [("value", JInt 2)]); ("hits", JArr [])]);
        ("aggregations", JObj [("total", JObj [("value", JInt 300)])])].

Definition store_two (req : SearchRequest) : Res Json :=
  match req_aggs req with
  | Some _ => Ok result_aggregations
  | None => Ok result_documents
  end.

(** The specification that matches every invoice. *)
Definition all_invoices : Json :=
  JObj [("indices", JArr [JStr "invoices"]);
        ("query", JObj [("match_all", JObj [])])].

(** A store that rejects every query. *)
Definition store_rejects (req : SearchRequest) : Res Json :=
  Raise (Exn "BadRequestError" "no mapping found for field [amount]").

(** The requests of the searches in a trace, as index, size and whether
    aggregations were sent. *)
Definition searches (evs : list Event) : list (string * Z * bool) :=
  omap (λ ev, match ev with
              | Search req =>
                  Some (req_index req, req_size req,
                        bool_decide (is_Some (req_aggs req)))
              | _ => None
              end) evs.

(** Collaborators of a question: the oracle always answers [text], the
    store answers by [search]. *)
Definition chat_services (text : string)
           (search : SearchRequest -> Res Json) : Services :=
  services no_post no_parse bulk_ok search (says text).

(** A JSON payload whose only string value contains two fence markers. *)
Definition payload_with_fences : string :=
  "{" +:+ dq +:+ "a" +:+ dq +:+ ":" +:+ dq +:+ "```1```" +:+ dq +:+ "}".

(** The entity types requested in a trace, in order. *)
Definition requested (evs : list Event) : list string :=
  omap (λ ev, match ev with
              | HttpPost params => dict_get params "what"
              | _ => None
              end) evs.

(** The error lines logged in a trace. *)
Definition errors (evs : list Event) : list string :=
  omap (λ ev, match ev with
              | Log ERROR msg => Some msg
              | _ => None
              end) evs.

(** The identities given in each bulk call of a trace. *)
Definition bulk_ids (evs : list Event) : list (list (option string)) :=
  omap (λ ev, match ev with
              | Bulk actions => Some (act_id <$> actions)
              | _ => None
              end) evs.

Definition bulk_calls (evs : list Event)
  : list (list (string * option string * list (string * value))) :=
  omap (λ ev, match ev with
              | Bulk actions => Some (show_action <$> actions)
              | _ => None
              end) evs.
End Example.

(** * Vocabulary of the properties *)

(** Events that only report: log lines and printed tracebacks. *)
Definition is_report (ev : Event) : Prop :=
  match ev with
  | Log _ _ | PrintExc _ => True
  | _ => False
  end.

Definition not_bulk (ev : Event) : Prop :=
  match ev with
  | Bulk _ => False
  | _ => True
  end.

(** A computation that leaves the heap alone and emits only events in [P];
    it may raise. *)
Definition tame {A} (P : Event -> Prop) (m : M A) : Prop :=
  ∀ w, ∃ r evs,
    m w = (r, {| heap := heap w; trace := trace w ++ evs |}) ∧ Forall P evs.

(** The same, and it always returns. *)
Definition quiet {A} (P : Event -> Prop) (m : M A) : Prop :=
  ∀ w, ∃ a evs,
    m w = (Ok a, {| heap := heap w; trace := trace w ++ evs |}) ∧ Forall P evs.

(** A cleaned cell is falsy exactly when the cell is null-equivalent, the
    empty text, a zero or [False]. *)
Definition falsy_cell (v : value) : Prop :=
  pd_isna v = true ∨ v = VStr "" ∨ v = VInt 0 ∨ v = VBool false
  ∨ ∃ s, v = VFloat (S754_zero s).

Definition prepare_msg (index_name : string) (d : DataFrame) : string :=
  "Preparing to index " +:+ pretty (df_len d) +:+ " documents to '"
  +:+ index_name +:+ "'...".

Definition skip_msg (index_name : string) : string :=
  "DataFrame for " +:+ index_name +:+ " is empty, skipping indexing".

(** The entity types in the order [index_all_data] loads them. *)
Definition load_order : list string :=
  ["invoices"; "purchases"; "items"; "projects"; "customers"; "objects";
   "accounts"; "suppliers"].

(** The entity type has a frame with rows in the data set. *)
Definition has_rows (h : gmap loc DataFrame) (data : list (string * option loc))
           (name : string) : bool :=
  match dict_get data name with
  | Some (Some l) =>
      match h !! l with
      | Some d => negb (df_empty d)
      | None => false
      end
  | _ => false
  end.

(** Every frame the data set refers to is on the heap. *)
Definition valid_data (h : gmap loc DataFrame) (data : list (string * option loc))
  : Prop :=
  Forall (λ kv, ∀ l, kv.2 = Some l -> is_Some (h !! l)) data.

(** The collection a bulk call writes to: the index of its first action. *)
Definition bulk_index (ev : Event) : option string :=
  match ev with
  | Bulk actions => Some (default "" (act_index <$> head actions))
  | _ => None
  end.

(** The collections written to in a run of events, in order. *)
Definition written_to (evs : list Event) : list string := omap bulk_index evs.

(** A bulk call carries at least one action and all its actions go to one
    collection. *)
Definition uniform (ev : Event) : Prop :=
  match ev with
  | Bulk actions =>
      actions ≠ [] ∧ ∃ name, Forall (λ a, act_index a = name) actions
  | _ => True
  end.

(** A step of a load: it returns, keeps what was on the heap, and writes to
    exactly those of [names] that have rows. *)
Definition loads (data : list (string * option loc)) (names : list string)
           (m : M unit) : Prop :=
  ∀ w, valid_data (heap w) data ->
    ∃ w' evs,
      m w = (Ok (), w')
      ∧ trace w' = trace w ++ evs
      ∧ heap w ⊆ heap w'
      ∧ written_to evs = filter (λ name, has_rows (heap w) data name) names
      ∧ Forall uniform evs.

(** The line [_make_request] logs before it re-raises. *)
Definition fetch_error (what : string) (e : exn) : string :=
  "Error fetching " +:+ what +:+ ": " +:+ exn_msg e.

(** The events end with the report of a failed fetch that raised [e]. *)
Definition ends_with_fetch_error (evs : list Event) (e : exn) : Prop :=
  ∃ what pre, evs = pre ++ [Log ERROR (fetch_error what e)].

(** The entity types in the order [get_all_financial_data] requests them. *)
Definition fetch_order : list string :=
  ["invoice"; "customer"; "purchase"; "item"; "project"; "object"; "account";
   "supplier"].

(** The parameters a getter posts for an entity type. *)
Definition getter_params (token : string) (from_date : option string)
           (what : string) : list (string * string) :=
  [("token", token); ("get", "1"); ("what", what)]
  ++ DirectoConnector.ts_filters from_date.

(** The parameters of the requests posted in a run of events, in order. *)
Definition posted (evs : list Event) : list (list (string * string)) :=
  omap (λ ev, match ev with
              | HttpPost params => Some params
              | _ => None
              end) evs.

(** An answer to a request that stands for the fetch error [e]: the request
    itself raised, the status is not 200, the document cannot be parsed, or
    it is an error document. *)
Inductive failed_request (svc : Services) : Res HttpResponse -> exn -> Prop :=
| request_raised e : failed_request svc (Raise e) e
| bad_status response :
    status_code response ≠ 200 ->
    failed_request svc (Ok response)
      (Exn "Exception" ("HTTP Error: " +:+ str_int (status_code response)))
| not_parsed response e :
    status_code response = 200 ->
    et_fromstring svc (content response) = Raise e ->
    failed_request svc (Ok response) e
| api_error response root :
    status_code response = 200 ->
    et_fromstring svc (content response) = Ok root ->
    el_tag root = "err" ->
    failed_request svc (Ok response)
      (Exn "Exception" ("API Error: " +:+ DirectoConnector.str_opt (el_text root)))
| unauthorized response root :
    status_code response = 200 ->
    et_fromstring svc (content response) = Ok root ->
    el_tag root = "result" ->
    dict_get (el_attrib root) "type" = Some "5" ->
    failed_request svc (Ok response)
      (Exn "Exception"
         ("Unauthorized: "
          +:+ DirectoConnector.str_opt (dict_get (el_attrib root) "desc"))).

(** A part of the fetch that requests the entity types [whats] in order:
    it writes no document; it posts the requests one after the other and
    all of them when it returns; and a request that fails is the last thing
    it does but for the report of the failure, which it raises. *)
Definition fetches (svc : Services) (token : string) (from_date : option string)
           (whats : list string) {A} (m : M A) : Prop :=
  ∀ w, ∃ r w' evs k,
    m w = (r, w')
    ∧ trace w' = trace w ++ evs
    ∧ Forall not_bulk evs
    ∧ (k ≤ length whats)%nat
    ∧ posted evs = getter_params token from_date <$> take k whats
    ∧ (∀ a, r = Ok a -> k = length whats)
    ∧ ∀ pre params rest e,
        evs = pre ++ HttpPost params :: rest ->
        failed_request svc (requests_post svc (trace w ++ pre) params) e ->
        r = Raise e
        ∧ ∃ what, what ∈ whats
            ∧ params = getter_params token from_date what
            ∧ rest = [Log ERROR (fetch_error what e)].

(** A predicate on heaps that survives allocation. *)
Definition mono (R : gmap loc DataFrame -> Prop) : Prop :=
  ∀ h h', h ⊆ h' -> R h -> R h'.

Definition allocated (h : gmap loc DataFrame) (ls : list loc) : Prop :=
  Forall (λ l, is_Some (h !! l)) ls.

(** A fetching computation: from a heap in [pre] it keeps what is on the
    heap and writes no document; it returns a result in [post] or raises
    right after the report of the failed fetch. *)
Definition fetching {A} (pre : gmap loc DataFrame -> Prop) (m : M A)
           (post : gmap loc DataFrame -> A -> Prop) : Prop :=
  ∀ w, pre (heap w) ->
    ∃ r w' evs,
      m w = (r, w')
      ∧ trace w' = trace w ++ evs
      ∧ heap w ⊆ heap w'
      ∧ Forall not_bulk evs
      ∧ match r with
        | Ok a => post (heap w') a
        | Raise e => ends_with_fetch_error evs e
        end.

(** A computation that rewrites the frame at [l] and does nothing else. *)
Definition updates (l : loc) (m : M unit) : Prop :=
  ∀ w d, heap w !! l = Some d ->
    ∃ d', m w = (Ok (), {| heap := <[l := d']> (heap w); trace := trace w |}).

(** Every entry of the data set is a frame on the heap. *)
Definition valid_all (h : gmap loc DataFrame) (data : list (string * option loc))
  : Prop :=
  Forall (λ kv, ∃ l, kv.2 = Some l ∧ is_Some (h !! l)) data.

Definition failed_msg (e : exn) : string := "ETL pipeline failed: " +:+ exn_msg e.

(** The shape of a search result: its aggregations if any, its total hit
    count and the documents it returns. *)
Definition search_result (res : Json) (aggs : option Json) (n : Z)
           (hits : list Json) : Prop :=
  ∃ kvs h t,
    res = JObj kvs
    ∧ dict_get kvs "aggregations" = aggs
    ∧ dict_get kvs "hits" = Some h
    ∧ json_getitem h "total" = Ok t
    ∧ json_getitem t "value" = Ok (JInt n)
    ∧ json_getitem h "hits" = Ok (JArr hits).

(** The source fields of documents. *)
Definition sources_of (hits sources : list Json) : Prop :=
  Forall2 (λ hit source, json_getitem hit "_source" = Ok source) hits sources.

Definition hits_header (n : Z) : string :=
  nl +:+ "Document Hits (" +:+ str_int n +:+ " total):".

Definition error_msg (e : exn) : string :=
  "Error processing question: " +:+ exn_msg e.

(** The world in which the steps of an answer start. *)
Definition asked (user_question : string) (w : World) : World :=
  {| heap := heap w;
     trace := trace w ++ [Log INFO ("Processing question: " +:+ user_question)] |}.

(** The newline character, and stripping around it. *)
Definition NL : ascii := Ascii.ascii_of_nat 10.

(** A payload inside a markdown code fence, with or without a tag. *)
Definition fenced (tag p : string) : string :=
  "```" +:+ tag +:+ nl +:+ p +:+ nl +:+ "```".

Section vocabulary.
Context `{!PyLib} (svc : Services).
Import ElasticsearchIndexer FinancialAIAssistant AIQueryHandler.

(** The frame [index_dataframe] writes: the copy, stamped. *)
Definition stamped (now : datetime) (d : DataFrame) : DataFrame :=
  df_setitem d "indexed_at" (VStr (isoformat now)).

(** The time read by a load that starts in [w]. *)
Definition load_time (index_name : string) (d : DataFrame) (w : World)
  : datetime :=
  clock svc (trace w ++ [Log INFO (prepare_msg index_name d)]).

Definition load_actions (index_name : string) (id_field : option string)
           (d : DataFrame) (w : World) : list Action :=
  make_action index_name id_field
    <$> to_dict_records (stamped (load_time index_name d w) d).

(** The date the fetch is called with, and the world it starts in. *)
Definition fetch_date (from_date : option string) (w : World) : option string :=
  if bool_decide (from_date = None ∨ from_date = Some "")
  then Some (strftime_dmy
               (clock svc (trace w ++ [Log INFO "Starting ETL pipeline...";
                                       Log INFO "Step 1: Extracting data from Directo..."])
                - ten_years))
  else from_date.

Definition range_msg (from_date : option string) (w : World) : string :=
  if bool_decide (from_date = None ∨ from_date = Some "")
  then "Using default date range: from "
       +:+ DirectoConnector.str_opt (fetch_date from_date w) +:+ " to today"
  else "Using specified date range: from "
       +:+ DirectoConnector.str_opt from_date +:+ " to today".

Definition fetch_world (from_date : option string) (w : World) : World :=
  {| heap := heap w;
     trace := trace w ++ [Log INFO "Starting ETL pipeline...";
                          Log INFO "Step 1: Extracting data from Directo...";
                          Log INFO (range_msg from_date w)] |}.

(** The aggregation section of a block: its header and, on the next line,
    the pretty-printed aggregations. *)
Definition aggregation_section (a : Json) : string :=
  "Aggregation Results:" +:+ nl +:+ json_dumps_indent2 a.

(** The pretty-printed documents, each starting on a line of its own. *)
Fixpoint documents_text (sources : list Json) : string :=
  match sources with
  | [] => ""
  | source :: sources' =>
      nl +:+ json_dumps_indent2 source +:+ documents_text sources'
  end.

(** The document section of a block: an empty line, the header with the
    total hit count, then the documents. *)
Definition document_section (n : Z) (sources : list Json) : string :=
  nl +:+ "Document Hits (" +:+ str_int n +:+ " total):" +:+ documents_text sources.

(** The block with the given sections. *)
Definition block (aggs : option Json) (n : Z) (sources : list Json)
  : string :=
  match aggs, bool_decide (0 < n) with
  | Some a, true => aggregation_section a +:+ nl +:+ document_section n sources
  | Some a, false => aggregation_section a
  | None, true => document_section n sources
  | None, false => ""
  end.

(** The store returns aggregations only for a request that carries some. *)
Definition answers_what_is_asked : Prop :=
  ∀ h req kvs,
    req_aggs req = None -> es_search svc h req = Ok (JObj kvs) ->
    dict_get kvs "aggregations" = None.

(** One of the four stages of an answer raises [e] and leaves the world
    [w']; the stages before it returned. *)
Inductive stage_raises (user_question : string) (w0 : World) (e : exn)
          (w' : World) : Prop :=
| translate_raises :
    _build_elasticsearch_query svc user_question w0 = (Raise e, w') ->
    stage_raises user_question w0 e w'
| execute_raises query_spec w1 :
    _build_elasticsearch_query svc user_question w0 = (Ok query_spec, w1) ->
    _execute_elasticsearch_query svc query_spec w1 = (Raise e, w') ->
    stage_raises user_question w0 e w'
| format_raises query_spec w1 es_results w2 :
    _build_elasticsearch_query svc user_question w0 = (Ok query_spec, w1) ->
    _execute_elasticsearch_query svc query_spec w1 = (Ok es_results, w2) ->
    _format_results_for_ai es_results w2 = (Raise e, w') ->
    stage_raises user_question w0 e w'
| compose_raises query_spec w1 es_results w2 formatted_results w3 :
    _build_elasticsearch_query svc user_question w0 = (Ok query_spec, w1) ->
    _execute_elasticsearch_query svc query_spec w1 = (Ok es_results, w2) ->
    _format_results_for_ai es_results w2 = (Ok formatted_results, w3) ->
    (chat svc (analysis_request user_question formatted_results)
     ≫= first_content) w3 = (Raise e, w') ->
    stage_raises user_question w0 e w'.
End vocabulary.

(** * Properties *)

(** ** Running computations *)

Lemma run_bind {A B} (m : M A) (f : A -> M B) (w : World) :
  (m ≫= f) w =
  match m w with
  | (Ok a, w') => f a w'
  | (Raise e, w') => (Raise e, w')
  end.
Proof. reflexivity. Qed.

Lemma run_ret {A} (a : A) (w : World) : mret (M := M) a w = (Ok a, w).
Proof. reflexivity. Qed.

Lemma run_bind_lift {A B} (r : Res A) (f : A -> M B) (w : World) :
  (lift r ≫= f) w =
  match r with
  | Ok a => f a w
  | Raise e => (Raise e, w)
  end.
Proof. by destruct r. Qed.

(** One step of a computation whose next lookup is known from a
    hypothesis. *)
Ltac step_lift :=
  rewrite run_bind_lift;
  try match goal with
      | H : _ = Ok _ |- _ => rewrite H
      end;
  cbv beta iota.

Lemma is_report_not_bulk ev : is_report ev -> not_bulk ev.
Proof. by destruct ev. Qed.

Section tame.
Context (P : Event -> Prop).

Lemma quiet_tame {A} (m : M A) : quiet P m -> tame P m.
Proof. intros H w. destruct (H w) as (a & evs & ? & ?). eauto. Qed.

Lemma world_eta (w : World) : {| heap := heap w; trace := trace w ++ [] |} = w.
Proof. destruct w. simpl. by rewrite app_nil_r. Qed.

Lemma quiet_ret {A} (a : A) : quiet P (mret a).
Proof. intros w. exists a, []. by rewrite world_eta. Qed.

Lemma tame_raise {A} (e : exn) : tame P (raise (A := A) e).
Proof. intros w. exists (Raise e), []. by rewrite world_eta. Qed.

Lemma tame_lift {A} (r : Res A) : tame P (lift r).
Proof. intros w. exists r, []. by rewrite world_eta. Qed.

Lemma quiet_emit ev : P ev -> quiet P (emit ev).
Proof. intros H w. exists (), [ev]. split; [done | by constructor]. Qed.

Lemma tame_call {A} ev (answer : list Event -> Res A) :
  P ev -> tame P (call ev answer).
Proof. intros H w. exists (answer (trace w)), [ev]. split; [done | by constructor]. Qed.

Lemma tame_bind {A B} (m : M A) (f : A -> M B) :
  tame P m -> (∀ a, tame P (f a)) -> tame P (m ≫= f).
Proof.
  intros Hm Hf w. destruct (Hm w) as (r & evs & Hr & Hevs).
  rewrite run_bind, Hr. destruct r as [a | e].
  - destruct (Hf a {| heap := heap w; trace := trace w ++ evs |})
      as (r' & evs' & Hr' & Hevs').
    exists r', (evs ++ evs'). simpl in Hr'. rewrite Hr', app_assoc.
    split; [done | by apply Forall_app].
  - exists (Raise e), evs. done.
Qed.

Lemma quiet_bind {A B} (m : M A) (f : A -> M B) :
  quiet P m -> (∀ a, quiet P (f a)) -> quiet P (m ≫= f).
Proof.
  intros Hm Hf w. destruct (Hm w) as (a & evs & Hr & Hevs).
  rewrite run_bind, Hr.
  destruct (Hf a {| heap := heap w; trace := trace w ++ evs |})
    as (b & evs' & Hr' & Hevs').
  exists b, (evs ++ evs'). simpl in Hr'. rewrite Hr', app_assoc.
  split; [done | by apply Forall_app].
Qed.

Lemma quiet_try_except {A} (body : M A) (handler : exn -> M A) :
  tame P body -> (∀ e, quiet P (handler e)) -> quiet P (try_except body handler).
Proof.
  intros Hm Hf w. destruct (Hm w) as (r & evs & Hr & Hevs).
  unfold try_except. rewrite Hr. destruct r as [a | e].
  - exists a, evs. done.
  - destruct (Hf e {| heap := heap w; trace := trace w ++ evs |})
      as (b & evs' & Hr' & Hevs').
    exists b, (evs ++ evs'). simpl in Hr'. rewrite Hr', app_assoc.
    split; [done | by apply Forall_app].
Qed.

Lemma quiet_for_each {A} (xs : list A) (body : A -> M unit) :
  (∀ x, quiet P (body x)) -> quiet P (for_each xs body).
Proof.
  intros H. induction xs as [| x xs IH]; simpl.
  - apply quiet_ret.
  - apply quiet_bind; [apply H | intros _; apply IH].
Qed.
End tame.

(** ** The index loader *)

Section loader_facts.
Context `{!PyLib} (svc : Services).
Import ElasticsearchIndexer.

(** Creating the collections never raises and writes no document. *)
Lemma create_one_quiet index_name mapping :
  quiet not_bulk (create_one svc index_name mapping).
Proof.
  unfold create_one.
  apply quiet_try_except.
  - apply tame_bind; [by apply tame_call |].
    intros [|].
    + by apply quiet_tame, quiet_emit.
    + apply tame_bind; [by apply tame_call |]. intros _.
      by apply quiet_tame, quiet_emit.
  - intros e. apply quiet_bind; [by apply quiet_emit |]. intros _.
    apply quiet_try_except.
    + apply tame_bind; [by apply tame_call |]. intros _.
      apply tame_bind; [by apply tame_call |]. intros _.
      by apply quiet_tame, quiet_emit.
    + intros e2. by apply quiet_emit.
Qed.

Lemma create_index_mappings_quiet : quiet not_bulk (create_index_mappings svc).
Proof. apply quiet_for_each. intros [n m]. apply create_one_quiet. Qed.

(** The clean-up of a record is the clean-up of each of its cells. *)
Lemma clean_record_fmap (record : gmap string value) :
  clean_record record = clean_value <$> record.
Proof.
  unfold clean_record.
  induction record as [| k v m Hk Hfold IH] using map_first_key_ind.
  - by rewrite map_fold_empty, fmap_empty.
  - rewrite map_fold_insert_first_key by done.
    by rewrite IH, fmap_insert.
Qed.

Lemma clean_record_lookup (record : gmap string value) (k : string) :
  clean_record record !! k = clean_value <$> record !! k.
Proof. by rewrite clean_record_fmap, lookup_fmap. Qed.

(** What [to_dict('records')] puts into a record. *)
Lemma to_dict_lookup (cols : list string) (r : gmap string value) (c : string) :
  foldl (λ d c, <[c := cell r c]> d) (∅ : gmap string value) cols !! c
  = if decide (c ∈ cols) then Some (cell r c) else None.
Proof.
  assert (∀ acc : gmap string value,
    foldl (λ d c, <[c := cell r c]> d) acc cols !! c
    = if decide (c ∈ cols) then Some (cell r c) else acc !! c) as Hgen.
  { induction cols as [| c' cols IH]; intros acc; simpl.
    - done.
    - rewrite IH. repeat case_decide; try done.
      + exfalso. set_solver.
      + destruct (decide (c = c')) as [-> |].
        * by rewrite lookup_insert_eq.
        * exfalso. set_solver.
      + destruct (decide (c = c')) as [-> |].
        * exfalso. set_solver.
        * by rewrite lookup_insert_ne. }
  by rewrite Hgen, lookup_empty.
Qed.

(** A cleaned cell is [None], an ISO text, or the cell as it was. *)
Lemma clean_value_null v : pd_isna v = true -> clean_value v = VNone.
Proof. unfold clean_value. by intros ->. Qed.

Lemma clean_value_timestamp t : clean_value (VTimestamp t) = VStr (isoformat t).
Proof. reflexivity. Qed.

Lemma clean_value_other v :
  pd_isna v = false -> is_datetime v = false -> clean_value v = v.
Proof. unfold clean_value. by intros -> ->. Qed.

Lemma clean_value_not_nan v :
  clean_value v ≠ VNaT ∧ ∀ f, clean_value v = VFloat f -> float_isnan f = false.
Proof.
  unfold clean_value. destruct v as [| | b | n | f | s | t]; simpl; try done.
  destruct (float_isnan f) eqn:Hf; split; try done.
  by intros f' [= <-].
Qed.

Lemma falsy_clean_value v : falsy_cell v -> truthy (clean_value v) = false.
Proof.
  unfold clean_value.
  intros [Hn | [-> | [-> | [-> | [s ->]]]]]; try done.
  by rewrite Hn.
Qed.

Lemma truthy_clean_value v :
  is_datetime v = false ->
  truthy (clean_value v) = false ↔ falsy_cell v.
Proof.
  intros Hd. unfold falsy_cell, clean_value. split.
  - destruct v as [| | b | n | f | s | t]; simpl; intros Ht; try by left.
    + destruct b; [done |]. by do 3 right; left.
    + apply bool_decide_eq_false in Ht.
      destruct (decide (n = 0)) as [-> | Hn]; [| by destruct Ht].
      by right; right; left.
    + destruct f as [s | s | | s m e]; simpl in Ht; try done.
      * do 4 right. by exists s.
      * by left.
    + apply bool_decide_eq_false in Ht.
      destruct (decide (s = "")) as [-> | Hn]; [| by destruct Ht].
      by right; left.
  - intros [Hn | [-> | [-> | [-> | [s ->]]]]]; try done.
    by rewrite Hn.
Qed.

(** The identity of an action, read off the record. *)
Lemma make_action_id index_name f (record : gmap string value) :
  act_id (make_action index_name (Some f) record)
  = match record !! f with
    | Some v => if bool_decide (f ≠ "") && truthy (clean_value v)
                then Some (py_str (clean_value v)) else None
    | None => None
    end.
Proof.
  cbn [make_action act_id mbind option_bind]. rewrite !clean_record_lookup.
  destruct (record !! f) as [v |]; cbn.
  - rewrite andb_true_r.
    destruct (bool_decide (f ≠ "") && truthy (clean_value v)); reflexivity.
  - by rewrite andb_false_r.
Qed.

(** The records of a stamped frame, cell by cell. *)
Lemma stamped_records_length now d :
  length (to_dict_records (stamped now d)) = length (rows d).
Proof. unfold to_dict_records, stamped, df_setitem. simpl. by rewrite !length_fmap. Qed.

Lemma stamped_records_lookup now d i row :
  rows d !! i = Some row ->
  ∃ record,
    to_dict_records (stamped now d) !! i = Some record
    ∧ record !! "indexed_at" = Some (VStr (isoformat now))
    ∧ ∀ c, c ≠ "indexed_at" ->
           record !! c = if decide (c ∈ columns d) then Some (cell row c) else None.
Proof.
  intros Hrow. unfold to_dict_records, stamped, df_setitem. simpl.
  rewrite !list_lookup_fmap, Hrow. simpl.
  eexists. split; [done |].
  assert (∀ c, cell (<["indexed_at" := VStr (isoformat now)]> row) c
               = if decide (c = "indexed_at") then VStr (isoformat now)
                 else cell row c) as Hcell.
  { intros c. unfold cell. case_decide as Hc.
    - subst c. by rewrite lookup_insert_eq.
    - by rewrite lookup_insert_ne. }
  split.
  - rewrite to_dict_lookup, Hcell.
    rewrite (decide_True (P := "indexed_at" = "indexed_at")) by done.
    destruct (decide ("indexed_at" ∈ columns d)) as [Hin | Hin].
    + by rewrite decide_True.
    + rewrite decide_True; [done |].
      apply elem_of_app. right. by apply list_elem_of_singleton.
  - intros c Hc. rewrite to_dict_lookup, Hcell.
    rewrite (decide_False (P := c = "indexed_at")) by done.
    destruct (decide ("indexed_at" ∈ columns d)); [done |].
    destruct (decide (c ∈ columns d)) as [Hin | Hin].
    + rewrite decide_True; [done |]. apply elem_of_app. by left.
    + rewrite decide_False; [done |]. intros [? | Hs]%elem_of_app; [done |].
      by apply list_elem_of_singleton in Hs.
Qed.

(** The reports after a bulk call are quiet. *)
Lemma failed_reports_quiet (failed : list Json) :
  quiet is_report
    (for_each (imap (λ i fail, (i, fail)) (take 5 failed))
       (λ '(i, fail),
        logger_error ("  Failed doc " +:+ pretty (i + 1)%nat +:+ ": "
                      +:+ json_str fail))).
Proof. apply quiet_for_each. intros [i fail]. by apply quiet_emit. Qed.

(** The bulk call is made once and its failure is absorbed. *)
Lemma bulk_write_spec index_name actions w :
  ∃ n reports,
    bulk_write svc index_name actions w
    = (Ok n, {| heap := heap w; trace := trace w ++ Bulk actions :: reports |})
    ∧ Forall is_report reports
    ∧ (∀ e, helpers_bulk svc (trace w) actions = Raise e ->
            n = 0 ∧
            reports = [Log ERROR ("❌ Bulk indexing failed for '" +:+ index_name
                                  +:+ "': " +:+ exn_msg e);
                       PrintExc e]).
Proof.
  unfold bulk_write, try_except, es_bulk.
  rewrite run_bind. unfold call at 1.
  destruct (helpers_bulk svc (trace w) actions) as [[success failed] | e] eqn:Hb.
  - assert (quiet is_report
      (logger_info ("✓ Indexed " +:+ str_int success
                    +:+ " documents to '" +:+ index_name +:+ "'") ;;
       (if bool_decide (failed ≠ []) then
          logger_warning ("⚠️  " +:+ str_len failed
                          +:+ " documents failed to index") ;;
          for_each (imap (λ i fail, (i, fail)) (take 5 failed))
            (λ '(i, fail),
             logger_error ("  Failed doc " +:+ pretty (i + 1)%nat +:+ ": "
                           +:+ json_str fail))
        else mret ()) ;;
       mret success)) as Hq.
    { apply quiet_bind; [by apply quiet_emit |]. intros _.
      apply quiet_bind; [| intros _; apply quiet_ret].
      case_bool_decide.
      - apply quiet_bind; [by apply quiet_emit |]. intros _.
        apply failed_reports_quiet.
      - apply quiet_ret. }
    destruct (Hq {| heap := heap w; trace := trace w ++ [Bulk actions] |})
      as (n & reports & Hrun & Hrep).
    cbn [heap trace] in Hrun. rewrite Hrun.
    exists n, reports. rewrite <- app_assoc. split; [done |].
    split; [done |]. intros e He. discriminate.
  - exists 0, [Log ERROR ("❌ Bulk indexing failed for '" +:+ index_name
                          +:+ "': " +:+ exn_msg e); PrintExc e].
    split.
    + unfold mbind, M_bind, mret, M_ret, logger_error, emit. cbn.
      by rewrite <- !app_assoc.
    + split; [by repeat constructor |].
      intros e' [= ->]. done.
Qed.

(** An absent frame is skipped: one warning, no write, count zero. *)
Lemma index_dataframe_none index_name id_field w :
  index_dataframe svc index_name None id_field w
  = (Ok 0, {| heap := heap w;
              trace := trace w ++ [Log WARNING (skip_msg index_name)] |}).
Proof. reflexivity. Qed.

(** So is an empty one. *)
Lemma index_dataframe_empty index_name id_field w l d :
  heap w !! l = Some d -> df_empty d = true ->
  index_dataframe svc index_name (Some l) id_field w
  = (Ok 0, {| heap := heap w;
              trace := trace w ++ [Log WARNING (skip_msg index_name)] |}).
Proof.
  intros Hl He. unfold index_dataframe.
  rewrite run_bind, run_bind. unfold deref at 1. rewrite Hl.
  rewrite run_ret, He. reflexivity.
Qed.

(** A frame with rows is copied, stamped and written in one bulk call;
    whatever the bulk call answers, the load returns a count. *)
Lemma index_dataframe_load index_name id_field w l d :
  heap w !! l = Some d -> df_empty d = false ->
  let l' := fresh (dom (heap w)) in
  let actions := load_actions svc index_name id_field d w in
  let w1 := {| heap := <[l' := stamped (load_time svc index_name d w) d]> (heap w);
               trace := trace w ++ [Log INFO (prepare_msg index_name d);
                                    Bulk actions] |} in
  ∃ n reports,
    index_dataframe svc index_name (Some l) id_field w
    = (Ok n, {| heap := heap w1; trace := trace w1 ++ reports |})
    ∧ Forall is_report reports
    ∧ (∀ e, helpers_bulk svc (trace w ++ [Log INFO (prepare_msg index_name d)])
              actions = Raise e ->
            n = 0 ∧
            reports = [Log ERROR ("❌ Bulk indexing failed for '" +:+ index_name
                                  +:+ "': " +:+ exn_msg e);
                       PrintExc e]).
Proof.
  intros Hl He l' actions w1. unfold index_dataframe.
  rewrite run_bind, run_bind. unfold deref at 1. rewrite Hl.
  rewrite run_ret, He.
  rewrite run_bind. unfold deref at 1. rewrite Hl.
  rewrite run_bind. unfold logger_info at 1, emit at 1.
  rewrite run_bind. unfold df_copy. rewrite run_bind.
  unfold deref at 1. cbn [heap trace]. rewrite Hl.
  unfold alloc at 1. cbn [heap trace].
  rewrite run_bind. unfold datetime_now at 1. cbn [heap trace].
  rewrite run_bind. unfold deref at 1. cbn [heap trace].
  fold l'. rewrite lookup_insert_eq.
  rewrite run_bind. unfold store at 1. cbn [heap trace].
  rewrite insert_insert_eq.
  rewrite run_bind. unfold deref at 1. cbn [heap trace].
  rewrite lookup_insert_eq.
  match goal with
  | |- context [bulk_write svc index_name ?a ?w0] =>
      destruct (bulk_write_spec index_name a w0) as (n & reports & Hrun & Hrep & Hraise)
  end.
  cbn [heap trace] in Hrun, Hraise. rewrite Hrun.
  exists n, reports. subst w1. cbn [heap trace].
  split; [| by split].
  do 2 f_equal. by rewrite <- !app_assoc.
Qed.
(** What a load of a frame with rows does, in one statement shared by the
    claims below. *)
Lemma index_dataframe_writes index_name id_field w l d :
  heap w !! l = Some d -> df_empty d = false ->
  ∃ n reports,
    index_dataframe svc index_name (Some l) id_field w
    = (Ok n,
       {| heap := <[fresh (dom (heap w))
                    := stamped (load_time svc index_name d w) d]> (heap w);
          trace := trace w
                   ++ [Log INFO (prepare_msg index_name d);
                       Bulk (load_actions svc index_name id_field d w)]
                   ++ reports |})
    ∧ Forall is_report reports.
Proof.
  intros Hl He.
  destruct (index_dataframe_load index_name id_field w l d Hl He)
    as (n & reports & Hrun & Hrep & _).
  exists n, reports. split; [| done].
  rewrite Hrun. cbn [heap trace]. by rewrite <- app_assoc.
Qed.

(** The action written for row [i]. *)
Lemma load_actions_lookup index_name id_field d w i row :
  rows d !! i = Some row ->
  ∃ record,
    to_dict_records (stamped (load_time svc index_name d w) d) !! i = Some record
    ∧ load_actions svc index_name id_field d w !! i
      = Some (make_action index_name id_field record).
Proof.
  intros Hrow.
  destruct (stamped_records_lookup (load_time svc index_name d w) d i row Hrow)
    as (record & Hrec & _).
  exists record. split; [done |].
  unfold load_actions. by rewrite list_lookup_fmap, Hrec.
Qed.

End loader_facts.

(** ** Loading a whole data set *)

Lemma written_to_app evs1 evs2 :
  written_to (evs1 ++ evs2) = written_to evs1 ++ written_to evs2.
Proof. apply omap_app. Qed.

Lemma written_to_not_bulk evs : Forall not_bulk evs -> written_to evs = [].
Proof.
  induction 1 as [| ev evs Hev _ IH]; [done |].
  destruct ev; cbn in *; try done; exact IH.
Qed.

Lemma written_to_load msg actions name :
  bulk_index (Bulk actions) = Some name ->
  written_to [Log INFO msg; Bulk actions] = [name].
Proof. intros Hb. unfold written_to. simpl in *. by injection Hb as ->. Qed.

Lemma not_bulk_uniform evs : Forall not_bulk evs -> Forall uniform evs.
Proof. intros H. eapply Forall_impl; [exact H |]. by intros []. Qed.

Lemma is_report_all_not_bulk evs : Forall is_report evs -> Forall not_bulk evs.
Proof. intros H. eapply Forall_impl; [exact H |]. apply is_report_not_bulk. Qed.

Lemma filter_one (P : string -> bool) (name : string) :
  filter (λ n, P n) [name] = if P name then [name] else [].
Proof. cbn. by destruct (P name). Qed.

Lemma dict_get_elem {V} (d : list (string * V)) k v :
  dict_get d k = Some v -> (k, v) ∈ d.
Proof.
  induction d as [| [k' v'] d IH]; cbn; [done |].
  case_decide as Hk.
  - intros [= ->]. subst. by left.
  - intros Hd. right. by apply IH.
Qed.

Lemma valid_data_get h data name l :
  valid_data h data -> dict_get data name = Some (Some l) -> is_Some (h !! l).
Proof.
  intros Hv Hget. apply dict_get_elem in Hget.
  eapply Forall_forall in Hv; [| exact Hget]. by apply Hv.
Qed.

Lemma valid_data_mono h h' data :
  h ⊆ h' -> valid_data h data -> valid_data h' data.
Proof.
  intros Hsub Hv. eapply Forall_impl; [exact Hv |].
  intros kv Hkv l Hl. destruct (Hkv l Hl) as [d Hd].
  exists d. by eapply lookup_weaken.
Qed.

Lemma has_rows_mono h h' data name :
  h ⊆ h' -> valid_data h data -> has_rows h' data name = has_rows h data name.
Proof.
  intros Hsub Hv. unfold has_rows.
  destruct (dict_get data name) as [[l |] |] eqn:Hl; try done.
  destruct (valid_data_get _ _ _ _ Hv Hl) as [d Hd].
  by rewrite Hd, (lookup_weaken _ _ _ _ Hd Hsub).
Qed.

Lemma loads_seq data names1 names2 (m1 m2 : M unit) :
  loads data names1 m1 -> loads data names2 m2 ->
  loads data (names1 ++ names2) (m1 ;; m2).
Proof.
  intros H1 H2 w Hv.
  destruct (H1 w Hv) as (w1 & evs1 & Hrun1 & Ht1 & Hh1 & Hw1 & Hu1).
  destruct (H2 w1 (valid_data_mono _ _ _ Hh1 Hv))
    as (w2 & evs2 & Hrun2 & Ht2 & Hh2 & Hw2 & Hu2).
  exists w2, (evs1 ++ evs2). rewrite run_bind, Hrun1, Hrun2.
  split; [done |]. split; [by rewrite Ht2, Ht1, app_assoc |].
  split; [by etrans |]. split; [| by apply Forall_app].
  rewrite written_to_app, Hw1, Hw2, filter_app. f_equal.
  apply list_filter_iff. intros name.
  by rewrite (has_rows_mono _ _ _ name Hh1 Hv).
Qed.

Lemma loads_quiet data (m : M unit) : quiet not_bulk m -> loads data [] m.
Proof.
  intros Hq w _. destruct (Hq w) as ([] & evs & Hrun & Hevs).
  eexists _, evs. split; [exact Hrun |]. cbn [heap trace].
  split; [done |]. split; [done |].
  split; [by rewrite written_to_not_bulk | by apply not_bulk_uniform].
Qed.

Section load_all.
Context `{!PyLib} (svc : Services).
Import ElasticsearchIndexer.

(** The actions of a load all go to the collection of the load. *)
Lemma load_actions_uniform index_name id_field d w :
  df_empty d = false ->
  uniform (Bulk (load_actions svc index_name id_field d w))
  ∧ bulk_index (Bulk (load_actions svc index_name id_field d w))
    = Some index_name.
Proof.
  intros He. unfold load_actions, to_dict_records, stamped, df_setitem.
  cbn [rows columns].
  destruct d as [cols [| row rws]]; [by destruct cols |].
  cbn. split; [| done]. split; [done |].
  exists index_name. constructor; [done |].
  apply Forall_fmap, Forall_fmap, Forall_fmap. by apply Forall_true.
Qed.

Lemma index_if_present_loads data name id_field :
  loads data [name] (index_if_present svc data name id_field).
Proof.
  intros w Hv. unfold index_if_present.
  rewrite (filter_one (λ n, has_rows (heap w) data n)). unfold has_rows.
  destruct (dict_get data name) as [[l |] |] eqn:Hget.
  - destruct (valid_data_get _ _ _ _ Hv Hget) as [d Hd]. rewrite Hd.
    destruct (df_empty d) eqn:He.
    + rewrite run_bind,
        (index_dataframe_empty svc name (Some id_field) w l d Hd He).
      eexists _, _. split; [done |]. cbn [heap trace].
      split; [done |]. split; [done |]. by split; [| repeat constructor].
    + destruct (index_dataframe_writes svc name (Some id_field) w l d Hd He)
        as (n & reports & Hrun & Hrep).
      rewrite run_bind, Hrun.
      eexists _, _. split; [done |]. cbn [heap trace].
      split; [done |]. split.
      { apply insert_subseteq, not_elem_of_dom, is_fresh. }
      destruct (load_actions_uniform name (Some id_field) d w He) as [Hu Hb].
      split.
      * rewrite written_to_app, (written_to_not_bulk reports), app_nil_r
          by by apply is_report_all_not_bulk.
        by apply written_to_load.
      * constructor; [done |]. constructor; [done |].
        by apply not_bulk_uniform, is_report_all_not_bulk.
  - rewrite run_bind, index_dataframe_none.
    eexists _, _. split; [done |]. cbn [heap trace].
    split; [done |]. split; [done |]. by split; [| repeat constructor].
  - eexists _, []. rewrite run_ret. split; [done |].
    split; [by rewrite app_nil_r |]. done.
Qed.

(** The whole load: it never raises, whatever the store answers, and the
    collections written to are the entity types with rows, in load order. *)
Lemma index_all_data_loads data :
  loads data load_order (index_all_data svc data).
Proof.
  unfold index_all_data.
  apply (loads_seq data [] load_order); [by apply loads_quiet, quiet_emit |].
  apply (loads_seq data [] load_order);
    [apply loads_quiet, create_index_mappings_quiet |].
  repeat (apply (loads_seq data [_] _); [apply index_if_present_loads |]).
  by apply loads_quiet, quiet_emit.
Qed.
End load_all.

(** ** The fetcher *)

Lemma allocated_mono ls : mono (λ h, allocated h ls).
Proof.
  intros h h' Hsub Hall. eapply Forall_impl; [exact Hall |]. intros l [d Hd].
  exists d. by eapply lookup_weaken.
Qed.

Lemma fetching_bind {A B} pre (m : M A) mid (f : A -> M B) post :
  fetching pre m mid -> (∀ a, fetching (λ h, mid h a) (f a) post) ->
  fetching pre (m ≫= f) post.
Proof.
  intros Hm Hf w Hpre.
  destruct (Hm w Hpre) as (r & w1 & evs1 & Hrun1 & Ht1 & Hh1 & Hnb1 & Hpost1).
  rewrite run_bind, Hrun1. destruct r as [a | e].
  - destruct (Hf a w1 Hpost1)
      as (r2 & w2 & evs2 & Hrun2 & Ht2 & Hh2 & Hnb2 & Hpost2).
    exists r2, w2, (evs1 ++ evs2). split; [done |].
    split; [by rewrite Ht2, Ht1, app_assoc |].
    split; [by etrans |]. split; [by apply Forall_app |].
    destruct r2 as [b | e]; [done |].
    destruct Hpost2 as (what & pre2 & ->).
    exists what, (evs1 ++ pre2). by rewrite app_assoc.
  - by exists (Raise e), w1, evs1.
Qed.

Lemma fetching_frame {A} pre (m : M A) post (R : gmap loc DataFrame -> Prop) :
  mono R -> fetching pre m post ->
  fetching (λ h, pre h ∧ R h) m (λ h a, post h a ∧ R h).
Proof.
  intros HR Hm w [Hpre Hr].
  destruct (Hm w Hpre) as (r & w1 & evs1 & Hrun1 & Ht1 & Hh1 & Hnb1 & Hpost1).
  exists r, w1, evs1. repeat (split; [done |]).
  destruct r; [| done]. split; [done |]. by eapply HR.
Qed.

Lemma fetching_weaken {A} (pre pre' : gmap loc DataFrame -> Prop) (m : M A)
      (post post' : gmap loc DataFrame -> A -> Prop) :
  (∀ h, pre' h -> pre h) -> (∀ h a, post h a -> post' h a) ->
  fetching pre m post -> fetching pre' m post'.
Proof.
  intros Hp Hq Hm w Hpre.
  destruct (Hm w (Hp _ Hpre)) as (r & w1 & evs1 & Hrun1 & Ht1 & Hh1 & Hnb1 & Hpost1).
  exists r, w1, evs1. repeat (split; [done |]).
  destruct r; [by apply Hq | done].
Qed.

Lemma fetching_quiet {A} (m : M A) (R : gmap loc DataFrame -> Prop) :
  quiet not_bulk m -> fetching R m (λ h _, R h).
Proof.
  intros Hq w Hr. destruct (Hq w) as (a & evs & Hrun & Hevs).
  eexists (Ok a), _, evs. split; [exact Hrun |]. cbn [heap trace].
  by repeat (split; [done |]).
Qed.

Lemma updates_ret l : updates l (mret ()).
Proof.
  intros w d Hd. exists d. rewrite run_ret, insert_id by done. by destruct w.
Qed.

Lemma updates_seq l (m1 m2 : M unit) :
  updates l m1 -> updates l m2 -> updates l (m1 ;; m2).
Proof.
  intros H1 H2 w d Hd. destruct (H1 w d Hd) as (d1 & Hrun1).
  rewrite run_bind, Hrun1.
  destruct (H2 {| heap := <[l := d1]> (heap w); trace := trace w |} d1)
    as (d2 & Hrun2); [by apply lookup_insert_eq |].
  exists d2. rewrite Hrun2. cbn [heap trace]. by rewrite insert_insert_eq.
Qed.

Section fetcher_facts.
Context `{!PyLib} (svc : Services) (token : string).
Import DirectoConnector.

Lemma coerce_column_updates l c convert : updates l (coerce_column l c convert).
Proof.
  intros w d Hd. unfold coerce_column. rewrite run_bind.
  unfold deref at 1. rewrite Hd. case_decide.
  - by eexists.
  - exists d. rewrite run_ret, insert_id by done. by destruct w.
Qed.

(** A request leaves the heap alone; when it raises, the failure has just
    been logged. *)
Lemma make_request_spec what filters w :
  ∃ r evs,
    _make_request svc token what filters w
    = (r, {| heap := heap w; trace := trace w ++ evs |})
    ∧ Forall not_bulk evs
    ∧ ∀ e, r = Raise e -> evs = removelast evs ++ [Log ERROR (fetch_error what e)].
Proof.
  unfold _make_request, try_except.
  match goal with
  | |- context [match ?body w with _ => _ end] =>
      assert (tame not_bulk body) as Hbody
  end.
  { apply tame_bind; [by apply tame_call |]. intros response.
    apply tame_bind.
    { case_bool_decide; [apply tame_raise | apply quiet_tame, quiet_ret]. }
    intros _. apply tame_bind; [apply tame_lift |]. intros root.
    apply tame_bind.
    { case_decide; [apply tame_raise |].
      destruct (_ && _); [apply tame_raise | apply quiet_tame, quiet_ret]. }
    intros _. apply tame_bind; [by apply quiet_tame, quiet_emit |].
    intros _. apply quiet_tame, quiet_ret. }
  destruct (Hbody w) as (r & evs & Hrun & Hevs). rewrite Hrun.
  destruct r as [root | e].
  - exists (Ok root), evs. by repeat split.
  - exists (Raise e), (evs ++ [Log ERROR (fetch_error what e)]).
    split; [| split].
    + unfold fetch_error. rewrite run_bind. unfold logger_error, emit, raise.
      cbn [heap trace]. by rewrite app_assoc.
    + apply Forall_app. split; [done | by repeat constructor].
    + intros e' [= <-]. by rewrite removelast_last.
Qed.

Lemma make_request_fetching what filters (R : gmap loc DataFrame -> Prop) :
  fetching R (_make_request svc token what filters) (λ h _, R h).
Proof.
  intros w Hr.
  destruct (make_request_spec what filters w) as (r & evs & Hrun & Hevs & Hraise).
  eexists r, _, evs. split; [exact Hrun |]. cbn [heap trace].
  repeat (split; [done |]). destruct r as [root | e]; [done |].
  exists what, (removelast evs). by apply Hraise.
Qed.

(** What follows the request in a getter: the frame is allocated, possibly
    rewritten in place, and its length logged. *)
Lemma getter_tail (upd : loc -> DataFrame -> M unit) (msg : DataFrame -> string)
      (df : DataFrame) (w : World) :
  (∀ l d, updates l (upd l d)) ->
  ∃ d',
    (l ← alloc df; d ← deref l; upd l d ;; d ← deref l;
     logger_info (msg d) ;; mret l) w
    = (Ok (fresh (dom (heap w))),
       {| heap := <[fresh (dom (heap w)) := d']> (heap w);
          trace := trace w ++ [Log INFO (msg d')] |}).
Proof.
  intros Hupd. rewrite run_bind. unfold alloc at 1. cbn [heap trace].
  set (l := fresh (dom (heap w))).
  rewrite run_bind. unfold deref at 1. cbn [heap trace].
  rewrite lookup_insert_eq.
  destruct (Hupd l df {| heap := <[l := df]> (heap w); trace := trace w |} df)
    as (d' & Hrun); [by apply lookup_insert_eq |].
  rewrite run_bind, Hrun. cbn [heap trace]. rewrite insert_insert_eq.
  rewrite run_bind. unfold deref at 1. cbn [heap trace].
  rewrite lookup_insert_eq. by exists d'.
Qed.

Lemma getter_fetching what filters (tail : Element -> M loc)
      (R : gmap loc DataFrame -> Prop) :
  mono R ->
  (∀ xml w, ∃ d' msg,
     tail xml w
     = (Ok (fresh (dom (heap w))),
        {| heap := <[fresh (dom (heap w)) := d']> (heap w);
           trace := trace w ++ [Log INFO msg] |})) ->
  fetching R (xml ← _make_request svc token what filters; tail xml)
           (λ h l, is_Some (h !! l) ∧ R h).
Proof.
  intros HR Htail w Hr.
  destruct (make_request_spec what filters w) as (r & evs & Hrun & Hevs & Hraise).
  rewrite run_bind, Hrun. destruct r as [xml | e].
  - destruct (Htail xml {| heap := heap w; trace := trace w ++ evs |})
      as (d' & msg & Htl).
    rewrite Htl. cbn [heap trace].
    eexists (Ok _), _, (evs ++ [Log INFO msg]). split; [done |]. cbn [heap trace].
    assert (heap w ⊆ <[fresh (dom (heap w)) := d']> (heap w)) as Hsub.
    { apply insert_subseteq, not_elem_of_dom, is_fresh. }
    split; [by rewrite app_assoc |]. split; [done |].
    split; [apply Forall_app; split; [done | by repeat constructor] |].
    split; [by rewrite lookup_insert_eq | by eapply HR].
  - eexists (Raise e), _, evs. split; [done |]. cbn [heap trace].
    repeat (split; [done |]). exists what, (removelast evs). by apply Hraise.
Qed.

Lemma get_plain_fetching what plural from_date R :
  mono R ->
  fetching R (get_plain svc token what plural from_date)
           (λ h l, is_Some (h !! l) ∧ R h).
Proof.
  intros HR. apply getter_fetching; [done |]. intros xml w.
  eexists _, _. unfold _xml_to_dataframe.
  rewrite run_bind. unfold alloc at 1. cbn [heap trace].
  rewrite run_bind. unfold deref at 1. cbn [heap trace].
  rewrite lookup_insert_eq. reflexivity.
Qed.

Lemma get_invoices_fetching from_date R :
  mono R ->
  fetching R (get_invoices svc token from_date) (λ h l, is_Some (h !! l) ∧ R h).
Proof.
  intros HR. apply getter_fetching; [done |]. intros xml w.
  unfold _xml_to_dataframe.
  destruct (getter_tail
              (λ df d, if df_empty d then mret ()
                       else coerce_column df "transactiondate" pd_to_datetime ;;
                            for_each ["number"]
                              (λ field, coerce_column df field pd_to_numeric))
              (λ d, "Retrieved " +:+ pretty (df_len d) +:+ " invoices")
              (pd_DataFrame (el_attrib <$> el_children xml)) w)
    as (d' & Hrun).
  { intros l d. destruct (df_empty d); [apply updates_ret |].
    apply updates_seq; [apply coerce_column_updates |].
    cbn [for_each]. apply updates_seq; [apply coerce_column_updates |].
    apply updates_ret. }
  by exists d', ("Retrieved " +:+ pretty (df_len d') +:+ " invoices").
Qed.

Lemma get_purchases_fetching from_date R :
  mono R ->
  fetching R (get_purchases svc token from_date) (λ h l, is_Some (h !! l) ∧ R h).
Proof.
  intros HR. apply getter_fetching; [done |]. intros xml w.
  unfold _xml_to_dataframe.
  destruct (getter_tail
              (λ df d, if negb (df_empty d) && bool_decide ("date1" ∈ columns d)
                       then store df (df_setitem_series d "date1"
                                        (pd_to_datetime (df_getitem d "date1")))
                       else mret ())
              (λ d, "Retrieved " +:+ pretty (df_len d) +:+ " purchases")
              (pd_DataFrame (el_attrib <$> el_children xml)) w)
    as (d' & Hrun).
  { intros l d. destruct (_ && _); [| apply updates_ret].
    intros w' d0 _. by eexists. }
  by exists d', ("Retrieved " +:+ pretty (df_len d') +:+ " purchases").
Qed.
End fetcher_facts.

(** ** The whole fetch *)

Lemma valid_all_data h data : valid_all h data -> valid_data h data.
Proof.
  intros Hall. eapply Forall_impl; [exact Hall |].
  intros kv (l' & Hkv & Hl) l Hl'. rewrite Hkv in Hl'. by injection Hl' as <-.
Qed.

Lemma mono_true : mono (λ _, True).
Proof. done. Qed.

Lemma mono_and_alloc l R : mono R -> mono (λ h, is_Some (h !! l) ∧ R h).
Proof.
  intros HR h h' Hsub [[d Hd] Hr]. split; [| by eapply HR].
  exists d. by eapply lookup_weaken.
Qed.

Lemma fetching_ret {A} (a : A) (R : gmap loc DataFrame -> Prop) :
  fetching R (mret a) (λ h a', a' = a ∧ R h).
Proof.
  intros w Hr. exists (Ok a), w, []. rewrite run_ret, app_nil_r.
  by repeat (split; [done |]).
Qed.

Section fetch_all.
Context `{!PyLib} (svc : Services) (token : string).
Import DirectoConnector.

(** The whole fetch returns eight frames on the heap, or raises right after
    the report of the first failed request. *)
Lemma get_all_financial_data_fetching from_date :
  fetching (λ _, True) (get_all_financial_data svc token from_date)
           (λ h data, valid_all h data).
Proof.
  unfold get_all_financial_data.
  eapply fetching_bind; [by apply fetching_quiet, quiet_emit |]. intros [].
  eapply fetching_bind; [by apply get_invoices_fetching, mono_true |].
  intros l1. cbn beta.
  eapply fetching_bind;
    [by apply get_plain_fetching, mono_and_alloc, mono_true |].
  intros l2. cbn beta.
  eapply fetching_bind;
    [by apply get_purchases_fetching; repeat apply mono_and_alloc;
        apply mono_true |].
  intros l3. cbn beta.
  do 5 (eapply fetching_bind;
    [by apply get_plain_fetching; repeat apply mono_and_alloc;
        apply mono_true |];
    intros ?; cbn beta).
  eapply fetching_bind; [by apply fetching_quiet, quiet_emit |]. intros [].
  eapply fetching_weaken; [| | apply fetching_ret].
  { intros h Hh. exact Hh. }
  intros h data [-> (H8 & H7 & H6 & H5 & H4 & H3 & H2 & H1 & _)].
  unfold valid_all. repeat (constructor; [by eexists |]). constructor.
Qed.
End fetch_all.

(** ** The requests of a fetch *)

Lemma posted_app evs1 evs2 : posted (evs1 ++ evs2) = posted evs1 ++ posted evs2.
Proof. apply omap_app. Qed.

Lemma posted_reports evs : Forall is_report evs -> posted evs = [].
Proof.
  induction 1 as [| ev evs Hev _ IH]; [done |].
  destruct ev; cbn in *; try done; exact IH.
Qed.

Section fetch_order_facts.
Context `{!PyLib} (svc : Services) (token : string) (from_date : option string).
Import DirectoConnector.

Lemma fetches_quiet {A} (m : M A) : quiet is_report m -> fetches svc token from_date [] m.
Proof.
  intros Hq w. destruct (Hq w) as (a & evs & Hrun & Hevs).
  eexists (Ok a), _, evs, 0%nat. split; [exact Hrun |]. cbn [heap trace].
  split; [done |]. split; [by apply is_report_all_not_bulk |].
  split; [done |]. split; [by apply posted_reports |]. split; [done |].
  intros pre params rest e -> _.
  apply Forall_app in Hevs as [_ Hevs]. by apply Forall_cons in Hevs as [[] _].
Qed.

Lemma fetches_bind {A B} whats1 whats2 (m : M A) (f : A -> M B) :
  fetches svc token from_date whats1 m ->
  (∀ a, fetches svc token from_date whats2 (f a)) ->
  fetches svc token from_date (whats1 ++ whats2) (m ≫= f).
Proof.
  intros Hm Hf w.
  destruct (Hm w) as (r1 & w1 & evs1 & k1 & Hrun1 & Ht1 & Hnb1 & Hk1 & Hp1 & Hok1 & Hfail1).
  rewrite run_bind, Hrun1. destruct r1 as [a | e1].
  - destruct (Hf a w1)
      as (r2 & w2 & evs2 & k2 & Hrun2 & Ht2 & Hnb2 & Hk2 & Hp2 & Hok2 & Hfail2).
    specialize (Hok1 a eq_refl). subst k1.
    exists r2, w2, (evs1 ++ evs2), (length whats1 + k2)%nat.
    split; [done |]. split; [by rewrite Ht2, Ht1, app_assoc |].
    split; [by apply Forall_app |].
    split; [rewrite length_app; lia |].
    split.
    { rewrite posted_app, Hp1, Hp2, take_app_add, firstn_all, fmap_app. done. }
    split.
    { intros b Hb. rewrite (Hok2 b Hb), length_app. done. }
    intros pre params rest e Hsplit Hfailed.
    apply app_eq_inv in Hsplit as [(mid & -> & Hmid) | (mid & -> & ->)].
    + destruct mid as [| ev mid]; cbn in Hmid.
      * subst evs2. rewrite app_nil_r in *.
        destruct (Hfail2 [] params rest e eq_refl) as (-> & what & Hin & -> & ->).
        { by rewrite Ht1, app_nil_r. }
        split; [done |]. exists what. split; [| done].
        apply elem_of_app. by right.
      * injection Hmid as <- ->.
        destruct (Hfail1 pre params mid e eq_refl Hfailed) as [? _]. done.
    + destruct (Hfail2 mid params rest e eq_refl) as (-> & what & Hin & -> & ->).
      { by rewrite Ht1, <- app_assoc. }
      split; [done |]. exists what. split; [| done].
      apply elem_of_app. by right.
  - exists (Raise e1), w1, evs1, k1. split; [done |]. split; [done |].
    split; [done |]. split; [rewrite length_app; lia |].
    split; [by rewrite take_app_le |]. split; [done |].
    intros pre params rest e Hsplit Hfailed.
    destruct (Hfail1 pre params rest e Hsplit Hfailed) as (Hr & what & Hin & -> & ->).
    injection Hr as <-.
    split; [done |]. exists what. split; [| done].
    apply elem_of_app. by left.
Qed.

Lemma failed_request_inj answer e e' :
  failed_request svc answer e -> failed_request svc answer e' -> e = e'.
Proof. destruct 1; inversion 1; subst; congruence. Qed.

(** The parameters of a getter's request. *)
Lemma ts_params what :
  (if bool_decide (ts_filters from_date ≠ [])
   then dict_update [("token", token); ("get", "1"); ("what", what)]
          (ts_filters from_date)
   else [("token", token); ("get", "1"); ("what", what)])
  = getter_params token from_date what.
Proof.
  unfold getter_params, ts_filters.
  destruct from_date as [d |]; [| done].
  destruct (decide (d = "")); [done |]. reflexivity.
Qed.

(** A request either fails, and then raises the failure after its report,
    or returns the root element after the report of the success. *)
Lemma make_request_cases what w :
  let params := getter_params token from_date what in
  (∃ e,
     failed_request svc (requests_post svc (trace w) params) e
     ∧ _make_request svc token what (ts_filters from_date) w
       = (Raise e,
          {| heap := heap w;
             trace := trace w ++ [HttpPost params;
                                  Log ERROR (fetch_error what e)] |}))
  ∨ (∃ root,
       (∀ e, ¬ failed_request svc (requests_post svc (trace w) params) e)
       ∧ _make_request svc token what (ts_filters from_date) w
         = (Ok root,
            {| heap := heap w;
               trace := trace w
                        ++ [HttpPost params;
                            Log INFO ("Successfully fetched " +:+ what
                                      +:+ " data")] |})).
Proof.
  intros params.
  destruct (_make_request svc token what (ts_filters from_date) w)
    as [r w'] eqn:Hrun.
  revert Hrun. unfold _make_request. rewrite ts_params. fold params.
  unfold try_except, fetch_error.
  rewrite run_bind. unfold call at 1.
  destruct (requests_post svc (trace w) params) as [response | e] eqn:Hpost.
  - rewrite run_bind. case_bool_decide as Hstatus.
    + unfold raise at 1. rewrite run_bind. unfold logger_error, emit, raise.
      cbn [heap trace]. rewrite <- app_assoc. intros [= <- <-].
      left. eexists. split; [by apply bad_status | done].
    + rewrite run_ret, run_bind_lift.
      destruct (et_fromstring svc (content response)) as [root | e] eqn:Hparse.
      * rewrite run_bind. case_decide as Htag.
        { unfold raise at 1. rewrite run_bind. unfold logger_error, emit, raise.
          cbn [heap trace]. rewrite <- app_assoc. intros [= <- <-].
          left. eexists. split; [by eapply api_error | done]. }
        destruct (bool_decide (el_tag root = "result")
                  && bool_decide (dict_get (el_attrib root) "type" = Some "5"))
          eqn:Hauth.
        { apply andb_true_iff in Hauth as [Hres Htype].
          apply bool_decide_eq_true in Hres, Htype.
          unfold raise at 1. rewrite run_bind. unfold logger_error, emit, raise.
          cbn [heap trace]. rewrite <- app_assoc. intros [= <- <-].
          left. eexists. split; [by eapply unauthorized | done]. }
        rewrite run_ret, run_bind. unfold logger_info at 1, emit at 1.
        rewrite run_ret. cbn [heap trace]. rewrite <- app_assoc.
        intros [= <- <-].
        right. exists root. split; [| done].
        intros e. inversion 1; subst; try congruence.
        match goal with
        | Hr : et_fromstring svc _ = Ok ?root' |- _ =>
            assert (root' = root) as -> by congruence
        end.
        rewrite !bool_decide_eq_true_2 in Hauth by done. done.
      * rewrite run_bind. unfold logger_error, emit, raise.
        cbn [heap trace]. rewrite <- app_assoc. intros [= <- <-].
        left. eexists. split; [by eapply not_parsed | done].
  - rewrite run_bind. unfold logger_error, emit, raise.
    cbn [heap trace]. rewrite <- app_assoc. intros [= <- <-].
    left. exists e. split; [constructor | done].
Qed.

(** A getter requests its entity type once. *)
Lemma getter_fetches what (tail : Element -> M loc) :
  (∀ xml w, ∃ d' msg,
     tail xml w
     = (Ok (fresh (dom (heap w))),
        {| heap := <[fresh (dom (heap w)) := d']> (heap w);
           trace := trace w ++ [Log INFO msg] |})) ->
  fetches svc token from_date [what]
    (xml ← _make_request svc token what (ts_filters from_date); tail xml).
Proof.
  intros Htail w. rewrite run_bind.
  destruct (make_request_cases what w)
    as [(e & Hfailed & ->) | (root & Hfine & ->)].
  - eexists (Raise e), _, _, 1%nat. split; [done |]. cbn [heap trace].
    split; [done |]. split; [by repeat constructor |].
    split; [done |]. split; [done |]. split; [done |].
    intros pre params rest e' Hsplit Hfailed'.
    destruct pre as [| ev pre]; cbn in Hsplit.
    + injection Hsplit as <- <-. rewrite app_nil_r in Hfailed'.
      rewrite (failed_request_inj _ _ _ Hfailed' Hfailed).
      split; [done |]. exists what. split; [by left | done].
    + injection Hsplit as _ Hsplit.
      destruct pre as [| ev' pre]; [done |].
      injection Hsplit as _ Hsplit. by destruct pre.
  - destruct (Htail root {| heap := heap w;
                            trace := trace w
                                     ++ [HttpPost (getter_params token from_date what);
                                         Log INFO ("Successfully fetched " +:+ what
                                                   +:+ " data")] |})
      as (d' & msg & ->).
    cbn [heap trace].
    eexists (Ok _), _, _, 1%nat. split; [done |]. cbn [heap trace].
    split; [by rewrite <- app_assoc |]. split; [by repeat constructor |].
    split; [done |]. split; [done |]. split; [done |].
    intros pre params rest e' Hsplit Hfailed'.
    destruct pre as [| ev pre]; cbn in Hsplit.
    + injection Hsplit as <- <-. rewrite app_nil_r in Hfailed'.
      by destruct (Hfine e').
    + injection Hsplit as _ Hsplit.
      destruct pre as [| ev' pre]; [done |].
      injection Hsplit as _ Hsplit.
      destruct pre as [| ev'' pre]; [done |].
      injection Hsplit as _ Hsplit. by destruct pre.
Qed.

Lemma get_plain_fetches what plural :
  fetches svc token from_date [what] (get_plain svc token what plural from_date).
Proof.
  apply getter_fetches. intros xml w.
  eexists _, _. unfold _xml_to_dataframe.
  rewrite run_bind. unfold alloc at 1. cbn [heap trace].
  rewrite run_bind. unfold deref at 1. cbn [heap trace].
  rewrite lookup_insert_eq. reflexivity.
Qed.

Lemma get_invoices_fetches :
  fetches svc token from_date ["invoice"] (get_invoices svc token from_date).
Proof.
  apply getter_fetches. intros xml w.
  unfold _xml_to_dataframe.
  destruct (getter_tail
              (λ df d, if df_empty d then mret ()
                       else coerce_column df "transactiondate" pd_to_datetime ;;
                            for_each ["number"]
                              (λ field, coerce_column df field pd_to_numeric))
              (λ d, "Retrieved " +:+ pretty (df_len d) +:+ " invoices")
              (pd_DataFrame (el_attrib <$> el_children xml)) w)
    as (d' & Hrun).
  { intros l d. destruct (df_empty d); [apply updates_ret |].
    apply updates_seq; [apply coerce_column_updates |].
    cbn [for_each]. apply updates_seq; [apply coerce_column_updates |].
    apply updates_ret. }
  by exists d', ("Retrieved " +:+ pretty (df_len d') +:+ " invoices").
Qed.

Lemma get_purchases_fetches :
  fetches svc token from_date ["purchase"] (get_purchases svc token from_date).
Proof.
  apply getter_fetches. intros xml w.
  unfold _xml_to_dataframe.
  destruct (getter_tail
              (λ df d, if negb (df_empty d) && bool_decide ("date1" ∈ columns d)
                       then store df (df_setitem_series d "date1"
                                        (pd_to_datetime (df_getitem d "date1")))
                       else mret ())
              (λ d, "Retrieved " +:+ pretty (df_len d) +:+ " purchases")
              (pd_DataFrame (el_attrib <$> el_children xml)) w)
    as (d' & Hrun).
  { intros l d. destruct (_ && _); [| apply updates_ret].
    intros w' d0 _. by eexists. }
  by exists d', ("Retrieved " +:+ pretty (df_len d') +:+ " purchases").
Qed.

(** The whole fetch requests the eight entity types in order, one request
    each, and stops at the first request that fails. *)
Lemma get_all_financial_data_fetches :
  fetches svc token from_date fetch_order
    (get_all_financial_data svc token from_date).
Proof.
  unfold get_all_financial_data.
  apply (fetches_bind [] fetch_order); [by apply fetches_quiet, quiet_emit |].
  intros [].
  apply (fetches_bind ["invoice"] _); [apply get_invoices_fetches |]. intros l1.
  apply (fetches_bind ["customer"] _); [apply get_plain_fetches |]. intros l2.
  apply (fetches_bind ["purchase"] _); [apply get_purchases_fetches |]. intros l3.
  apply (fetches_bind ["item"] _); [apply get_plain_fetches |]. intros l4.
  apply (fetches_bind ["project"] _); [apply get_plain_fetches |]. intros l5.
  apply (fetches_bind ["object"] _); [apply get_plain_fetches |]. intros l6.
  apply (fetches_bind ["account"] _); [apply get_plain_fetches |]. intros l7.
  apply (fetches_bind ["supplier"] []); [apply get_plain_fetches |]. intros l8.
  cbv zeta.
  apply (fetches_bind [] []); [by apply fetches_quiet, quiet_emit |].
  intros []. apply fetches_quiet, quiet_ret.
Qed.
End fetch_order_facts.

Lemma posted_split evs params :
  params ∈ posted evs -> ∃ pre rest, evs = pre ++ HttpPost params :: rest.
Proof.
  intros (ev & Hev & Hp)%list_elem_of_omap.
  destruct ev; try done. injection Hp as ->.
  by apply list_elem_of_split.
Qed.

Lemma fetch_order_nodup : NoDup fetch_order.
Proof. by apply (bool_decide_unpack _); vm_compute. Qed.

Section fetch_stop.
Context `{!PyLib} (svc : Services) (token : string) (from_date : option string).
Import DirectoConnector.

(** When the accounting API fails the requests for one entity type, the
    fetch raises, and it requests no entity type after that one. *)
Lemma fetch_stops_at w i what :
  fetch_order !! i = Some what ->
  (∀ h, ∃ e, failed_request svc
               (requests_post svc h (getter_params token from_date what)) e) ->
  ∃ e w1 evs k,
    get_all_financial_data svc token from_date w = (Raise e, w1)
    ∧ trace w1 = trace w ++ evs
    ∧ Forall not_bulk evs
    ∧ posted evs = getter_params token from_date <$> take k fetch_order
    ∧ (k ≤ S i)%nat.
Proof.
  intros Hi Hdown.
  destruct (get_all_financial_data_fetches svc token from_date w)
    as (r & w1 & evs & k & Hrun & Ht & Hnb & Hk & Hp & Hok & Hfail).
  assert (i < length fetch_order)%nat as Hlen by by eapply lookup_lt_Some.
  destruct (decide (i < k)%nat) as [Hik | Hik].
  - assert (getter_params token from_date what ∈ posted evs) as Hin.
    { rewrite Hp. apply list_elem_of_fmap. exists what. split; [done |].
      apply list_elem_of_lookup. exists i. by rewrite lookup_take_lt. }
    destruct (posted_split _ _ Hin) as (pre & rest & ->).
    destruct (Hdown (trace w ++ pre)) as [e He].
    destruct (Hfail pre _ rest e eq_refl He) as (-> & what' & _ & _ & ->).
    eexists e, w1, _, k. repeat (split; [done |]).
    (* the failed request is the last one posted *)
    assert (last (posted (pre ++ [HttpPost (getter_params token from_date what);
                                  Log ERROR (fetch_error what' e)]))
            = Some (getter_params token from_date what)) as Hlast.
    { rewrite posted_app. cbn. by rewrite last_snoc. }
    rewrite Hp, fmap_last, last_lookup, length_take_le in Hlast by done.
    destruct (take k fetch_order !! Init.Nat.pred k) as [what'' |] eqn:Hk';
      [| done].
    unfold getter_params in Hlast. cbn in Hlast. simplify_eq.
    apply lookup_take_Some in Hk' as [Hk' _].
    pose proof (NoDup_lookup _ _ _ _ fetch_order_nodup Hi Hk'). lia.
  - destruct r as [data | e].
    + specialize (Hok data eq_refl). lia.
    + exists e, w1, evs, k. repeat (split; [done |]). lia.
Qed.
End fetch_stop.

(** ** The pipeline run *)

Section run_facts.
Context `{!PyLib} (svc : Services) (token : string).
Import FinancialAIAssistant.

(** The summary loop over fetched frames only logs. *)
Lemma summary_quiet (data : list (string * option loc)) (w : World) :
  valid_all (heap w) data ->
  ∃ evs,
    for_each data
      (λ '(name, df),
       match df with
       | Some l =>
           d ← deref l;
           logger_info ("Extracted " +:+ pretty (df_len d) +:+ " " +:+ name)
       | None =>
           raise (Exn "TypeError" "object of type 'NoneType' has no len()")
       end) w
    = (Ok (), {| heap := heap w; trace := trace w ++ evs |})
    ∧ Forall is_report evs.
Proof.
  intros Hall. revert w Hall.
  induction data as [| [name df] data IH]; intros w Hall.
  - exists []. cbn. by rewrite world_eta.
  - apply Forall_cons in Hall as [(l & Hdf & [d Hd]) Hall].
    cbn in Hdf. subst df. cbn [for_each].
    rewrite run_bind, run_bind. unfold deref at 1. rewrite Hd.
    unfold logger_info at 1, emit at 1.
    match goal with
    | |- context [for_each data ?body ?w1] => destruct (IH w1 Hall) as (evs & Hrun & Hevs)
    end.
    rewrite Hrun. cbn [heap trace]. eexists (_ :: evs).
    split; [by rewrite <- app_assoc |]. by constructor.
Qed.

(** A run is decided by its fetch: when the fetch raises, the run logs the
    failure and returns false; when the fetch returns, the run loads the
    entity types that have rows and returns true. *)
Lemma run_etl_pipeline_cases from_date w :
  match DirectoConnector.get_all_financial_data svc token
          (fetch_date svc from_date w) (fetch_world svc from_date w) with
  | (Raise e, w1) =>
      run_etl_pipeline svc token from_date w
      = (Ok false, {| heap := heap w1;
                      trace := trace w1 ++ [Log ERROR (failed_msg e)] |})
  | (Ok data, w1) =>
      ∃ w' evs,
        run_etl_pipeline svc token from_date w = (Ok true, w')
        ∧ trace w' = trace w1 ++ evs
        ∧ heap w1 ⊆ heap w'
        ∧ written_to evs = filter (λ name, has_rows (heap w1) data name) load_order
        ∧ Forall uniform evs
  end.
Proof.
  destruct (get_all_financial_data_fetching svc token (fetch_date svc from_date w)
              (fetch_world svc from_date w) I)
    as (r & w1 & evs1 & Hfetch & Ht1 & Hh1 & Hnb1 & Hpost).
  assert (∀ k : option string -> M bool,
    ((if bool_decide (from_date = None ∨ from_date = Some "") then
        now ← datetime_now svc;
        let d := strftime_dmy (now - ten_years) in
        logger_info ("Using default date range: from " +:+ d +:+ " to today") ;;
        mret (Some d)
      else
        logger_info ("Using specified date range: from "
                     +:+ DirectoConnector.str_opt from_date +:+ " to today") ;;
        mret from_date) ≫= k)
      {| heap := heap w;
         trace := trace w ++ [Log INFO "Starting ETL pipeline...";
                              Log INFO "Step 1: Extracting data from Directo..."] |}
    = k (fetch_date svc from_date w) (fetch_world svc from_date w)) as Hdate.
  { intros k. unfold fetch_world, range_msg, fetch_date.
    case_bool_decide; rewrite !run_bind.
    - unfold datetime_now at 1. cbn [heap trace].
      rewrite run_bind. unfold logger_info at 1, emit at 1. cbn [heap trace].
      rewrite run_ret. by rewrite <- app_assoc.
    - unfold logger_info at 1, emit at 1. cbn [heap trace].
      rewrite run_ret. by rewrite <- app_assoc. }
  assert (run_etl_pipeline svc token from_date w
          = match (DirectoConnector.get_all_financial_data svc token
                     (fetch_date svc from_date w) ≫= λ data,
                   for_each data
                     (λ '(name, df),
                      match df with
                      | Some l =>
                          d ← deref l;
                          logger_info ("Extracted " +:+ pretty (df_len d)
                                       +:+ " " +:+ name)
                      | None =>
                          raise (Exn "TypeError"
                                     "object of type 'NoneType' has no len()")
                      end) ;;
                   logger_info "Step 2: Loading data to Elasticsearch..." ;;
                   ElasticsearchIndexer.index_all_data svc data ;;
                   logger_info "ETL pipeline completed successfully!" ;;
                   mret true) (fetch_world svc from_date w) with
            | (Ok a, w') => (Ok a, w')
            | (Raise e, w') =>
                (logger_error ("ETL pipeline failed: " +:+ exn_msg e) ;;
                 mret false) w'
            end) as ->.
  { unfold run_etl_pipeline. rewrite run_bind.
    unfold logger_info at 1, emit at 1. unfold try_except.
    rewrite run_bind. unfold logger_info at 1, emit at 1. cbn [heap trace].
    rewrite <- app_assoc. cbn [app]. by rewrite Hdate. }
  rewrite run_bind, Hfetch.
  destruct r as [data | e].
  - destruct (summary_quiet data w1 Hpost) as (evs2 & Hsum & Hevs2).
    rewrite (run_bind (for_each data _)), Hsum.
    rewrite (run_bind (logger_info _)).
    unfold logger_info at 1, emit at 1. cbn [heap trace].
    destruct (index_all_data_loads svc data
                {| heap := heap w1;
                   trace := (trace w1 ++ evs2)
                            ++ [Log INFO "Step 2: Loading data to Elasticsearch..."] |})
      as (w3 & evs3 & Hload & Ht3 & Hh3 & Hw3 & Hu3).
    { by apply valid_all_data. }
    rewrite (run_bind (ElasticsearchIndexer.index_all_data _ _)), Hload.
    rewrite (run_bind (logger_info _)).
    unfold logger_info at 1, emit at 1. cbn [heap trace]. rewrite run_ret.
    cbn [heap trace] in *.
    eexists _, (evs2 ++ [Log INFO "Step 2: Loading data to Elasticsearch..."]
                ++ evs3 ++ [Log INFO "ETL pipeline completed successfully!"]).
    split; [done |]. cbn [heap trace]. split.
    { rewrite Ht3. by rewrite <- !app_assoc. }
    split; [done |]. split.
    + rewrite !written_to_app, Hw3.
      rewrite (written_to_not_bulk evs2) by by apply is_report_all_not_bulk.
      cbn. by rewrite app_nil_r.
    + apply Forall_app. split.
      { by apply not_bulk_uniform, is_report_all_not_bulk. }
      constructor; [done |]. apply Forall_app. split; [done |].
      by repeat constructor.
  - rewrite (run_bind (logger_error _)).
    unfold logger_error, emit. by cbn.
Qed.
End run_facts.

(** ** Claims about the loader *)

Section loader_claims.
Context `{!PyLib} (svc : Services).
Import ElasticsearchIndexer.

(** C5: every row of a loaded frame becomes one document of the single bulk
    call; the document has every column of the frame as a key; a
    null-equivalent cell (None, NaN, NaT) is written as None and no written
    value is NaN or NaT; a timestamp cell is written as its ISO text; any
    other cell is written unchanged; and the key indexed_at holds the ISO
    text of the time read during the load. *)
Theorem loader_transform index_name id_field w l d :
  heap w !! l = Some d -> df_empty d = false ->
  ∃ n w' actions reports,
    index_dataframe svc index_name (Some l) id_field w = (Ok n, w')
    ∧ trace w' = trace w ++ [Log INFO (prepare_msg index_name d); Bulk actions]
                         ++ reports
    ∧ Forall is_report reports
    ∧ length actions = length (rows d)
    ∧ ∀ i row, rows d !! i = Some row ->
        ∃ a, actions !! i = Some a
          ∧ act_source a !! "indexed_at"
            = Some (VStr (isoformat (load_time svc index_name d w)))
          ∧ ∀ c, c ∈ columns d -> c ≠ "indexed_at" ->
              ∃ v, act_source a !! c = Some v
                ∧ v ≠ VNaT
                ∧ (∀ f, v = VFloat f -> float_isnan f = false)
                ∧ (pd_isna (cell row c) = true -> v = VNone)
                ∧ (∀ t, cell row c = VTimestamp t -> v = VStr (isoformat t))
                ∧ (pd_isna (cell row c) = false ->
                   is_datetime (cell row c) = false -> v = cell row c).
Proof.
  intros Hl He.
  destruct (index_dataframe_writes svc index_name id_field w l d Hl He)
    as (n & reports & Hrun & Hrep).
  eexists n, _, (load_actions svc index_name id_field d w), reports.
  split; [exact Hrun |]. split; [done |]. split; [done |]. split.
  { unfold load_actions. by rewrite length_fmap, stamped_records_length. }
  intros i row Hrow.
  destruct (stamped_records_lookup (load_time svc index_name d w) d i row Hrow)
    as (record & Hrec & Hstamp & Hcells).
  exists (make_action index_name id_field record). split.
  { unfold load_actions. by rewrite list_lookup_fmap, Hrec. }
  cbn [make_action act_source]. split.
  { by rewrite clean_record_lookup, Hstamp. }
  intros c Hc Hne. exists (clean_value (cell row c)).
  rewrite clean_record_lookup, (Hcells c Hne), decide_True by done.
  split; [done |].
  destruct (clean_value_not_nan (cell row c)) as [Hnat Hnan].
  split; [done |]. split; [done |]. split; [apply clean_value_null |].
  split; [by intros t -> | apply clean_value_other].
Qed.

(** C10: a load leaves every frame that was on the heap before the call as
    it was, the caller's frame included; the stamped frame is a fresh
    object. *)
Theorem loader_keeps_input index_name df id_field w l d :
  heap w !! l = Some d ->
  heap (index_dataframe svc index_name df id_field w).2 !! l = Some d
  ∧ (df = Some l -> df_empty d = false ->
     ∃ l', heap w !! l' = None
       ∧ heap (index_dataframe svc index_name df id_field w).2 !! l'
         = Some (stamped (load_time svc index_name d w) d)).
Proof.
  intros Hl. split.
  - destruct df as [l0 |]; [| by rewrite index_dataframe_none].
    destruct (heap w !! l0) as [d0 |] eqn:Hl0.
    + destruct (df_empty d0) eqn:He.
      * by rewrite (index_dataframe_empty svc index_name id_field w l0 d0).
      * destruct (index_dataframe_writes svc index_name id_field w l0 d0 Hl0 He)
          as (n & reports & -> & _).
        cbn [snd heap]. rewrite lookup_insert_ne; [done |].
        intros <-. pose proof (is_fresh (dom (heap w))) as Hf.
        apply Hf, elem_of_dom. by rewrite Hl.
    + unfold index_dataframe. rewrite run_bind, run_bind.
      unfold deref at 1. by rewrite Hl0.
  - intros -> He.
    destruct (index_dataframe_writes svc index_name id_field w l d Hl He)
      as (n & reports & -> & _).
    exists (fresh (dom (heap w))). cbn [snd heap]. split.
    + apply not_elem_of_dom, is_fresh.
    + by rewrite lookup_insert_eq.
Qed.

(** C2 (amended): in a load with key field [f], a row whose cell under [f]
    is truthy once cleaned (not null-equivalent, not the empty text, not a
    zero, not False) gets the string form of that cell as its identity; a
    row whose key column is absent, or whose cell is null-equivalent, the
    empty text, a zero or False, gets no identity, as does every row of a
    load without key field; the load returns a count in each case. *)
Theorem document_identity index_name id_field w l d :
  heap w !! l = Some d -> df_empty d = false ->
  ∃ n w' actions reports,
    index_dataframe svc index_name (Some l) id_field w = (Ok n, w')
    ∧ trace w' = trace w ++ [Log INFO (prepare_msg index_name d); Bulk actions]
                         ++ reports
    ∧ Forall is_report reports
    ∧ ∀ i row, rows d !! i = Some row ->
        ∃ a, actions !! i = Some a
          ∧ act_index a = index_name
          ∧ (id_field = None -> act_id a = None)
          ∧ ∀ f, id_field = Some f -> f ≠ "indexed_at" ->
              (f ≠ "" -> f ∈ columns d ->
               is_datetime (cell row f) = false -> ¬ falsy_cell (cell row f) ->
               act_id a = Some (py_str (cell row f)))
              ∧ (f ≠ "" -> f ∈ columns d ->
                 truthy (clean_value (cell row f)) = true ->
                 act_id a = Some (py_str (clean_value (cell row f))))
              ∧ (f ∉ columns d ∨ falsy_cell (cell row f) -> act_id a = None).
Proof.
  intros Hl He.
  destruct (index_dataframe_writes svc index_name id_field w l d Hl He)
    as (n & reports & Hrun & Hrep).
  eexists n, _, (load_actions svc index_name id_field d w), reports.
  split; [exact Hrun |]. split; [done |]. split; [done |].
  intros i row Hrow.
  destruct (stamped_records_lookup (load_time svc index_name d w) d i row Hrow)
    as (record & Hrec & Hstamp & Hcells).
  exists (make_action index_name id_field record). split.
  { unfold load_actions. by rewrite list_lookup_fmap, Hrec. }
  split; [done |]. split; [by intros -> |].
  intros f -> Hne. rewrite make_action_id, (Hcells f Hne).
  split; [| split].
  - intros Hf Hin Hd Hfalsy. rewrite decide_True by done.
    assert (truthy (clean_value (cell row f)) = true) as Ht.
    { destruct (truthy (clean_value (cell row f))) eqn:Ht; [done |].
      by apply truthy_clean_value in Ht. }
    rewrite Ht, bool_decide_true by done. cbn. do 2 f_equal.
    apply clean_value_other; [| done].
    destruct (pd_isna (cell row f)) eqn:Hna; [| done].
    destruct Hfalsy. by left.
  - intros Hf Hin Ht. rewrite decide_True by done.
    by rewrite Ht, bool_decide_true.
  - intros [Hnin | Hfalsy].
    + by rewrite decide_False.
    + case_decide; [| done].
      by rewrite (falsy_clean_value _ Hfalsy), andb_false_r.
Qed.
End loader_claims.

(** Witness of C5 on the two example invoices. *)
Lemma loader_transform_witness :
  heap Example.world_invoices !! 1%positive = Some Example.invoices2
  ∧ df_empty Example.invoices2 = false
  ∧ ∃ n w' actions a,
      ElasticsearchIndexer.index_dataframe (H := Example.lib)
        Example.loader_services "invoices" (Some 1%positive) (Some "number")
        Example.world_invoices = (Ok n, w')
      ∧ Bulk actions ∈ trace w'
      ∧ actions !! 1%nat = Some a
      ∧ act_source a !! "comment" = Some VNone.
Proof.
  split; [reflexivity |]. split; [reflexivity |].
  destruct (loader_transform (H := Example.lib) Example.loader_services
              "invoices" (Some "number") Example.world_invoices 1%positive
              Example.invoices2 eq_refl eq_refl)
    as (n & w' & actions & reports & Hrun & Htrace & _ & _ & Hrows).
  destruct (Hrows 1%nat _ eq_refl) as (a & Ha & _ & Hcells).
  destruct (Hcells "comment") as (v & Hv & _ & _ & Hnull & _).
  { apply list_elem_of_In. simpl. tauto. }
  { done. }
  exists n, w', actions, a. split; [exact Hrun |]. split.
  { rewrite Htrace. apply elem_of_app. right. apply elem_of_app. left.
    apply list_elem_of_In. right. by left. }
  split; [exact Ha |].
  rewrite Hv. f_equal. by apply Hnull.
Defined.

(** Witness of C10: the example frame is still on the heap after its load. *)
Lemma loader_keeps_input_witness :
  heap Example.world_invoices !! 1%positive = Some Example.invoices2
  ∧ heap (ElasticsearchIndexer.index_dataframe (H := Example.lib)
            Example.loader_services "invoices" (Some 1%positive)
            (Some "number") Example.world_invoices).2 !! 1%positive
    = Some Example.invoices2.
Proof.
  split; [reflexivity |].
  apply (loader_keeps_input (H := Example.lib) Example.loader_services
           "invoices" (Some 1%positive) (Some "number")
           Example.world_invoices 1%positive Example.invoices2 eq_refl).
Defined.

(** Counterexample to C2 as stated: the second example invoice has the key
    field [number] with the value 0, which is neither absent nor empty, and
    its document is written without identity instead of with "0". *)
Lemma zero_key_gets_no_identity :
  (∃ row, rows Example.invoices2 !! 1%nat = Some row
          ∧ row !! "number" = Some (VInt 0))
  ∧ pd_isna (VInt 0) = false
  ∧ VInt 0 ≠ VStr ""
  ∧ py_str (H := Example.lib) (VInt 0) = "0"
  ∧ ∃ n w',
      ElasticsearchIndexer.index_dataframe (H := Example.lib)
        Example.loader_services "invoices" (Some 1%positive) (Some "number")
        Example.world_invoices = (Ok n, w')
      ∧ Example.bulk_ids (trace w') = [[Some "1001"; None]].
Proof.
  split; [eexists; split; reflexivity |].
  split; [reflexivity |]. split; [discriminate |]. split; [reflexivity |].
  eexists _, _. split; [vm_compute; reflexivity | vm_compute; reflexivity].
Qed.

(** Witness of C2 (amended) on the example invoices. *)
Lemma document_identity_witness :
  heap Example.world_invoices !! 1%positive = Some Example.invoices2
  ∧ df_empty Example.invoices2 = false
  ∧ ∃ n w' actions a0 a1,
      ElasticsearchIndexer.index_dataframe (H := Example.lib)
        Example.loader_services "invoices" (Some 1%positive) (Some "number")
        Example.world_invoices = (Ok n, w')
      ∧ Bulk actions ∈ trace w'
      ∧ actions !! 0%nat = Some a0 ∧ act_id a0 = Some "1001"
      ∧ actions !! 1%nat = Some a1 ∧ act_id a1 = None.
Proof.
  split; [reflexivity |]. split; [reflexivity |].
  destruct (document_identity (H := Example.lib) Example.loader_services
              "invoices" (Some "number") Example.world_invoices 1%positive
              Example.invoices2 eq_refl eq_refl)
    as (n & w' & actions & reports & Hrun & Htrace & _ & Hrows).
  destruct (Hrows 0%nat _ eq_refl) as (a0 & Ha0 & _ & _ & Hid0).
  destruct (Hrows 1%nat _ eq_refl) as (a1 & Ha1 & _ & _ & Hid1).
  destruct (Hid0 "number" eq_refl) as (Hyes & _ & _); [done |].
  destruct (Hid1 "number" eq_refl) as (_ & _ & Hno); [done |].
  exists n, w', actions, a0, a1. split; [exact Hrun |]. split.
  { rewrite Htrace. apply elem_of_app. right. apply elem_of_app. left.
    apply list_elem_of_In. right. by left. }
  split; [exact Ha0 |]. split.
  { rewrite Hyes; [reflexivity | done | | reflexivity |].
    - apply list_elem_of_In. simpl. tauto.
    - intros [Hn | [Hs | [Hz | [Hb | [s Hf]]]]]; discriminate. }
  split; [exact Ha1 |].
  apply Hno. right. right. right. by left.
Defined.

(** ** Claims about a run *)

(** Nothing is written to a collection that is not among the targets. *)
Lemma no_write_outside evs name :
  Forall uniform evs -> name ∉ written_to evs ->
  ∀ actions a, Bulk actions ∈ evs -> a ∈ actions -> act_index a ≠ name.
Proof.
  intros Hu Hn actions a Hev Ha Hname. apply Hn.
  apply list_elem_of_omap. exists (Bulk actions). split; [done |].
  eapply Forall_forall in Hu; [| exact Hev].
  destruct Hu as (Hne & nm & Hall). cbn. f_equal.
  destruct actions as [| a0 actions]; [done |]. cbn.
  apply Forall_cons in Hall as Hhead. destruct Hhead as [-> _].
  eapply Forall_forall in Hall; [| exact Ha]. by rewrite <- Hname.
Qed.

Section run_claims.
Context `{!PyLib} (svc : Services).
Import ElasticsearchIndexer FinancialAIAssistant.

(** C6: for an entity type whose frame is absent or has no rows, the load
    returns zero after one warning and makes no call to the store; the load
    of the whole data set returns normally and writes, in load order, to
    exactly the entity types that have rows, so no bulk action goes to the
    collection of an entity type without rows; and a run whose fetch returned
    returns true. *)
Theorem empty_entities_are_skipped data w :
  valid_data (heap w) data ->
  (∀ name id_field df,
     df = None ∨ (∃ l d, df = Some l ∧ heap w !! l = Some d ∧ df_empty d = true) ->
     index_dataframe svc name df id_field w
     = (Ok 0, {| heap := heap w;
                 trace := trace w ++ [Log WARNING (skip_msg name)] |}))
  ∧ (∃ w' evs,
       index_all_data svc data w = (Ok (), w')
       ∧ trace w' = trace w ++ evs
       ∧ written_to evs = filter (λ name, has_rows (heap w) data name) load_order
       ∧ ∀ name, has_rows (heap w) data name = false ->
           ∀ actions a, Bulk actions ∈ evs -> a ∈ actions -> act_index a ≠ name)
  ∧ (∀ token from_date wr fetched w1,
       DirectoConnector.get_all_financial_data svc token
         (fetch_date svc from_date wr) (fetch_world svc from_date wr)
       = (Ok fetched, w1) ->
       ∃ w' evs,
         run_etl_pipeline svc token from_date wr = (Ok true, w')
         ∧ trace w' = trace w1 ++ evs
         ∧ written_to evs
           = filter (λ name, has_rows (heap w1) fetched name) load_order).
Proof.
  intros Hv. split; [| split].
  - intros name id_field df [-> | (l & d & -> & Hl & He)].
    + apply index_dataframe_none.
    + by apply index_dataframe_empty with d.
  - destruct (index_all_data_loads svc data w Hv)
      as (w' & evs & Hrun & Ht & _ & Hw & Hu).
    exists w', evs. split; [done |]. split; [done |]. split; [done |].
    intros name Hno. apply no_write_outside; [done |].
    rewrite Hw. intros [Hyes _]%list_elem_of_filter.
    by rewrite Hno in Hyes.
  - intros token from_date wr fetched w1 Hfetch.
    pose proof (run_etl_pipeline_cases svc token from_date wr) as Hcases.
    rewrite Hfetch in Hcases.
    destruct Hcases as (w' & evs & Hrun & Ht & _ & Hw & _).
    by exists w', evs.
Qed.

(** C1 (amended): a bulk-write error for one entity type is logged and
    absorbed, and the load goes on to write every other entity type that has
    rows. A fetch error is logged and re-raised: whenever a request posted
    during the fetch fails (the request raises, its status is not 200, its
    document cannot be parsed or is an error document), the fetch raises
    that error right after the report of it and posts no further request,
    and the run logs the failure, writes nothing and returns false; so when
    the accounting API fails the requests for one entity type, whichever it
    is, the run returns false and no entity type after that one is
    requested. The fetch requests the eight entity types in order, all of
    them when it returns, and a run whose fetch returns, returns true. *)
Theorem error_propagation token from_date w :
  (∀ data w0,
     valid_data (heap w0) data ->
     ∃ w' evs,
       index_all_data svc data w0 = (Ok (), w')
       ∧ trace w' = trace w0 ++ evs
       ∧ written_to evs
         = filter (λ name, has_rows (heap w0) data name) load_order)
  ∧ (∀ name id_field w0 l d e,
       heap w0 !! l = Some d -> df_empty d = false ->
       helpers_bulk svc (trace w0 ++ [Log INFO (prepare_msg name d)])
         (load_actions svc name id_field d w0) = Raise e ->
       ∃ w',
         index_dataframe svc name (Some l) id_field w0 = (Ok 0, w')
         ∧ trace w'
           = trace w0
             ++ [Log INFO (prepare_msg name d);
                 Bulk (load_actions svc name id_field d w0);
                 Log ERROR ("❌ Bulk indexing failed for '" +:+ name +:+ "': "
                            +:+ exn_msg e);
                 PrintExc e])
  ∧ (∀ e w1,
       DirectoConnector.get_all_financial_data svc token
         (fetch_date svc from_date w) (fetch_world svc from_date w)
       = (Raise e, w1) ->
       run_etl_pipeline svc token from_date w
       = (Ok false, {| heap := heap w1;
                       trace := trace w1 ++ [Log ERROR (failed_msg e)] |})
       ∧ ∃ what pre,
           trace w1 = trace (fetch_world svc from_date w) ++ pre
                      ++ [Log ERROR (fetch_error what e)]
           ∧ Forall not_bulk pre)
  ∧ (∀ fetched w1,
       DirectoConnector.get_all_financial_data svc token
         (fetch_date svc from_date w) (fetch_world svc from_date w)
       = (Ok fetched, w1) ->
       ∃ w', run_etl_pipeline svc token from_date w = (Ok true, w'))
  ∧ (∃ r w1 evs k,
       DirectoConnector.get_all_financial_data svc token
         (fetch_date svc from_date w) (fetch_world svc from_date w)
       = (r, w1)
       ∧ trace w1 = trace (fetch_world svc from_date w) ++ evs
       ∧ Forall not_bulk evs
       ∧ posted evs
         = getter_params token (fetch_date svc from_date w) <$> take k fetch_order
       ∧ (∀ fetched, r = Ok fetched -> k = 8%nat)
       ∧ ∀ pre params rest e,
           evs = pre ++ HttpPost params :: rest ->
           failed_request svc
             (requests_post svc (trace (fetch_world svc from_date w) ++ pre)
                params) e ->
           r = Raise e
           ∧ (∃ what,
                what ∈ fetch_order
                ∧ params = getter_params token (fetch_date svc from_date w) what
                ∧ rest = [Log ERROR (fetch_error what e)])
           ∧ run_etl_pipeline svc token from_date w
             = (Ok false, {| heap := heap w1;
                             trace := trace w1 ++ [Log ERROR (failed_msg e)] |}))
  ∧ (∀ i what,
       fetch_order !! i = Some what ->
       (∀ h, ∃ e,
          failed_request svc
            (requests_post svc h
               (getter_params token (fetch_date svc from_date w) what)) e) ->
       ∃ e w1 evs k,
         DirectoConnector.get_all_financial_data svc token
           (fetch_date svc from_date w) (fetch_world svc from_date w)
         = (Raise e, w1)
         ∧ trace w1 = trace (fetch_world svc from_date w) ++ evs
         ∧ Forall not_bulk evs
         ∧ posted evs
           = getter_params token (fetch_date svc from_date w)
             <$> take k fetch_order
         ∧ (k ≤ S i)%nat
         ∧ run_etl_pipeline svc token from_date w
           = (Ok false, {| heap := heap w1;
                           trace := trace w1 ++ [Log ERROR (failed_msg e)] |})).
Proof.
  split; [| split; [| split; [| split; [| split]]]].
  - intros data w0 Hv.
    destruct (index_all_data_loads svc data w0 Hv)
      as (w' & evs & Hrun & Ht & _ & Hw & _).
    by exists w', evs.
  - intros name id_field w0 l d e Hl He Hraise.
    destruct (index_dataframe_load svc name id_field w0 l d Hl He)
      as (n & reports & Hrun & _ & Hrep).
    destruct (Hrep e Hraise) as [-> ->].
    eexists. split; [exact Hrun |]. cbn [heap trace].
    by rewrite <- app_assoc.
  - intros e w1 Hfetch.
    pose proof (run_etl_pipeline_cases svc token from_date w) as Hcases.
    rewrite Hfetch in Hcases. split; [done |].
    destruct (get_all_financial_data_fetching svc token
                (fetch_date svc from_date w) (fetch_world svc from_date w) I)
      as (r & w1' & evs & Hfetch' & Ht & _ & Hnb & Hpost).
    rewrite Hfetch in Hfetch'. injection Hfetch' as <- <-.
    destruct Hpost as (what & pre & ->).
    exists what, pre. split; [done |].
    by apply Forall_app in Hnb as [Hnb _].
  - intros fetched w1 Hfetch.
    pose proof (run_etl_pipeline_cases svc token from_date w) as Hcases.
    rewrite Hfetch in Hcases.
    destruct Hcases as (w' & evs & Hrun & _). by exists w'.
  - destruct (get_all_financial_data_fetches svc token
                (fetch_date svc from_date w) (fetch_world svc from_date w))
      as (r & w1 & evs & k & Hrun & Ht & Hnb & Hk & Hp & Hok & Hfail).
    exists r, w1, evs, k. repeat (split; [done |]).
    intros pre params rest e Hsplit Hfailed.
    destruct (Hfail pre params rest e Hsplit Hfailed) as [-> Hrest].
    split; [done |]. split; [done |].
    pose proof (run_etl_pipeline_cases svc token from_date w) as Hcases.
    by rewrite Hrun in Hcases.
  - intros i what Hi Hdown.
    destruct (fetch_stops_at svc token (fetch_date svc from_date w)
                (fetch_world svc from_date w) i what Hi Hdown)
      as (e & w1 & evs & k & Hrun & Ht & Hnb & Hp & Hk).
    exists e, w1, evs, k. repeat (split; [done |]).
    pose proof (run_etl_pipeline_cases svc token from_date w) as Hcases.
    by rewrite Hrun in Hcases.
Qed.
End run_claims.

(** Witness of C6: an empty invoice frame, three customers, no purchases. *)
Lemma empty_entities_are_skipped_witness :
  valid_data (heap Example.world_customers) Example.data_customers
  ∧ ∃ w' evs,
      ElasticsearchIndexer.index_all_data (H := Example.lib)
        Example.loader_services Example.data_customers Example.world_customers
      = (Ok (), w')
      ∧ trace w' = trace Example.world_customers ++ evs
      ∧ written_to evs = ["customers"].
Proof.
  assert (valid_data (heap Example.world_customers) Example.data_customers) as Hv.
  { repeat constructor; intros l [= <-]; by eexists. }
  split; [exact Hv |].
  destruct (empty_entities_are_skipped (H := Example.lib) Example.loader_services
              Example.data_customers Example.world_customers Hv)
    as (_ & (w' & evs & Hrun & Ht & Hw & _) & _).
  exists w', evs. split; [exact Hrun |]. split; [exact Ht |].
  rewrite Hw. reflexivity.
Defined.

(** The scenario of the specification: no invoice and three customers are
    fetched; all eight entity types are requested, only the customers are
    written, and the run returns true. *)
Example run_with_customers_only :
  let '(r, w') :=
    FinancialAIAssistant.run_etl_pipeline (H := Example.lib)
      Example.etl_services "tok" (Some "01.01.2020") Example.world0 in
  r = Ok true
  ∧ Example.requested (trace w')
    = ["invoice"; "customer"; "purchase"; "item"; "project"; "object";
       "account"; "supplier"]
  ∧ written_to (trace w') = ["customers"]
  ∧ Example.bulk_ids (trace w') = [[Some "C1"; Some "C2"; Some "C3"]].
Proof. vm_compute. repeat split. Qed.

(** Counterexample to C1 as stated: the invoice request is answered with
    HTTP 500 while the customer request would return three customers; the
    run requests nothing after the invoices, writes nothing and returns
    false, whereas with a working invoice request the customers are
    written. *)
Lemma failed_fetch_halts_siblings :
  (let '(r, w') :=
     FinancialAIAssistant.run_etl_pipeline (H := Example.lib)
       Example.etl_services_invoice_down "tok" None Example.world0 in
   r = Ok false
   ∧ Example.requested (trace w') = ["invoice"]
   ∧ written_to (trace w') = []
   ∧ Example.errors (trace w')
     = ["Error fetching invoice: HTTP Error: 500";
        "ETL pipeline failed: HTTP Error: 500"])
  ∧ Example.post_invoice_down "customer" = Example.post_customers "customer"
  ∧ (let '(r, w') :=
       FinancialAIAssistant.run_etl_pipeline (H := Example.lib)
         Example.etl_services "tok" None Example.world0 in
     r = Ok true ∧ written_to (trace w') = ["customers"]).
Proof. vm_compute. repeat split. Qed.

(** Witness of C1 (amended): the customer request, the second of the fetch,
    is answered with HTTP 500. *)
Lemma error_propagation_witness :
  (∀ h, ∃ e,
     failed_request Example.etl_services_customer_down
       (requests_post Example.etl_services_customer_down h
          (getter_params "tok"
             (fetch_date (H := Example.lib) Example.etl_services_customer_down
                None Example.world0) "customer")) e)
  ∧ let run :=
      FinancialAIAssistant.run_etl_pipeline (H := Example.lib)
        Example.etl_services_customer_down "tok" None Example.world0 in
    run.1 = Ok false
    ∧ Example.requested (trace run.2) = ["invoice"; "customer"]
    ∧ written_to (trace run.2) = []
    ∧ Example.errors (trace run.2)
      = ["Error fetching customer: HTTP Error: 500";
         "ETL pipeline failed: HTTP Error: 500"].
Proof.
  assert (∀ h, ∃ e,
     failed_request Example.etl_services_customer_down
       (requests_post Example.etl_services_customer_down h
          (getter_params "tok"
             (fetch_date (H := Example.lib) Example.etl_services_customer_down
                None Example.world0) "customer")) e) as Hdown.
  { intros h. eexists. by apply bad_status. }
  split; [exact Hdown |].
  destruct (error_propagation (H := Example.lib)
              Example.etl_services_customer_down "tok" None Example.world0)
    as (_ & _ & _ & _ & _ & Hstop).
  destruct (Hstop 1%nat "customer" eq_refl Hdown)
    as (e & w1 & evs & k & _ & _ & _ & _ & _ & Hrun).
  split; [by rewrite Hrun |]. vm_compute. done.
Defined.

(** ** Claims about the statistics script *)

(** C9: the total-revenue aggregation of the statistics script sums the
    field total; the invoice schema declares no field total, and it declares
    totalamount. *)
Theorem statistics_field_not_in_schema :
  VerifyData.total_revenue_field = Ok (JStr "total")
  ∧ dict_get ElasticsearchIndexer.invoice_mapping "total" = None
  ∧ ("total" ∉ (fst <$> ElasticsearchIndexer.invoice_mapping))
  ∧ dict_get ElasticsearchIndexer.invoice_mapping "totalamount" = Some "float".
Proof.
  split; [reflexivity |]. split; [reflexivity |]. split; [| reflexivity].
  intros Hin. apply list_elem_of_In in Hin. cbn in Hin.
  repeat (destruct Hin as [Hin | Hin]; [discriminate |]). done.
Qed.

(** ** The query executor *)

Lemma str_items_names (i : nat) (names : list string) :
  str_items i (JStr <$> names) = Ok names.
Proof.
  revert i. induction names as [| n names IH]; intros i; cbn; [done |].
  by rewrite IH.
Qed.

Section executor_facts.
Context `{!PyLib} (svc : Services).
Import AIQueryHandler.

(** A query specification that is a dictionary is executed by one search,
    unless its indices cannot be joined. *)
Lemma execute_dict kvs w index :
  json_join "," (dict_get_default kvs "indices" (JArr [JStr "invoices"])) = Ok index ->
  let req := search_request index
               (dict_get_default kvs "query" (JObj [("match_all", JObj [])]))
               (dict_get_default kvs "aggs" (JObj [])) in
  ∃ r logs,
    _execute_elasticsearch_query svc (JObj kvs) w
    = (r, {| heap := heap w; trace := trace w ++ Search req :: logs |})
    ∧ Forall is_report logs
    ∧ (∀ e, es_search svc (trace w) req = Raise e -> r = Raise e ∧ logs = [])
    ∧ (∀ result, r = Ok result -> es_search svc (trace w) req = Ok result).
Proof.
  intros Hjoin req. unfold _execute_elasticsearch_query.
  cbn [json_get]. rewrite !run_bind_lift, Hjoin. cbv beta iota.
  fold req. rewrite (run_bind (call _ _)). unfold call at 1.
  destruct (es_search svc (trace w) req) as [result | e] eqn:Hs.
  - assert (tame is_report
      (hits ← lift (json_getitem result "hits");
       total ← lift (json_getitem hits "total");
       n ← lift (json_getitem total "value");
       logger_info ("Elasticsearch query returned " +:+ py_str_json n +:+ " hits") ;;
       mret result)) as Htame.
    { repeat (apply tame_bind; [apply tame_lift | intros ?]).
      apply tame_bind; [by apply quiet_tame, quiet_emit | intros _].
      apply quiet_tame, quiet_ret. }
    destruct (Htame {| heap := heap w; trace := trace w ++ [Search req] |})
      as (r & logs & Hrun & Hlogs).
    exists r, logs. cbn [heap trace] in Hrun. rewrite Hrun, <- app_assoc.
    split; [done |]. split; [done |]. split; [done |].
    intros result' ->. f_equal.
    revert Hrun. rewrite run_bind_lift.
    destruct (json_getitem result "hits") as [hits |]; [| by intros [= ?]].
    rewrite run_bind_lift.
    destruct (json_getitem hits "total") as [total |]; [| by intros [= ?]].
    rewrite run_bind_lift.
    destruct (json_getitem total "value") as [n |]; [| by intros [= ?]].
    rewrite (run_bind (logger_info _)). unfold logger_info, emit.
    rewrite run_ret. by intros [= -> _].
  - exists (Raise e), []. split; [done |]. split; [done |].
    split; [by intros e' [= <-] | by intros result [= ?]].
Qed.

(** C3 (amended): a dictionary specification whose indices can be joined is
    executed by exactly one search; its index is the comma-joined indices,
    the invoices collection when the key indices is missing, and its query
    is the given one, match-all when the key query is missing; when the key
    aggs holds a truthy (non-empty) value the request carries it and asks
    for no document; when aggs is missing or holds an empty or otherwise
    falsy value the request carries no aggregation and asks for 100
    documents. *)
Theorem execute_request kvs w index :
  json_join "," (dict_get_default kvs "indices" (JArr [JStr "invoices"])) = Ok index ->
  ∃ r req logs,
    _execute_elasticsearch_query svc (JObj kvs) w
    = (r, {| heap := heap w; trace := trace w ++ Search req :: logs |})
    ∧ Forall is_report logs
    ∧ req_index req = index
    ∧ (dict_get kvs "indices" = None -> req_index req = "invoices")
    ∧ (∀ names, dict_get kvs "indices" = Some (JArr (JStr <$> names)) ->
                req_index req = py_join "," names)
    ∧ (∀ query, dict_get kvs "query" = Some query -> req_query req = query)
    ∧ (dict_get kvs "query" = None ->
       req_query req = JObj [("match_all", JObj [])])
    ∧ (∀ aggs, dict_get kvs "aggs" = Some aggs -> json_truthy aggs = true ->
               req_size req = 0 ∧ req_aggs req = Some aggs)
    ∧ (dict_get kvs "aggs" = None
       ∨ (∃ aggs, dict_get kvs "aggs" = Some aggs ∧ json_truthy aggs = false) ->
       req_size req = 100 ∧ req_aggs req = None).
Proof.
  intros Hjoin.
  destruct (execute_dict kvs w index Hjoin) as (r & logs & Hrun & Hlogs & _).
  eexists r, _, logs. split; [exact Hrun |]. split; [done |].
  unfold dict_get_default in *.
  assert (∀ i q a, req_index (search_request i q a) = i) as Hi.
  { intros i q a. unfold search_request. by destruct (json_truthy a). }
  assert (∀ i q a, req_query (search_request i q a) = q) as Hq.
  { intros i q a. unfold search_request. by destruct (json_truthy a). }
  rewrite Hi, Hq. split; [done |]. split.
  { intros Hnone. rewrite Hnone in Hjoin. by injection Hjoin as <-. }
  split.
  { intros names Hnames. rewrite Hnames in Hjoin. cbn in Hjoin.
    rewrite str_items_names in Hjoin. by injection Hjoin as <-. }
  split; [by intros query -> |]. split; [by intros -> |]. split.
  - intros aggs -> Ht. unfold search_request. cbn. by rewrite Ht.
  - intros [-> | (aggs & -> & Hf)]; unfold search_request; cbn; [done |].
    by rewrite Hf.
Qed.
End executor_facts.

(** Counterexample to C3 as stated: the key aggs is present with the empty
    dictionary as its value, and the search asks for 100 documents, not for
    none. *)
Lemma empty_aggs_requests_documents :
  json_contains "aggs" (JObj [("aggs", JObj [])]) = Ok true
  ∧ let '(r, w') :=
      AIQueryHandler._execute_elasticsearch_query (H := Example.lib)
        (Example.chat_services "" Example.store_two)
        (JObj [("aggs", JObj [])]) Example.world0 in
    (∃ result, r = Ok result)
    ∧ Example.searches (trace w') = [("invoices", 100, false)].
Proof. split; [reflexivity |]. vm_compute. split; [by eexists | done]. Qed.

(** Witness of C3 (amended): the specification of the forecast, which has
    aggregations, asks for no document. *)
Lemma execute_request_witness :
  json_join "," (JArr [JStr "invoices"; JStr "purchases"])
  = Ok "invoices,purchases"
  ∧ ∃ r w' req,
      AIQueryHandler._execute_elasticsearch_query (H := Example.lib)
        (Example.chat_services "" Example.store_two)
        AIQueryHandler.forecast_query Example.world0 = (r, w')
      ∧ Search req ∈ trace w'
      ∧ req_index req = "invoices,purchases"
      ∧ req_size req = 0.
Proof.
  split; [reflexivity |].
  destruct (execute_request (H := Example.lib)
              (Example.chat_services "" Example.store_two)
              [("indices", JArr [JStr "invoices"; JStr "purchases"]);
               ("query", JObj [("range",
                  JObj [("transactiondate", JObj [("gte", JStr "now-2y")])])]);
               ("aggs", JObj [("monthly_revenue",
                  JObj [("date_histogram",
                         JObj [("field", JStr "transactiondate");
                               ("calendar_interval", JStr "month")]);
                        ("aggs", JObj [("total_amount",
                           JObj [("sum", JObj [("field", JStr "amount")])])])])])]
              Example.world0 "invoices,purchases" eq_refl)
    as (r & req & logs & Hrun & _ & Hindex & _ & _ & _ & _ & Haggs & _).
  destruct (Haggs _ eq_refl eq_refl) as [Hsize _].
  eexists r, _, req. split; [exact Hrun |]. cbn [trace].
  split; [| done]. apply elem_of_app. right. by left.
Defined.

(** ** The answer composer *)

Lemma str_app_assoc (a b c : string) : (a +:+ b) +:+ c = a +:+ (b +:+ c).
Proof.
  induction a as [| x a IH]; [done |].
  change (String x ((a +:+ b) +:+ c) = String x (a +:+ b +:+ c)). by f_equal.
Qed.

Lemma str_app_nil_r (a : string) : a +:+ "" = a.
Proof.
  induction a as [| x a IH]; [done |].
  change (String x (a +:+ "") = String x a). by f_equal.
Qed.

(** Joining puts the separator before every part but the first. *)
Lemma py_join_cons (sep x : string) (parts : list string) :
  py_join sep (x :: parts)
  = x +:+ foldr (λ p rest, sep +:+ p +:+ rest) "" parts.
Proof.
  revert x. induction parts as [| y parts IH]; intros x.
  - cbn. by rewrite str_app_nil_r.
  - change (py_join sep (x :: y :: parts))
      with (x +:+ sep +:+ py_join sep (y :: parts)).
    by rewrite IH.
Qed.

Section composer_facts.
Context `{!PyLib} (svc : Services).
Import AIQueryHandler.

Lemma format_hits_sources hits sources w :
  sources_of hits sources ->
  format_hits hits w = (Ok (json_dumps_indent2 <$> sources), w).
Proof.
  induction 1 as [| hit source hits sources Hsrc _ IH]; [done |].
  cbn [format_hits]. rewrite run_bind_lift, Hsrc, run_bind, IH. done.
Qed.

Lemma format_aggregations_dict kvs w :
  format_aggregations (JObj kvs) w
  = (Ok match dict_get kvs "aggregations" with
        | Some a => ["Aggregation Results:"; json_dumps_indent2 a]
        | None => []
        end, w).
Proof.
  unfold format_aggregations. rewrite run_bind_lift. cbn [json_contains].
  unfold dict_in. destruct (dict_get kvs "aggregations") as [a |] eqn:Ha.
  - rewrite bool_decide_true by eauto.
    rewrite run_bind_lift. cbn [json_getitem]. by rewrite Ha.
  - rewrite bool_decide_false by (by intros [? ?]). done.
Qed.

Lemma format_documents_result res aggs n hits sources w :
  search_result res aggs n hits -> sources_of (take 20 hits) sources ->
  format_documents res w
  = (Ok (if bool_decide (0 < n)
         then hits_header n :: (json_dumps_indent2 <$> sources) else []), w).
Proof.
  intros (kvs & h & t & -> & _ & Hh & Ht & Hn & Hhits) Hsrc.
  unfold format_documents. rewrite run_bind_lift. cbn [json_contains].
  unfold dict_in. rewrite Hh, bool_decide_true by eauto.
  assert (json_getitem (JObj kvs) "hits" = Ok h) as Hget.
  { cbn. by rewrite Hh. }
  rewrite run_bind.
  do 3 step_lift. unfold lift at 1. cbn [json_gt_zero].
  case_bool_decide; [| done]. cbv beta iota.
  do 5 step_lift. rewrite run_bind_lift. cbn [json_slice_to].
  unfold hits_header. cbn [py_str_json].
  rewrite run_bind, (format_hits_sources _ sources) by done. done.
Qed.

Lemma documents_text_join (sources : list Json) :
  foldr (λ p rest, nl +:+ p +:+ rest) "" (json_dumps_indent2 <$> sources)
  = documents_text sources.
Proof. induction sources as [| s sources IH]; cbn; [done |]. by rewrite IH. Qed.

(** The joined lines of a block are its sections. *)
Lemma py_join_block (aggs : option Json) (n : Z) (sources : list Json) :
  py_join nl
    (match aggs with
     | Some a => ["Aggregation Results:"; json_dumps_indent2 a]
     | None => []
     end
     ++ (if bool_decide (0 < n)
         then hits_header n :: (json_dumps_indent2 <$> sources) else []))
  = block aggs n sources.
Proof.
  unfold block, aggregation_section, document_section, hits_header.
  destruct aggs as [a |], (bool_decide (0 < n)); cbn [app].
  - rewrite !py_join_cons. cbn [foldr]. rewrite documents_text_join.
    by rewrite !str_app_assoc.
  - done.
  - rewrite py_join_cons, documents_text_join. by rewrite !str_app_assoc.
  - done.
Qed.

Lemma format_documents_no_hits kvs w :
  dict_get kvs "hits" = None -> format_documents (JObj kvs) w = (Ok [], w).
Proof.
  intros Hh. unfold format_documents. rewrite run_bind_lift. cbn [json_contains].
  unfold dict_in. rewrite Hh, bool_decide_false by (by intros [? ?]).
  cbv beta iota. by rewrite run_bind, run_ret.
Qed.

(** C8: for a search result with aggregations [aggs] (if any), total hit
    count [n] and returned documents [hits], the formatted block is, spelled
    out character by character: the aggregation section (the header and, on
    the next line, the pretty-printed aggregations) exactly when the result
    carries aggregations; then, on a line of its own, the document section
    (an empty line, the header with the total hit count and, each on new
    lines, the pretty-printed source fields of the first 20 returned
    documents) exactly when the total hit count is positive; and nothing
    else. When the result comes from executing a specification without the
    key aggs against a store that returns aggregations only when asked, the
    block has no aggregation section: it is the document section or empty.
    A result without the key hits gives the aggregation section alone. *)
Theorem result_sections res aggs n hits sources w :
  search_result res aggs n hits -> sources_of (take 20 hits) sources ->
  ∃ lines,
    format_lines res w = (Ok lines, w)
    ∧ _format_results_for_ai res w = (Ok (py_join nl lines), w)
    ∧ lines
      = match aggs with
        | Some a => ["Aggregation Results:"; json_dumps_indent2 a]
        | None => []
        end
        ++ (if bool_decide (0 < n)
            then hits_header n :: (json_dumps_indent2 <$> sources) else [])
    ∧ py_join nl lines = block aggs n sources
    ∧ _format_results_for_ai res w = (Ok (block aggs n sources), w)
    ∧ (length sources ≤ 20)%nat
    ∧ length sources = (length hits `min` 20)%nat
    ∧ (∀ kvs w0 index,
         answers_what_is_asked svc ->
         json_join "," (dict_get_default kvs "indices" (JArr [JStr "invoices"]))
         = Ok index ->
         dict_get kvs "aggs" = None ->
         _execute_elasticsearch_query svc (JObj kvs) w0 = (Ok res, w) ->
         aggs = None
         ∧ _format_results_for_ai res w
           = (Ok (if bool_decide (0 < n) then document_section n sources else ""),
              w))
    ∧ (∀ kvs',
         dict_get kvs' "hits" = None ->
         _format_results_for_ai (JObj kvs') w
         = (Ok match dict_get kvs' "aggregations" with
               | Some a => aggregation_section a
               | None => ""
               end, w)).
Proof.
  intros Hres Hsrc.
  pose proof (format_documents_result res aggs n hits sources w Hres Hsrc) as Hdocs.
  destruct Hres as (kvs & h & t & -> & Haggs & Hh & Ht & Hn & Hhits).
  pose proof (format_aggregations_dict kvs w) as Hagg. rewrite Haggs in Hagg.
  assert (_format_results_for_ai (JObj kvs) w = (Ok (block aggs n sources), w))
    as Htext.
  { unfold _format_results_for_ai, format_lines.
    rewrite !run_bind, Hagg, run_bind, Hdocs, !run_ret.
    by rewrite py_join_block. }
  eexists. split.
  { unfold format_lines. rewrite run_bind, Hagg, run_bind, Hdocs. done. }
  split.
  { unfold _format_results_for_ai, format_lines.
    rewrite !run_bind, Hagg, run_bind, Hdocs. done. }
  split; [done |]. split; [apply py_join_block |]. split; [exact Htext |].
  apply Forall2_length in Hsrc. rewrite length_take in Hsrc.
  split; [lia |]. split; [lia |]. split.
  - intros kvs0 w0 index Hstore Hjoin Hnone Hrun.
    destruct (execute_dict svc kvs0 w0 index Hjoin) as (r & logs & Hrun' & _ & _ & Hok).
    rewrite Hrun in Hrun'. injection Hrun' as <- _.
    specialize (Hok _ eq_refl).
    assert (aggs = None) as ->.
    { rewrite <- Haggs. eapply Hstore; [| exact Hok].
      unfold search_request, dict_get_default. by rewrite Hnone. }
    split; [done |]. rewrite Htext. unfold block. by case_bool_decide.
  - intros kvs' Hnohits. unfold _format_results_for_ai, format_lines.
    rewrite !run_bind, format_aggregations_dict, run_bind,
      format_documents_no_hits, !run_ret by done.
    by destruct (dict_get kvs' "aggregations").
Qed.
End composer_facts.

(** Witness of C8: the example store returns aggregations only when asked;
    the specification that matches every invoice is executed against it and
    formatted, which gives the document section alone; the answer to a
    request with aggregations, which returns no document, gives the
    aggregation section and the header of the document section. *)
Lemma result_sections_witness :
  answers_what_is_asked (Example.chat_services "" Example.store_two)
  ∧ (∃ w,
       AIQueryHandler._execute_elasticsearch_query (H := Example.lib)
         (Example.chat_services "" Example.store_two) Example.all_invoices
         Example.world0
       = (Ok Example.result_documents, w)
       ∧ AIQueryHandler._format_results_for_ai (H := Example.lib)
           Example.result_documents w
         = (Ok (nl +:+ "Document Hits (2 total):" +:+ nl
                +:+ "{" +:+ nl
                +:+ "  " +:+ dq +:+ "number" +:+ dq +:+ ": 1001," +:+ nl
                +:+ "  " +:+ dq +:+ "totalamount" +:+ dq +:+ ": 100" +:+ nl
                +:+ "}" +:+ nl
                +:+ "{" +:+ nl
                +:+ "  " +:+ dq +:+ "number" +:+ dq +:+ ": 1002," +:+ nl
                +:+ "  " +:+ dq +:+ "totalamount" +:+ dq +:+ ": 200" +:+ nl
                +:+ "}"), w))
  ∧ AIQueryHandler._format_results_for_ai (H := Example.lib)
      Example.result_aggregations Example.world0
    = (Ok ("Aggregation Results:" +:+ nl
           +:+ "{" +:+ nl
           +:+ "  " +:+ dq +:+ "total" +:+ dq +:+ ": {" +:+ nl
           +:+ "    " +:+ dq +:+ "value" +:+ dq +:+ ": 300" +:+ nl
           +:+ "  }" +:+ nl
           +:+ "}" +:+ nl
           +:+ nl +:+ "Document Hits (2 total):"), Example.world0).
Proof.
  assert (answers_what_is_asked (Example.chat_services "" Example.store_two))
    as Hstore.
  { intros h req kvs Hnone. cbn. unfold Example.store_two. rewrite Hnone.
    by intros [= <-]. }
  split; [exact Hstore |]. split.
  - destruct (result_sections (H := Example.lib)
                (Example.chat_services "" Example.store_two)
                Example.result_documents None 2
                [Example.invoice_doc 1001 100; Example.invoice_doc 1002 200]
                [JObj [("number", JInt 1001); ("totalamount", JInt 100)];
                 JObj [("number", JInt 1002); ("totalamount", JInt 200)]]
                (AIQueryHandler._execute_elasticsearch_query (H := Example.lib)
                   (Example.chat_services "" Example.store_two)
                   Example.all_invoices Example.world0).2)
      as (lines & _ & _ & _ & _ & _ & _ & _ & Hasked & _).
    { eexists _, _, _. repeat split; reflexivity. }
    { repeat constructor. }
    eexists. split; [vm_compute; reflexivity |].
    destruct (Hasked [("indices", JArr [JStr "invoices"]);
                      ("query", JObj [("match_all", JObj [])])]
                Example.world0 "invoices" Hstore eq_refl eq_refl)
      as [_ Htext]; [vm_compute; reflexivity |].
    exact Htext.
  - destruct (result_sections (H := Example.lib)
                (Example.chat_services "" Example.store_two)
                Example.result_aggregations
                (Some (JObj [("total", JObj [("value", JInt 300)])])) 2 [] []
                Example.world0)
      as (lines & _ & _ & _ & _ & Htext & _).
    { eexists _, _, _. repeat split; reflexivity. }
    { constructor. }
    exact Htext.
Defined.

(** ** Answering a question *)

Section answer_facts.
Context `{!PyLib} (svc : Services).
Import AIQueryHandler.

(** The answer is the result of the steps, or the apology for what they
    raised. *)
Lemma answer_question_cases user_question w :
  answer_question svc user_question w
  = match answer_steps svc user_question (asked user_question w) with
    | (Ok answer, w') => (Ok answer, w')
    | (Raise e, w') =>
        (Ok (Some (apology e)),
         {| heap := heap w'; trace := trace w' ++ [Log ERROR (error_msg e)] |})
    end.
Proof.
  unfold answer_question. rewrite run_bind.
  unfold logger_info at 1, emit at 1, try_except. fold (asked user_question w).
  destruct (answer_steps svc user_question (asked user_question w))
    as [[answer | e] w']; [done |].
  rewrite (run_bind (logger_error _)). by unfold logger_error, emit.
Qed.

(** A stage that raises makes the steps raise. *)
Lemma stage_raises_steps user_question w0 e w' :
  stage_raises svc user_question w0 e w' ->
  answer_steps svc user_question w0 = (Raise e, w').
Proof.
  unfold answer_steps.
  intros [Hb | spec w1 Hb He | spec w1 res w2 Hb He Hf
          | spec w1 res w2 text w3 Hb He Hf Hc].
  - by rewrite run_bind, Hb.
  - by rewrite run_bind, Hb, run_bind, He.
  - by rewrite run_bind, Hb, run_bind, He, run_bind, Hf.
  - rewrite run_bind, Hb, run_bind, He, run_bind, Hf.
    rewrite run_bind in Hc. rewrite run_bind.
    destruct (chat svc (analysis_request user_question text) w3)
      as [[response | e'] w4]; [| done].
    rewrite run_bind, Hc. done.
Qed.

(** The apology quotes the message of the error. *)
Lemma apology_embeds :
  ∃ before after, ∀ e, apology e = before +:+ exn_msg e +:+ after.
Proof. by eexists _, _. Qed.

(** C4: answering a question never raises; when one of the four stages
    (translate, execute, format, compose) raises an error, the error is
    logged once and the answer is the apology text, which quotes the message
    of the error between two fixed pieces of text. *)
Theorem answer_question_never_raises user_question w :
  (∃ answer w', answer_question svc user_question w = (Ok answer, w'))
  ∧ (∀ e w1,
       stage_raises svc user_question (asked user_question w) e w1 ->
       answer_question svc user_question w
       = (Ok (Some (apology e)),
          {| heap := heap w1; trace := trace w1 ++ [Log ERROR (error_msg e)] |}))
  ∧ (∃ before after, ∀ e, apology e = before +:+ exn_msg e +:+ after).
Proof.
  rewrite answer_question_cases. split; [| split].
  - destruct (answer_steps svc user_question (asked user_question w))
      as [[answer | e] w']; by eexists _, _.
  - intros e w1 Hstage. by rewrite (stage_raises_steps _ _ _ _ Hstage).
  - apply apology_embeds.
Qed.
End answer_facts.

(** Witness of C4: the store rejects the translated query. *)
Lemma answer_question_never_raises_witness :
  ∃ w1,
    stage_raises (H := Example.lib)
      (Example.chat_services "{}" Example.store_rejects) "What did we sell?"
      (asked "What did we sell?" Example.world0)
      (Exn "BadRequestError" "no mapping found for field [amount]") w1
    ∧ (AIQueryHandler.answer_question (H := Example.lib)
         (Example.chat_services "{}" Example.store_rejects)
         "What did we sell?" Example.world0).1
      = Ok (Some "I encountered an error processing your question: no mapping found for field [amount]. Please try rephrasing your question or check if the data is available in the system.").
Proof.
  assert (∃ w1, stage_raises (H := Example.lib)
      (Example.chat_services "{}" Example.store_rejects) "What did we sell?"
      (asked "What did we sell?" Example.world0)
      (Exn "BadRequestError" "no mapping found for field [amount]") w1)
    as [w1 Hstage].
  { eexists. eapply execute_raises; vm_compute; reflexivity. }
  exists w1. split; [exact Hstage |].
  destruct (answer_question_never_raises (H := Example.lib)
              (Example.chat_services "{}" Example.store_rejects)
              "What did we sell?" Example.world0) as (_ & Hraise & _).
  by rewrite (Hraise _ _ Hstage).
Defined.

(** ** Splitting and stripping text *)

Lemma s2l_app (a b : string) : s2l (a +:+ b) = s2l a ++ s2l b.
Proof.
  induction a as [| c a IH]; [done |].
  change (s2l (String c a +:+ b)) with (c :: s2l (a +:+ b)). by rewrite IH.
Qed.

Lemma l2s_s2l (s : string) : l2s (s2l s) = s.
Proof. apply String.string_of_list_ascii_of_string. Qed.

Lemma s2l_l2s (l : list ascii) : s2l (l2s l) = l.
Proof. apply String.list_ascii_of_string_of_list_ascii. Qed.

Lemma starts_with_app (a b : list ascii) : starts_with a (a ++ b) = true.
Proof.
  induction a as [| c a IH]; cbn; [done |].
  by rewrite bool_decide_true, IH.
Qed.

(** A character that is not in the pattern ends every match before it. *)
Lemma starts_with_cut (sep a b : list ascii) (c : ascii) :
  c ∉ sep -> starts_with sep (a ++ c :: b) = starts_with sep a.
Proof.
  revert a. induction sep as [| x sep IH]; intros a Hc; [by destruct a |].
  apply not_elem_of_cons in Hc as [Hx Hsep].
  destruct a as [| y a]; cbn.
  - by rewrite bool_decide_false.
  - by rewrite IH.
Qed.

Lemma starts_with_cut_nil (sep b : list ascii) (c : ascii) :
  c ∉ sep -> starts_with sep (c :: b) = starts_with sep [].
Proof. apply (starts_with_cut sep [] b c). Qed.

Lemma starts_with_cut_cons (sep a b : list ascii) (y c : ascii) :
  c ∉ sep -> starts_with sep (y :: a ++ c :: b) = starts_with sep (y :: a).
Proof. apply (starts_with_cut sep (y :: a) b c). Qed.

Lemma occurs_cut (sep a b : list ascii) (c : ascii) :
  c ∉ sep -> occurs sep (a ++ c :: b) = occurs sep a || occurs sep b.
Proof.
  intros Hc. induction a as [| y a IH].
  - cbn [app occurs]. rewrite (starts_with_cut_nil sep b c Hc).
    by rewrite orb_false_r.
  - change ((y :: a) ++ c :: b) with (y :: (a ++ c :: b)). cbn [occurs].
    rewrite IH, (starts_with_cut_cons sep a b y c Hc). by rewrite orb_assoc.
Qed.

Lemma starts_with_prefix (a b s : list ascii) :
  starts_with (a ++ b) s = true -> starts_with a s = true.
Proof.
  revert s. induction a as [| x a IH]; intros s; [done |].
  destruct s as [| y s]; cbn; [done |].
  intros [Hxy Hrest]%andb_prop. by rewrite Hxy, IH.
Qed.

Lemma occurs_prefix (a b s : list ascii) :
  occurs a s = false -> occurs (a ++ b) s = false.
Proof.
  induction s as [| y s IH]; cbn.
  - rewrite !orb_false_r. intros Ha.
    destruct (starts_with (a ++ b) []) eqn:Hab; [| done].
    by rewrite (starts_with_prefix _ _ _ Hab) in Ha.
  - intros [Ha Hs]%orb_false_elim. rewrite (IH Hs), orb_false_r.
    destruct (starts_with (a ++ b) (y :: s)) eqn:Hab; [| done].
    by rewrite (starts_with_prefix _ _ _ Hab) in Ha.
Qed.

(** Splitting a text without separator gives the text. *)
Lemma split_go_none (sep s cur : list ascii) :
  occurs sep s = false -> split_go sep s 0 cur = [reverse cur ++ s].
Proof.
  revert cur. induction s as [| c s IH]; intros cur; cbn.
  - by rewrite app_nil_r.
  - intros [-> Hs]%orb_false_elim. rewrite IH by done.
    by rewrite reverse_cons, <- app_assoc.
Qed.

Lemma split_go_skip (sep x b cur : list ascii) :
  split_go sep (x ++ b) (length x) cur = split_go sep b 0 cur.
Proof. induction x as [| c x IH]; [done |]. exact IH. Qed.

(** Splitting at a separator that starts the text. *)
Lemma split_go_here (sep b cur : list ascii) :
  sep ≠ [] ->
  split_go sep (sep ++ b) 0 cur = reverse cur :: split_go sep b 0 [].
Proof.
  destruct sep as [| c sep]; [done |]. intros _.
  change ((c :: sep) ++ b) with (c :: (sep ++ b)). cbn [split_go].
  change (c :: (sep ++ b)) with ((c :: sep) ++ b).
  rewrite starts_with_app.
  replace (length (c :: sep) - 1)%nat with (length sep) by (cbn; lia).
  by rewrite split_go_skip.
Qed.

(** Splitting at the first separator, which follows a character that is
    not in the separator. *)
Lemma split_go_first (sep a b cur : list ascii) (c : ascii) :
  c ∉ sep -> sep ≠ [] -> occurs sep a = false ->
  split_go sep (a ++ c :: sep ++ b) 0 cur
  = (reverse cur ++ a ++ [c]) :: split_go sep b 0 [].
Proof.
  intros Hc Hsep. revert cur. induction a as [| y a IH]; intros cur Ha.
  - cbn [app split_go].
    rewrite (starts_with_cut_nil sep (sep ++ b) c Hc).
    assert (starts_with sep [] = false) as -> by by destruct sep.
    rewrite split_go_here by done. by rewrite reverse_cons.
  - cbn in Ha. apply orb_false_elim in Ha as [Hy Ha].
    change ((y :: a) ++ c :: sep ++ b) with (y :: (a ++ c :: sep ++ b)).
    cbn [split_go].
    rewrite (starts_with_cut_cons sep a (sep ++ b) y c Hc), Hy.
    rewrite IH by done. by rewrite reverse_cons, <- !app_assoc.
Qed.

(** A split has a first piece, and a second one when the separator
    occurs. *)
Lemma split_go_length (sep s cur : list ascii) (skip : nat) :
  (1 ≤ length (split_go sep s skip cur))%nat.
Proof.
  revert skip cur. induction s as [| c s IH]; intros skip cur; cbn; [lia |].
  destruct skip; [| apply IH].
  destruct (starts_with sep (c :: s)); [cbn; lia | apply IH].
Qed.

Lemma split_go_occurs (sep s cur : list ascii) :
  occurs sep s = true -> sep ≠ [] -> (2 ≤ length (split_go sep s 0 cur))%nat.
Proof.
  intros Hocc Hsep. revert cur Hocc.
  induction s as [| c s IH]; intros cur; cbn.
  - by destruct sep.
  - destruct (starts_with sep (c :: s)) eqn:Hsw.
    + intros _. cbn.
      pose proof (split_go_length sep s [] (length sep - 1)). lia.
    + cbn. apply IH.
Qed.

Lemma lstrip_newline (s : list ascii) : lstrip (NL :: s) = lstrip s.
Proof. reflexivity. Qed.

Lemma rstrip_newline (s : list ascii) : rstrip (s ++ [NL]) = rstrip s.
Proof. unfold rstrip. by rewrite reverse_snoc. Qed.

Lemma starts_with_length (t s : list ascii) :
  starts_with t s = true -> (length t ≤ length s)%nat.
Proof.
  revert s. induction t as [| x t IH]; intros s; cbn; [lia |].
  destruct s as [| y s]; [done |]. intros [_ Hrest]%andb_prop.
  apply IH in Hrest. cbn. lia.
Qed.

Lemma first_prefix_length toks (s : list ascii) n :
  first_prefix toks s = Some n -> (n ≤ length s)%nat.
Proof.
  induction toks as [| t toks IH]; cbn; [done |].
  destruct (starts_with t s) eqn:Ht; [| done].
  intros [= <-]. by apply starts_with_length.
Qed.

(** A newline at the end of a text changes no match against tokens that
    are single characters or free of newlines. *)
Lemma first_prefix_snoc toks (c : ascii) (s : list ascii) :
  Forall (λ t, NL ∉ t ∨ length t = 1%nat) toks ->
  first_prefix toks ((c :: s) ++ [NL]) = first_prefix toks (c :: s).
Proof.
  induction 1 as [| t toks Ht _ IH]; [done |]. cbn [first_prefix].
  assert (starts_with t ((c :: s) ++ [NL]) = starts_with t (c :: s)) as ->.
  { destruct Ht as [Ht | Ht].
    - by apply starts_with_cut.
    - by destruct t as [| x [| ? ?]]. }
  by rewrite IH.
Qed.

Lemma whitespace_tokens : Forall (λ t, NL ∉ t ∨ length t = 1%nat) py_whitespace.
Proof.
  unfold py_whitespace. cbn [fmap list_fmap].
  repeat (constructor;
          [first [right; reflexivity
                 | left; apply (bool_decide_unpack _); vm_compute; exact I] |]).
  constructor.
Qed.

Lemma lstrip_go_snoc (s : list ascii) (skip : nat) :
  (skip ≤ length s)%nat ->
  lstrip_go py_whitespace (s ++ [NL]) skip
  = match lstrip_go py_whitespace s skip with
    | [] => []
    | r => r ++ [NL]
    end.
Proof.
  revert skip. induction s as [| c s IH]; intros skip Hskip.
  - cbn in Hskip. by replace skip with 0%nat by lia.
  - destruct skip as [| k].
    + change (lstrip_go py_whitespace ((c :: s) ++ [NL]) 0)
        with (match first_prefix py_whitespace ((c :: s) ++ [NL]) with
              | Some n => lstrip_go py_whitespace (s ++ [NL]) (n - 1)
              | None => (c :: s) ++ [NL]
              end).
      change (lstrip_go py_whitespace (c :: s) 0)
        with (match first_prefix py_whitespace (c :: s) with
              | Some n => lstrip_go py_whitespace s (n - 1)
              | None => c :: s
              end).
      rewrite (first_prefix_snoc _ c s whitespace_tokens).
      destruct (first_prefix py_whitespace (c :: s)) as [n |] eqn:Hfp; [| done].
      apply IH. apply first_prefix_length in Hfp. cbn in Hfp. lia.
    + cbn in Hskip. apply (IH k). lia.
Qed.

(** Newlines around a text do not change what is left after stripping. *)
Lemma py_strip_newlines (p : string) : py_strip (nl +:+ p +:+ nl) = py_strip p.
Proof.
  unfold py_strip. f_equal. rewrite !s2l_app.
  change (s2l nl) with [NL]. change ([NL] ++ s2l p ++ [NL]) with (NL :: (s2l p ++ [NL])).
  rewrite lstrip_newline. unfold lstrip.
  rewrite lstrip_go_snoc by lia.
  destruct (lstrip_go py_whitespace (s2l p) 0) as [| c r]; [done |].
  apply rstrip_newline.
Qed.

(** ** The query translator *)

Lemma occurs_here (a b : list ascii) : occurs a (a ++ b) = true.
Proof. destruct a; cbn; [by destruct b |]. by rewrite bool_decide_true, starts_with_app. Qed.

Lemma list_getitem_ok {A} (l : list A) (i : nat) :
  (i < length l)%nat -> ∃ x, list_getitem l i = Ok x.
Proof.
  intros Hi. apply lookup_lt_is_Some in Hi as [x Hx].
  exists x. unfold list_getitem. by rewrite Hx.
Qed.

Lemma py_split_first (s sep : string) : ∃ x, list_getitem (py_split s sep) 0 = Ok x.
Proof.
  apply list_getitem_ok. unfold py_split. rewrite length_fmap.
  apply split_go_length.
Qed.

Lemma py_split_second (s sep : string) :
  str_in sep s = true -> sep ≠ "" ->
  ∃ x, list_getitem (py_split s sep) 1 = Ok x.
Proof.
  intros Hin Hsep. apply list_getitem_ok. unfold py_split. rewrite length_fmap.
  apply split_go_occurs; [done |]. by destruct sep.
Qed.

Section translator_facts.
Context `{!PyLib} (svc : Services).
Import AIQueryHandler.

(** Removing the fences never fails and does not touch the world. *)
Lemma strip_code_fences_total (response_text : string) :
  ∃ s, ∀ w, strip_code_fences response_text w = (Ok s, w).
Proof.
  unfold strip_code_fences.
  destruct (str_in "```json" response_text) eqn:Hjson.
  - destruct (py_split_second response_text "```json" Hjson) as [x Hx]; [done |].
    destruct (py_split_first x "```") as [y Hy].
    exists (py_strip y). intros w.
    by rewrite run_bind_lift, Hx, run_bind_lift, Hy.
  - destruct (str_in "```" response_text) eqn:Hplain; [| by eexists].
    destruct (py_split_second response_text "```" Hplain) as [x Hx]; [done |].
    destruct (py_split_first x "```") as [y Hy].
    exists (py_strip y). intros w.
    by rewrite run_bind_lift, Hx, run_bind_lift, Hy.
Qed.

(** The text between the fences of a payload that contains no fence. *)
Lemma between_fences (p : string) :
  str_in "```" p = false ->
  py_split (nl +:+ p +:+ nl +:+ "```") "```" = [nl +:+ p +:+ nl; ""].
Proof.
  unfold str_in, py_split. intros Hp. rewrite !s2l_app.
  change (s2l nl) with [NL].
  change ([NL] ++ s2l p ++ [NL] ++ s2l "```")
    with ((NL :: s2l p) ++ NL :: s2l "```" ++ []).
  rewrite split_go_first.
  - cbn [fmap list_fmap]. f_equal.
    change (reverse [] ++ (NL :: s2l p) ++ [NL])
      with (s2l nl ++ s2l p ++ s2l nl).
    by rewrite <- !s2l_app, l2s_s2l.
  - intros Hin. apply list_elem_of_In in Hin. cbn in Hin.
    repeat (destruct Hin as [Hin | Hin]; [discriminate |]). done.
  - done.
  - change (NL :: s2l p) with ([] ++ NL :: s2l p). rewrite occurs_cut, Hp; [done |].
    intros Hin. apply list_elem_of_In in Hin. cbn in Hin.
    repeat (destruct Hin as [Hin | Hin]; [discriminate |]). done.
Qed.

Lemma no_fence_no_tag (p : string) :
  str_in "```" p = false -> str_in "```json" p = false.
Proof. apply (occurs_prefix (s2l "```") (s2l "json")). Qed.

Lemma newline_not_in_fence_tag : NL ∉ s2l "```json".
Proof.
  intros Hin. apply list_elem_of_In in Hin. cbn in Hin.
  repeat (destruct Hin as [Hin | Hin]; [discriminate |]). done.
Qed.

(** The text after the opening fence of a fenced payload holds no tagged
    fence. *)
Lemma no_tag_after_fence (p : string) :
  str_in "```" p = false ->
  occurs (s2l "```json") (s2l (nl +:+ p +:+ nl +:+ "```")) = false.
Proof.
  intros Hp. rewrite !s2l_app. change (s2l nl) with [NL].
  change ([NL] ++ s2l p ++ [NL] ++ s2l "```")
    with ([] ++ NL :: (s2l p ++ NL :: s2l "```")).
  rewrite !occurs_cut by apply newline_not_in_fence_tag.
  fold (str_in "```json" p). by rewrite (no_fence_no_tag p Hp).
Qed.

Lemma strip_unfenced (p : string) (w : World) :
  str_in "```" p = false -> strip_code_fences p w = (Ok p, w).
Proof.
  intros Hp. unfold strip_code_fences. by rewrite (no_fence_no_tag p Hp), Hp.
Qed.

Lemma strip_fenced_json (p : string) (w : World) :
  str_in "```" p = false ->
  strip_code_fences (fenced "json" p) w = (Ok (py_strip p), w).
Proof.
  intros Hp. unfold strip_code_fences.
  assert (s2l (fenced "json" p)
          = s2l "```json" ++ s2l (nl +:+ p +:+ nl +:+ "```")) as Hshape.
  { unfold fenced. by rewrite !s2l_app. }
  assert (str_in "```json" (fenced "json" p) = true) as ->.
  { unfold str_in. rewrite Hshape. apply occurs_here. }
  assert (py_split (fenced "json" p) "```json"
          = [""; nl +:+ p +:+ nl +:+ "```"]) as ->.
  { unfold py_split. rewrite Hshape, split_go_here by done.
    rewrite split_go_none by by apply no_tag_after_fence.
    rewrite reverse_nil. cbn [fmap list_fmap app]. by rewrite l2s_s2l. }
  rewrite run_bind_lift. cbn [list_getitem lookup list_lookup].
  rewrite run_bind_lift, (between_fences p Hp).
  cbn [list_getitem lookup list_lookup]. by rewrite run_ret, py_strip_newlines.
Qed.

Lemma strip_fenced_plain (p : string) (w : World) :
  str_in "```" p = false ->
  strip_code_fences (fenced "" p) w = (Ok (py_strip p), w).
Proof.
  intros Hp. unfold strip_code_fences.
  assert (s2l (fenced "" p)
          = s2l "```" ++ s2l (nl +:+ p +:+ nl +:+ "```")) as Hshape.
  { unfold fenced. by rewrite !s2l_app. }
  assert (str_in "```json" (fenced "" p) = false) as ->.
  { unfold str_in. rewrite Hshape, !s2l_app. change (s2l nl) with [NL].
    change (s2l "```" ++ [NL] ++ s2l p ++ [NL] ++ s2l "```")
      with (s2l "```" ++ NL :: (s2l p ++ NL :: s2l "```")).
    rewrite !occurs_cut by apply newline_not_in_fence_tag.
    fold (str_in "```json" p). by rewrite (no_fence_no_tag p Hp). }
  assert (str_in "```" (fenced "" p) = true) as ->.
  { unfold str_in. rewrite Hshape. apply occurs_here. }
  assert (py_split (fenced "" p) "```" = [""; nl +:+ p +:+ nl; ""]) as ->.
  { pose proof (between_fences p Hp) as Hb. unfold py_split in *.
    rewrite Hshape, split_go_here by done.
    rewrite reverse_nil. cbn [fmap list_fmap]. by rewrite Hb. }
  rewrite run_bind_lift. cbn [list_getitem lookup list_lookup].
  assert (py_split (nl +:+ p +:+ nl) "```" = [nl +:+ p +:+ nl]) as ->.
  { unfold py_split. rewrite split_go_none.
    - rewrite reverse_nil. cbn [fmap list_fmap app]. by rewrite l2s_s2l.
    - rewrite !s2l_app. change (s2l nl) with [NL].
      change ([NL] ++ s2l p ++ [NL]) with ([] ++ NL :: (s2l p ++ NL :: [])).
      rewrite !occurs_cut.
      + fold (str_in "```" p). by rewrite Hp.
      + intros Hin. apply list_elem_of_In in Hin. cbn in Hin.
        repeat (destruct Hin as [Hin | Hin]; [discriminate |]). done.
      + intros Hin. apply list_elem_of_In in Hin. cbn in Hin.
        repeat (destruct Hin as [Hin | Hin]; [discriminate |]). done. }
  rewrite run_bind_lift. cbn [list_getitem lookup list_lookup].
  by rewrite run_ret, py_strip_newlines.
Qed.

(** The translation of a response text: the parsed text between the
    fences, or the decoding error. *)
Lemma build_cases user_question w text rest s :
  chat_create svc (trace w) (query_request user_question)
  = Ok (Some text :: rest) ->
  (∀ w', strip_code_fences text w' = (Ok s, w')) ->
  match json_loads s with
  | Some query_spec =>
      ∃ w', _build_elasticsearch_query svc user_question w = (Ok query_spec, w')
  | None =>
      ∃ w', _build_elasticsearch_query svc user_question w
            = (Raise (Exn "JSONDecodeError" (json_decode_msg s)), w')
  end.
Proof.
  intros Hchat Hstrip.
  destruct (json_loads s) as [query_spec |] eqn:Hloads; eexists;
    unfold _build_elasticsearch_query;
    rewrite run_bind; unfold chat at 1, call at 1; rewrite Hchat;
    rewrite run_bind; unfold first_content at 1, lift at 1;
    cbn [list_getitem lookup list_lookup];
    rewrite run_bind, Hstrip, Hloads.
  - rewrite (run_bind (logger_info _)). unfold logger_info, emit.
    by rewrite run_ret.
  - cbv zeta. rewrite (run_bind (logger_error _)).
    unfold logger_error at 1, emit at 1.
    rewrite (run_bind (logger_error _)). by unfold logger_error, emit, raise.
Qed.

(** C7 (amended): the response text is parsed after the removal of its code
    fences, which never fails: the translator returns the parsed
    specification, or raises the decoding error when the remaining text is
    not valid JSON. For a payload that contains no fence marker and that
    parses the same with and without its surrounding whitespace, the bare
    payload, the payload in a fence tagged json and the payload in an
    untagged fence are all translated to the parse of the payload. *)
Theorem translation_of_fenced_text user_question w text rest :
  chat_create svc (trace w) (query_request user_question)
  = Ok (Some text :: rest) ->
  (∃ s, (∀ w', strip_code_fences text w' = (Ok s, w'))
        ∧ match json_loads s with
          | Some query_spec =>
              ∃ w', _build_elasticsearch_query svc user_question w
                    = (Ok query_spec, w')
          | None =>
              ∃ w', _build_elasticsearch_query svc user_question w
                    = (Raise (Exn "JSONDecodeError" (json_decode_msg s)), w')
          end)
  ∧ (∀ p, str_in "```" p = false ->
          json_loads (py_strip p) = json_loads p ->
          text = p ∨ text = fenced "json" p ∨ text = fenced "" p ->
          match json_loads p with
          | Some query_spec =>
              ∃ w', _build_elasticsearch_query svc user_question w
                    = (Ok query_spec, w')
          | None =>
              ∃ e w', _build_elasticsearch_query svc user_question w
                      = (Raise e, w')
                      ∧ exn_class e = "JSONDecodeError"
          end).
Proof.
  intros Hchat. split.
  - destruct (strip_code_fences_total text) as [s Hs].
    exists s. split; [done |].
    apply (build_cases user_question w text rest s Hchat Hs).
  - intros p Hp Hws Htext.
    assert (∃ s, (∀ w', strip_code_fences text w' = (Ok s, w'))
                 ∧ json_loads s = json_loads p) as (s & Hs & Hloads).
    { destruct Htext as [-> | [-> | ->]].
      - exists p. split; [| done]. intros w'. by apply strip_unfenced.
      - exists (py_strip p). split; [| done]. intros w'. by apply strip_fenced_json.
      - exists (py_strip p). split; [| done]. intros w'. by apply strip_fenced_plain. }
    pose proof (build_cases user_question w text rest s Hchat Hs) as Hbuild.
    rewrite Hloads in Hbuild.
    destruct (json_loads p) as [query_spec |]; [done |].
    destruct Hbuild as [w' Hrun]. by eexists _, w'.
Qed.
End translator_facts.

(** Counterexample to C7 as stated: the payload is valid JSON with two
    fence markers inside a string; sent bare it is translated to the number
    1, not to its parse, and sent in a fence tagged json it is not
    translated at all. *)
Lemma fence_inside_payload :
  json_loads (PyLib := Example.lib) Example.payload_with_fences
  = Some (JObj [("a", JStr "```1```")])
  ∧ (AIQueryHandler._build_elasticsearch_query (H := Example.lib)
       (Example.chat_services Example.payload_with_fences Example.store_two)
       "What did we sell?" Example.world0).1
    = Ok (JInt 1)
  ∧ ∃ e,
      (AIQueryHandler._build_elasticsearch_query (H := Example.lib)
         (Example.chat_services (fenced "json" Example.payload_with_fences)
            Example.store_two)
         "What did we sell?" Example.world0).1
      = Raise e
      ∧ exn_class e = "JSONDecodeError".
Proof.
  split; [vm_compute; reflexivity |]. split; [vm_compute; reflexivity |].
  eexists. split; [vm_compute; reflexivity | reflexivity].
Qed.

(** Witness of C7 (amended): the empty specification in a fence tagged
    json. *)
Lemma translation_of_fenced_text_witness :
  chat_create (Example.chat_services (fenced "json" "{}") Example.store_two)
    (trace Example.world0) (AIQueryHandler.query_request "What did we sell?")
  = Ok [Some (fenced "json" "{}")]
  ∧ str_in "```" "{}" = false
  ∧ json_loads (PyLib := Example.lib) (py_strip "{}")
    = json_loads (PyLib := Example.lib) "{}"
  ∧ ∃ w',
      AIQueryHandler._build_elasticsearch_query (H := Example.lib)
        (Example.chat_services (fenced "json" "{}") Example.store_two)
        "What did we sell?" Example.world0
      = (Ok (JObj []), w').
Proof.
  split; [reflexivity |]. split; [reflexivity |]. split; [reflexivity |].
  destruct (translation_of_fenced_text (H := Example.lib)
              (Example.chat_services (fenced "json" "{}") Example.store_two)
              "What did we sell?" Example.world0 (fenced "json" "{}") []
              eq_refl) as [_ Hfenced].
  apply (Hfenced "{}"); [reflexivity | reflexivity | by right; left].
Defined.
